(** * Test2img: layout segmentation engine

    A shallow embedding of the question-boundary code of the repository
    ([src/ocr_text_merger.py], [src/question_extractor.py],
    [src/layout_analyzer.py], [src/pattern_matcher.py], [src/config.py])
    and the properties of it that the specification states.

    Conventions of the embedding.
    - Python [int] is [Z]; pixel coordinates of the recognizer polygons are
      taken at integer positions, so that [int(y)] is the identity.
    - Python [float] results that are only averaged (centres, confidences)
      are exact rationals [Q]; the two products [int(h * 0.97)] and
      [int(t * 0.3)] are computed bit-exactly as binary64 products.
    - A question [dict] is a record; because the code keeps mutating a
      question after it was appended to a list, questions live in a store
      and lists hold references (indices into the store).
    - [print] calls and the [debug_mode] branches have no effect on the
      state and are left out. *)

From Stdlib Require Import ZArith QArith Qabs Lia String Ascii List Sorting.Sorted Permutation.
From stdpp Require Import base option list gmap sorting.
Import ListNotations.
Local Open Scope Z_scope.

(** ** Binary64 products with a constant, truncated by [int()] *)

Module Float.

(** Rounds the positive integer [N] to 53 significant bits, ties to even. *)
Definition round53 (N : Z) : Z :=
  let k := Z.log2 N + 1 in
  if k <=? 53 then N
  else
    let s := k - 53 in
    let q := N / 2 ^ s in
    let r := N mod 2 ^ s in
    let q' := if (2 * r >? 2 ^ s) || ((2 * r =? 2 ^ s) && Z.odd q) then q + 1 else q in
    q' * 2 ^ s.

(** The binary64 nearest to 0.97 is [m097 / 2^53]; to 0.3, [m03 / 2^54]. *)
Definition m097 : Z := 8736983277098762.
Definition m03 : Z := 5404319552844595.

(** [int(h * 0.97)] for an integer [0 <= h < 2^53]. *)
Definition int_mul_097 (h : Z) : Z := round53 (h * m097) / 2 ^ 53.

(** [int(t * 0.3)] for an integer [0 <= t < 2^53]. *)
Definition int_mul_03 (t : Z) : Z := round53 (t * m03) / 2 ^ 54.

End Float.

(** ** Recognized lines *)

Definition Point : Type := Z * Z.

(** The quadrilateral of a recognized line: [[x1,y1],[x2,y2],[x3,y3],[x4,y4]]. *)
Record Box := mkBox { pt1 : Point; pt2 : Point; pt3 : Point; pt4 : Point }.

Definition points (b : Box) : list Point := [pt1 b; pt2 b; pt3 b; pt4 b].

(** One entry [[box, (text, confidence)]] of an OCR result. *)
Record Line := mkLine { line_box : Box; line_text : string; line_conf : Q }.

(** An OCR result; a falsy entry ([None], [[]]) is [None]. *)
Definition OcrResult : Type := list (option Line).

(** [min(l)] and [max(l)]; Python raises on the empty list, which no box gives. *)
Definition zmin (l : list Z) : Z :=
  match l with [] => 0 | x :: r => fold_left Z.min r x end.
Definition zmax (l : list Z) : Z :=
  match l with [] => 0 | x :: r => fold_left Z.max r x end.

Definition zsum (l : list Z) : Z := fold_right Z.add 0 l.
Definition qsum (l : list Q) : Q := fold_right Qplus (0 # 1) l.

(** [np.mean] of integers and of rationals. *)
Definition mean (l : list Z) : Q := inject_Z (zsum l) / inject_Z (Z.of_nat (length l)).
Definition meanQ (l : list Q) : Q := qsum l / inject_Z (Z.of_nat (length l)).

Definition x_coords (b : Box) : list Z := map fst (points b).
Definition y_coords (b : Box) : list Z := map snd (points b).

Definition line_x_min (l : Line) : Z := zmin (x_coords (line_box l)).
Definition line_y_min (l : Line) : Z := zmin (y_coords (line_box l)).
Definition line_y_max (l : Line) : Z := zmax (y_coords (line_box l)).
Definition y_center (l : Line) : Q := mean (y_coords (line_box l)).

(** [sorted(l, key=key)]: stable, ascending. *)
Fixpoint insert_by {A} (key : A -> Z) (x : A) (l : list A) : list A :=
  match l with
  | [] => [x]
  | y :: r => if key x <=? key y then x :: y :: r else y :: insert_by key x r
  end.

Definition sorted_by {A} (key : A -> Z) (l : list A) : list A :=
  fold_right (insert_by key) [] l.

(** ** The line merger ([OCRTextMerger]) *)

Module OCRTextMerger.

(** [self.line_y_threshold = 10.0] *)
Definition line_y_threshold : Q := 10 # 1.

(** The test of [merge_same_line_texts]:
    [abs(y_center - last_y_center) <= self.line_y_threshold]. *)
Definition same_line (last cur : Line) : bool :=
  Qle_bool (Qabs (y_center cur - y_center last)) line_y_threshold.

Definition join_texts (l : list string) : string := fold_right String.append EmptyString l.

Definition _merge_line_texts (line_texts : list Line) : option Line :=
  match line_texts with
  | [] => None
  | [text_info] => Some (mkLine (line_box text_info) (line_text text_info) (line_conf text_info))
  | _ =>
      let sorted_texts := sorted_by line_x_min line_texts in
      let merged_text := join_texts (map line_text sorted_texts) in
      let avg_conf := meanQ (map line_conf sorted_texts) in
      let all_points := concat (map (fun info => points (line_box info)) sorted_texts) in
      let xs := map fst all_points in
      let ys := map snd all_points in
      let x_min := zmin xs in
      let x_max := zmax xs in
      let y_min := zmin ys in
      let y_max := zmax ys in
      Some (mkLine (mkBox (x_min, y_min) (x_max, y_min) (x_max, y_max) (x_min, y_max))
              merged_text avg_conf)
  end.

(** One turn of the loop over [sorted_result]; the state is
    [(merged_result, current_line_texts)]. *)
Definition merge_step (st : OcrResult * list Line) (line_data : Line) : OcrResult * list Line :=
  let '(merged_result, current_line_texts) := st in
  match last current_line_texts with
  | None => (merged_result, [line_data])
  | Some prev =>
      if same_line prev line_data
      then (merged_result, current_line_texts ++ [line_data])
      else (merged_result ++ [_merge_line_texts current_line_texts], [line_data])
  end.

Definition merge_same_line_texts (ocr_result : list Line) : OcrResult :=
  match ocr_result with
  | [] => []
  | _ =>
      let sorted_result := sorted_by line_y_min ocr_result in
      let '(merged_result, current_line_texts) := fold_left merge_step sorted_result ([], []) in
      match current_line_texts with
      | [] => merged_result
      | _ => merged_result ++ [_merge_line_texts current_line_texts]
      end
  end.

(** The visual lines that the loop forms from [sorted_result] when it
    starts with [current_line_texts = cur]. *)
Fixpoint group (cur : list Line) (sorted_result : list Line) : list (list Line) :=
  match sorted_result with
  | [] => match cur with [] => [] | _ => [cur] end
  | line_data :: rest =>
      match last cur with
      | None => group [line_data] rest
      | Some prev =>
          if same_line prev line_data
          then group (cur ++ [line_data]) rest
          else cur :: group [line_data] rest
      end
  end.

(** Consecutive fragments of a visual line pass the test. *)
Definition chained (c : list Line) : Prop :=
  forall i a b, c !! i = Some a -> c !! S i = Some b -> same_line a b = true.

(** The last fragment of a visual line and the first of the next fail it. *)
Definition separated (cs : list (list Line)) : Prop :=
  forall i c1 c2 a b,
    cs !! i = Some c1 -> cs !! S i = Some c2 -> last c1 = Some a -> head c2 = Some b ->
    same_line a b = false.

(** What [_merge_line_texts] makes of the visual line [c]: the
    fragments in [x_min] order [s], their texts joined, their
    confidences averaged, the bounds of their boxes; for two fragments
    or more the box is the rectangle of these bounds. *)
Definition merged_from (c : list Line) (m : Line) : Prop :=
  (forall f, c = [f] -> m = f) /\
  exists s,
    Permutation s c /\
    Sorted (fun a b => line_x_min a <= line_x_min b) s /\
    line_text m = join_texts (map line_text s) /\
    (line_conf m == meanQ (map line_conf s))%Q /\
    zmin (x_coords (line_box m)) = zmin (map (fun f => zmin (x_coords (line_box f))) s) /\
    zmax (x_coords (line_box m)) = zmax (map (fun f => zmax (x_coords (line_box f))) s) /\
    zmin (y_coords (line_box m)) = zmin (map (fun f => zmin (y_coords (line_box f))) s) /\
    zmax (y_coords (line_box m)) = zmax (map (fun f => zmax (y_coords (line_box f))) s) /\
    ((2 <= length c)%nat ->
     line_box m
     = mkBox
         (zmin (map (fun f => zmin (x_coords (line_box f))) s),
          zmin (map (fun f => zmin (y_coords (line_box f))) s))
         (zmax (map (fun f => zmax (x_coords (line_box f))) s),
          zmin (map (fun f => zmin (y_coords (line_box f))) s))
         (zmax (map (fun f => zmax (x_coords (line_box f))) s),
          zmax (map (fun f => zmax (y_coords (line_box f))) s))
         (zmin (map (fun f => zmin (x_coords (line_box f))) s),
          zmax (map (fun f => zmax (y_coords (line_box f))) s))).

(** The rule of the specification, in its words: the centres differ by
    less than 0.8 times the average line height of the page, or the
    vertical spans overlap by more than 30% of the larger height. *)
Definition line_height (l : Line) : Z := line_y_max l - line_y_min l.

Definition spec_same_line (page : list Line) (a b : Line) : bool :=
  let threshold := ((8 # 10) * mean (map line_height page))%Q in
  let overlap := Z.min (line_y_max a) (line_y_max b) - Z.max (line_y_min a) (line_y_min b) in
  let larger := Z.max (line_height a) (line_height b) in
  negb (Qle_bool threshold (Qabs (y_center a - y_center b)))
  || negb (Qle_bool (inject_Z overlap) ((3 # 10) * inject_Z larger)%Q).

End OCRTextMerger.

(** ** Pattern matching ([PatternMatcher])

    The extractor receives its matcher at construction and the patterns
    come from the configuration, so the matcher is an interface; the
    instance [Config.default_matcher] below follows [Config.__init__]. *)

Record PatternMatcher := mkMatcher {
  is_chinese_number_question : string -> bool;
  is_sub_question : string -> bool;
  is_nested_sub_question : string -> bool;
  extract_nested_sub_number : string -> option Z;
  (** [matches_pattern(text, 'question')] *)
  matches_question_pattern : string -> bool
}.

Module Config.

(** Texts are byte strings (UTF-8); white space and [\d] are taken in
    the ASCII range. *)
Definition is_space (c : ascii) : bool :=
  let n := nat_of_ascii c in
  ((9 <=? n) && (n <=? 13))%nat || ((28 <=? n) && (n <=? 32))%nat.

Definition is_digit (c : ascii) : bool :=
  let n := nat_of_ascii c in ((48 <=? n) && (n <=? 57))%nat.

Fixpoint lstrip (s : string) : string :=
  match s with
  | String c r => if is_space c then lstrip r else s
  | EmptyString => s
  end.

Fixpoint rev_string (acc s : string) : string :=
  match s with
  | EmptyString => acc
  | String c r => rev_string (String c acc) r
  end.

(** [text.strip()] *)
Definition strip (s : string) : string :=
  rev_string EmptyString (lstrip (rev_string EmptyString (lstrip s))).

Fixpoint strip_prefix (p s : string) : option string :=
  match p, s with
  | EmptyString, _ => Some s
  | String a p', String b s' => if Ascii.eqb a b then strip_prefix p' s' else None
  | String _ _, EmptyString => None
  end.

(** Consumes one of the alternatives [ps] at the head of [s]. *)
Fixpoint one_of (ps : list string) (s : string) : option string :=
  match ps with
  | [] => None
  | p :: ps' =>
      match strip_prefix p s with
      | Some r => Some r
      | None => one_of ps' s
      end
  end.

(** [cs+] for a character class given by its members: at least one. *)
Fixpoint many1 (fuel : nat) (cs : list string) (s : string) : option string :=
  match fuel with
  | O => None
  | S fuel' =>
      match one_of cs s with
      | None => None
      | Some r =>
          match many1 fuel' cs r with
          | Some r' => Some r'
          | None => Some r
          end
      end
  end.

(** [[0-9]+] : the digits read, as a number, and the rest. *)
Fixpoint digits (acc : option Z) (s : string) : option Z * string :=
  match s with
  | String c r =>
      if is_digit c
      then digits (Some (10 * default 0 acc + Z.of_nat (nat_of_ascii c - 48))) r
      else (acc, s)
  | EmptyString => (acc, s)
  end.

Definition chinese_numerals : list string :=
  ["一"; "二"; "三"; "四"; "五"; "六"; "七"; "八"; "九"; "十"]%string.
Definition chinese_separators : list string := ["、"; "．"]%string.
Definition nested_open : list string := ["（"; "("; "）"; ")"; "["; "]"]%string.
Definition nested_close : list string := ["）"; ")"; "]"]%string.
Definition type_titles : list string :=
  ["选择题"; "填空题"; "简答题"; "计算题"; "阅读理解"; "解答题"]%string.

(** [^[一二三四五六七八九十]+[、．]] *)
Definition chinese_number_pattern (s : string) : bool :=
  match many1 (S (String.length s)) chinese_numerals s with
  | Some r => bool_decide (is_Some (one_of chinese_separators r))
  | None => false
  end.

(** [^\d+\.\S+] *)
Definition sub_question_pattern (s : string) : bool :=
  match digits None s with
  | (Some _, String "."%char (String c _)) => negb (is_space c)
  | _ => false
  end.

(** [[（(）)\[\]]([0-9]+)[）)\]）]] at the head of [s]: the number. *)
Definition nested_at (s : string) : option Z :=
  match one_of nested_open s with
  | Some r =>
      match digits None r with
      | (Some n, r') => if bool_decide (is_Some (one_of nested_close r')) then Some n else None
      | (None, _) => None
      end
  | None => None
  end.

(** [re.search] of the same pattern: the leftmost occurrence. *)
Fixpoint nested_search (s : string) : option Z :=
  match nested_at s with
  | Some n => Some n
  | None =>
      match s with
      | String _ r => nested_search r
      | EmptyString => None
      end
  end.

Definition type_title_pattern (s : string) : bool :=
  bool_decide (is_Some (one_of type_titles s)).

Definition default_matcher : PatternMatcher := {|
  is_chinese_number_question text := chinese_number_pattern (strip text);
  is_sub_question text := sub_question_pattern (strip text);
  is_nested_sub_question text := bool_decide (is_Some (nested_at (strip text)));
  extract_nested_sub_number text :=
    match text with
    | EmptyString => None
    | _ => nested_search (strip text)
    end;
  matches_question_pattern text :=
    chinese_number_pattern (strip text) || sub_question_pattern (strip text)
    || type_title_pattern (strip text)
|}.

End Config.


(** ** Question records and the store *)

Inductive QuestionType := Chinese | Sub | Other.

(** The keys of a question [dict]; an absent key and [None] are both
    [None], an absent flag is [false]. [start_x] is always 0,
    [is_chinese_question] is [q_type = Chinese] and the image objects
    ([page_image], [pages_data]) are kept as [q_image_height]. *)
Record Question := mkQuestion {
  q_start_y : Z;
  q_text : string;
  q_page : Z;
  q_type : QuestionType;
  q_text_height : Z;
  q_nested : list Z;                 (* nested_sub_numbers *)
  q_early_end_y : option Z;
  q_early_end_text : option string;
  q_cross_page : bool;
  q_cross_page_to : option Z;
  q_cross_page_merged : bool;
  q_cross_page_end_page : option Z;
  q_cross_page_end_y : option Z;
  q_image_height : option Z;
  q_end_y : option Z;
  q_end_page : option Z;
  q_next_question_y : option Z;
  q_potential_cross_page : bool
}.

Definition new_question (y_pos : Z) (text : string) (page_num : Z) (ty : QuestionType)
    (text_height : Z) : Question :=
  mkQuestion y_pos text page_num ty text_height [] None None false None false None None None
    None None None false.

Definition set_text_height (v : Z) (q : Question) : Question :=
  let 'mkQuestion a b c d _ f g h i j k l m n o p r s := q in
  mkQuestion a b c d v f g h i j k l m n o p r s.
Definition set_nested (v : list Z) (q : Question) : Question :=
  let 'mkQuestion a b c d e _ g h i j k l m n o p r s := q in
  mkQuestion a b c d e v g h i j k l m n o p r s.
Definition set_early_end_y (v : option Z) (q : Question) : Question :=
  let 'mkQuestion a b c d e f _ h i j k l m n o p r s := q in
  mkQuestion a b c d e f v h i j k l m n o p r s.
Definition set_early_end_text (v : option string) (q : Question) : Question :=
  let 'mkQuestion a b c d e f g _ i j k l m n o p r s := q in
  mkQuestion a b c d e f g v i j k l m n o p r s.
Definition set_cross_page (v : bool) (q : Question) : Question :=
  let 'mkQuestion a b c d e f g h _ j k l m n o p r s := q in
  mkQuestion a b c d e f g h v j k l m n o p r s.
Definition set_cross_page_to (v : option Z) (q : Question) : Question :=
  let 'mkQuestion a b c d e f g h i _ k l m n o p r s := q in
  mkQuestion a b c d e f g h i v k l m n o p r s.
Definition set_cross_page_merged (v : bool) (q : Question) : Question :=
  let 'mkQuestion a b c d e f g h i j _ l m n o p r s := q in
  mkQuestion a b c d e f g h i j v l m n o p r s.
Definition set_cross_page_end_page (v : option Z) (q : Question) : Question :=
  let 'mkQuestion a b c d e f g h i j k _ m n o p r s := q in
  mkQuestion a b c d e f g h i j k v m n o p r s.
Definition set_cross_page_end_y (v : option Z) (q : Question) : Question :=
  let 'mkQuestion a b c d e f g h i j k l _ n o p r s := q in
  mkQuestion a b c d e f g h i j k l v n o p r s.
Definition set_image_height (v : option Z) (q : Question) : Question :=
  let 'mkQuestion a b c d e f g h i j k l m _ o p r s := q in
  mkQuestion a b c d e f g h i j k l m v o p r s.
Definition set_end_y (v : option Z) (q : Question) : Question :=
  let 'mkQuestion a b c d e f g h i j k l m n _ p r s := q in
  mkQuestion a b c d e f g h i j k l m n v p r s.
Definition set_end_page (v : option Z) (q : Question) : Question :=
  let 'mkQuestion a b c d e f g h i j k l m n o _ r s := q in
  mkQuestion a b c d e f g h i j k l m n o v r s.
Definition set_next_question_y (v : option Z) (q : Question) : Question :=
  let 'mkQuestion a b c d e f g h i j k l m n o p _ s := q in
  mkQuestion a b c d e f g h i j k l m n o p v s.
Definition set_potential_cross_page (v : bool) (q : Question) : Question :=
  let 'mkQuestion a b c d e f g h i j k l m n o p r _ := q in
  mkQuestion a b c d e f g h i j k l m n o p r v.

(** A reference to a question object: its index in the store. *)
Abbreviation ref := nat.
Abbreviation Store := (list Question).

(** [obj[...] = ...] on the object [r]. *)
Definition update (r : ref) (f : Question -> Question) (st : Store) : Store := alter f r st.

(** ** The boundary extractor ([QuestionExtractor]) *)

Module QuestionExtractor.

(** The [dict] returned by [_check_next_nested_sub_question]. *)
Record LookAhead := mkLookAhead {
  found_next_nested : bool;
  la_cross_page : bool;
  la_cross_page_to : option Z;
  la_early_end_y : option Z;
  la_early_end_text : option string
}.

(** The local variables of [extract_question_positions]. *)
Record State := mkState {
  store : Store;
  questions : list ref;
  seen_start_positions : gset Z;
  current_question : option ref;
  is_chinese_question : bool;
  nested_sub_numbers : list Z
}.

Section WithMatcher.

Variable pm : PatternMatcher.
(** [getattr(config, 'question_primary_type', 'chinese') != 'arabic'] *)
Variable prefer_chinese_primary : bool.

(** [next_nested_num == next_expected_number] *)
Definition is_number (o : option Z) (expected : Z) : bool :=
  match o with Some n => n =? expected | None => false end.

(** The loop over the remaining lines of the current page; the
    result is [(found_next_nested, early_end_y, early_end_text,
    checked_lines)]. *)
Fixpoint scan_current_page (expected : Z) (window : OcrResult)
    (early_end_y : option Z) (early_end_text : option string) (checked_lines : nat)
    : bool * option Z * option string * nat :=
  match window with
  | [] => (false, early_end_y, early_end_text, checked_lines)
  | None :: rest => scan_current_page expected rest early_end_y early_end_text checked_lines
  | Some next_line_data :: rest =>
      let next_line_text := line_text next_line_data in
      let next_y_min := line_y_min next_line_data in
      if is_nested_sub_question pm next_line_text
         && is_number (extract_nested_sub_number pm next_line_text) expected
      then (true, early_end_y, early_end_text, checked_lines)
      else
        match early_end_y with
        | None =>
            scan_current_page expected rest (Some next_y_min)
              (Some (substring 0 30 next_line_text)) (S checked_lines)
        | Some _ =>
            scan_current_page expected rest early_end_y early_end_text (S checked_lines)
        end
  end.

(** The loop over the first lines of the next page: [true] when it
    returns the cross-page result. *)
Fixpoint scan_next_page (expected : Z) (window : OcrResult) : bool :=
  match window with
  | [] => false
  | None :: rest => scan_next_page expected rest
  | Some next_line_data :: rest =>
      let next_line_text := line_text next_line_data in
      if is_nested_sub_question pm next_line_text
         && is_number (extract_nested_sub_number pm next_line_text) expected
      then true
      else scan_next_page expected rest
  end.

(** The entry is a line that is the nested item [expected]: the
    test of both scans. *)
Definition is_item (expected : Z) (entry : option Line) : bool :=
  match entry with
  | Some line_data =>
      is_nested_sub_question pm (line_text line_data)
      && is_number (extract_nested_sub_number pm (line_text line_data)) expected
  | None => false
  end.

(** The first entry of a window that is a line. *)
Fixpoint first_line (window : OcrResult) : option Line :=
  match window with
  | [] => None
  | Some line_data :: _ => Some line_data
  | None :: rest => first_line rest
  end.

(** The number of entries of a window that are lines. *)
Fixpoint count_lines (window : OcrResult) : nat :=
  match window with
  | [] => 0%nat
  | Some _ :: rest => S (count_lines rest)
  | None :: rest => count_lines rest
  end.

(** The item [expected] is among the first [budget] entries of the
    page after [page_num], which exists and was recognized. *)
Definition found_on_next_page (expected : Z) (page_num : Z)
    (all_page_ocr_results : gmap Z OcrResult) (total_pages : Z) (budget : nat) : bool :=
  (page_num + 1 <=? total_pages)
  && match all_page_ocr_results !! (page_num + 1) with
     | Some next_page_ocr => existsb (is_item expected) (take budget next_page_ocr)
     | None => false
     end.

Definition _check_next_nested_sub_question (current_idx : nat) (ocr_result : OcrResult)
    (nested_number : Z) (page_num : Z) (all_page_ocr_results : gmap Z OcrResult)
    (total_pages : Z) : LookAhead :=
  let next_expected_number := nested_number + 1 in
  let look_ahead_count := 3%nat in
  let current_page_lines_remaining := (length ocr_result - current_idx - 1)%nat in
  let lines_to_check_current_page := Nat.min look_ahead_count current_page_lines_remaining in
  let '(found_next_nested, early_end_y, early_end_text, checked_lines) :=
    scan_current_page next_expected_number
      (take lines_to_check_current_page (drop (S current_idx) ocr_result)) None None 0%nat in
  let result := mkLookAhead found_next_nested false None early_end_y early_end_text in
  if negb found_next_nested && (checked_lines <? look_ahead_count)%nat then
    let remaining_lines_to_check := (look_ahead_count - checked_lines)%nat in
    let next_page_num := page_num + 1 in
    if next_page_num <=? total_pages then
      match all_page_ocr_results !! next_page_num with
      | Some next_page_ocr =>
          if scan_next_page next_expected_number (take remaining_lines_to_check next_page_ocr)
          then mkLookAhead true true (Some next_page_num) None None
          else result
      | None => result
      end
    else result
  else result.

(** [if current_question: questions.append(current_question)] *)
Definition save_current (st : State) : list ref :=
  match current_question st with
  | Some r => questions st ++ [r]
  | None => questions st
  end.

(** The common tail of the three opening branches once the current
    question was saved: the duplicate guard, then the new [dict]. *)
Definition open_question (ty : QuestionType) (line_data : Line) (page_num : Z)
    (saved : list ref) (nested_if_skipped : list Z) (st : State) : State :=
  let y_pos := line_y_min line_data in
  if bool_decide (y_pos ∈ seen_start_positions st) then
    mkState (store st) saved (seen_start_positions st) (current_question st)
      (is_chinese_question st) nested_if_skipped
  else
    let text_height := line_y_max line_data - line_y_min line_data in
    let q := new_question y_pos (line_text line_data) page_num ty text_height in
    mkState (store st ++ [q]) saved ({[y_pos]} ∪ seen_start_positions st)
      (Some (length (store st)))
      (match ty with Chinese => true | _ => false end) [].

(** The handling of the look-ahead result in the nested branch. *)
Definition apply_look_ahead (info : LookAhead) (q : Question) : Question :=
  let q1 :=
    if la_cross_page info
    then set_cross_page_to (la_cross_page_to info) (set_cross_page true q)
    else q in
  if negb (found_next_nested info) then
    if q_cross_page q1 then q1
    else
      match la_early_end_y info with
      | Some early_end_y =>
          let question_start_y := q_start_y q1 in
          if early_end_y >? question_start_y then
            match q_early_end_y q1 with
            | None =>
                set_early_end_text (la_early_end_text info)
                  (set_early_end_y (Some early_end_y) q1)
            | Some existing_early_end =>
                if (early_end_y <? existing_early_end) && (early_end_y >? question_start_y)
                then set_early_end_text (la_early_end_text info)
                       (set_early_end_y (Some early_end_y) q1)
                else q1
            end
          else q1
      | None => q1
      end
  else q1.

(** The body of the loop of [extract_question_positions] for the
    entry [line_data] at index [idx]. *)
Definition process_line (ocr_result : OcrResult) (page_num : Z)
    (all_page_ocr_results : gmap Z OcrResult) (total_pages : Z)
    (idx : nat) (entry : option Line) (st : State) : State :=
  match entry with
  | None => st
  | Some line_data =>
      let line_text := line_text line_data in
      if is_chinese_number_question pm line_text then
        if prefer_chinese_primary then
          open_question Chinese line_data page_num (save_current st) [] st
        else
          let boundary_y := line_y_min line_data in
          match current_question st with
          | Some r =>
              let st1 :=
                update r (fun q =>
                  if boundary_y >? q_start_y q
                  then set_early_end_text (Some (substring 0 30 line_text))
                         (set_early_end_y (Some boundary_y) q)
                  else q) (store st) in
              mkState st1 (questions st ++ [r]) (seen_start_positions st) None false []
          | None =>
              mkState (store st) (questions st) (seen_start_positions st) None false []
          end
      else if is_sub_question pm line_text then
        if prefer_chinese_primary && is_chinese_question st
           && bool_decide (is_Some (current_question st))
        then st
        else open_question Sub line_data page_num (save_current st) (nested_sub_numbers st) st
      else if is_nested_sub_question pm line_text then
        match current_question st with
        | Some r =>
            match extract_nested_sub_number pm line_text with
            | Some nested_number =>
                let nested := nested_sub_numbers st ++ [nested_number] in
                let info :=
                  _check_next_nested_sub_question idx ocr_result nested_number page_num
                    all_page_ocr_results total_pages in
                let st1 :=
                  update r (fun q => apply_look_ahead info (set_nested nested q)) (store st) in
                mkState st1 (questions st) (seen_start_positions st) (current_question st)
                  (is_chinese_question st) nested
            | None => st
            end
        | None => st
        end
      else if matches_question_pattern pm line_text then
        let y_pos := line_y_min line_data in
        let st1 :=
          match current_question st with
          | Some r =>
              update r (fun q =>
                match q_early_end_y q with
                | Some early_end_y =>
                    if y_pos <? early_end_y
                    then set_early_end_text (Some (substring 0 30 line_text))
                           (set_early_end_y (Some y_pos) q)
                    else q
                | None => q
                end) (store st)
          | None => store st
          end in
        let st' :=
          mkState st1 (questions st) (seen_start_positions st) (current_question st)
            (is_chinese_question st) (nested_sub_numbers st) in
        open_question Other line_data page_num (save_current st') (nested_sub_numbers st) st'
      else st
  end.

Fixpoint extract_loop (ocr_result : OcrResult) (page_num : Z)
    (all_page_ocr_results : gmap Z OcrResult) (total_pages : Z)
    (idx : nat) (rest : OcrResult) (st : State) : State :=
  match rest with
  | [] => st
  | entry :: rest' =>
      extract_loop ocr_result page_num all_page_ocr_results total_pages (S idx) rest'
        (process_line ocr_result page_num all_page_ocr_results total_pages idx entry st)
  end.

Definition initial_state (heap : Store) : State := mkState heap [] ∅ None false [].

(** [extract_question_positions]: the store after the call and the
    returned list [questions]. *)
Definition extract_question_positions (heap : Store) (ocr_result : OcrResult) (page_num : Z)
    (all_page_ocr_results : gmap Z OcrResult) (total_pages : Z) : Store * list ref :=
  let st :=
    extract_loop ocr_result page_num all_page_ocr_results total_pages 0%nat ocr_result
      (initial_state heap) in
  (store st, save_current st).

End WithMatcher.

End QuestionExtractor.

(** ** The page traversal and the finalizer ([LayoutAnalyzer]) *)

Module LayoutAnalyzer.

Import QuestionExtractor.

(** A page image with what the recognizer returns for it (after the
    coordinate correction of [analyze_page]). *)
Record Page := mkPage { page_height : Z; page_lines : list Line }.

(** [images[page_num - 1].height] *)
Definition height_of (images : list Page) (page_num : Z) : Z :=
  match images !! Z.to_nat (page_num - 1) with
  | Some img => page_height img
  | None => 0
  end.

(** [all_ocr_results]: page number (from 1) to the merged lines that
    [analyze_page] returns; the questions it extracts on the way are
    discarded by the first step. *)
Definition collect_ocr (images : list Page) : gmap Z OcrResult :=
  list_to_map
    (imap (fun i img => (Z.of_nat (S i), OCRTextMerger.merge_same_line_texts (page_lines img)))
       images).

(** [max(l) + 1 if l else 1] *)
Definition next_number (l : list Z) : Z :=
  match l with [] => 1 | _ => zmax l + 1 end.

(** The [k] consecutive numbers from [e] on. *)
Definition consecutive (e : Z) (k : nat) : list Z :=
  map (fun i => e + Z.of_nat i) (seq 0 k).

(** The local variables of the second step of [analyze_all_pages]. *)
Record Traversal := mkTraversal {
  heap : Store;
  all_questions : list (Z * ref);
  pending_cross_page_question : option (ref * Z)
}.

Section WithMatcher.

Variable pm : PatternMatcher.
Variable prefer_chinese_primary : bool.

(** The loop that merges the nested items of the current page into
    the pending question: [(merged_sub_numbers,
    expected_next_number, merged_count)]. *)
Fixpoint merge_nested (ocr_result : OcrResult) (merged_sub_numbers : list Z)
    (expected_next_number : Z) (merged_count : nat) : list Z * Z * nat :=
  match ocr_result with
  | [] => (merged_sub_numbers, expected_next_number, merged_count)
  | None :: rest => merge_nested rest merged_sub_numbers expected_next_number merged_count
  | Some line_data :: rest =>
      let line_text := line_text line_data in
      if is_nested_sub_question pm line_text then
        match extract_nested_sub_number pm line_text with
        | Some nested_number =>
            if nested_number =? expected_next_number
            then merge_nested rest (merged_sub_numbers ++ [nested_number])
                   (nested_number + 1) (S merged_count)
            else merge_nested rest merged_sub_numbers expected_next_number merged_count
        | None => merge_nested rest merged_sub_numbers expected_next_number merged_count
        end
      else merge_nested rest merged_sub_numbers expected_next_number merged_count
  end.

(** Is [expected] among the nested items of the given lines? *)
Fixpoint has_nested (expected : Z) (lines : OcrResult) : bool :=
  match lines with
  | [] => false
  | None :: rest => has_nested expected rest
  | Some line_data :: rest =>
      (is_nested_sub_question pm (line_text line_data)
       && is_number (extract_nested_sub_number pm (line_text line_data)) expected)
      || has_nested expected rest
  end.

(** The probe of the following pages: the first page of
    [range(page_idx + 1, min(page_idx + 3, total_pages + 1))] whose
    first three lines hold the expected number. *)
Fixpoint probe_pages (all_ocr_results : gmap Z OcrResult) (expected : Z)
    (check_pages : list Z) : option Z :=
  match check_pages with
  | [] => None
  | check_page_num :: rest =>
      match all_ocr_results !! check_page_num with
      | Some check_page_ocr =>
          if has_nested expected (take 3 check_page_ocr) then Some check_page_num
          else probe_pages all_ocr_results expected rest
      | None => probe_pages all_ocr_results expected rest
      end
  end.

Definition pages_to_check (page_idx total_pages : Z) : list Z :=
  filter (fun p => p < Z.min (page_idx + 3) (total_pages + 1)) [page_idx + 1; page_idx + 2].

(** The [y_max] of the first line of the page that is the nested item
    [last_nested_num]. *)
Fixpoint find_end_y (last_nested_num : Z) (lines : OcrResult) : option Z :=
  match lines with
  | [] => None
  | None :: rest => find_end_y last_nested_num rest
  | Some line_data :: rest =>
      if is_nested_sub_question pm (line_text line_data)
         && is_number (extract_nested_sub_number pm (line_text line_data)) last_nested_num
      then Some (line_y_max line_data)
      else find_end_y last_nested_num rest
  end.

(** The end of a completed merge: the fields set on the question. *)
Definition complete_merge (images : list Page) (ocr_result : OcrResult)
    (cross_page_from_page page_idx : Z) (q : Question) : Question :=
  let q1 := set_cross_page_to None (set_cross_page false q) in
  let q2 :=
    match q_nested q1 with
    | [] => q1
    | final_nested_numbers =>
        match find_end_y (zmax final_nested_numbers) ocr_result with
        | Some y => set_cross_page_end_y (Some y) q1
        | None => q1
        end
    end in
  set_cross_page_end_page (Some page_idx)
    (set_cross_page_merged true
       (set_image_height (Some (height_of images cross_page_from_page)) q2)).

(** The block [if pending_cross_page_question: ...] at the head of
    the loop over the pages. *)
Definition resolve_pending (images : list Page) (all_ocr_results : gmap Z OcrResult)
    (total_pages page_idx : Z) (ocr_result : OcrResult) (t : Traversal) : Traversal :=
  match pending_cross_page_question t with
  | None => t
  | Some (cq, cross_page_from_page) =>
      match heap t !! cq with
      | None => t
      | Some q =>
          let cross_page_to_page := default page_idx (q_cross_page_to q) in
          if page_idx >=? cross_page_to_page then
            let '(merged_sub_numbers, _, merged_count) :=
              merge_nested ocr_result (q_nested q) (next_number (q_nested q)) 0%nat in
            if (0 <? merged_count)%nat then
              let final_expected_next := next_number merged_sub_numbers in
              match probe_pages all_ocr_results final_expected_next
                      (pages_to_check page_idx total_pages) with
              | Some check_page_num =>
                  mkTraversal
                    (update cq (fun q => set_cross_page_to (Some check_page_num)
                                           (set_nested merged_sub_numbers q)) (heap t))
                    (all_questions t) (pending_cross_page_question t)
              | None =>
                  mkTraversal
                    (update cq (fun q => complete_merge images ocr_result
                                           cross_page_from_page page_idx
                                           (set_nested merged_sub_numbers q)) (heap t))
                    (all_questions t ++ [(cross_page_from_page, cq)]) None
              end
            else t
          else t
      end
  end.

(** The loop [for q in questions] that files the questions of a page. *)
Fixpoint file_questions (images : list Page) (page_idx : Z) (qs : list ref)
    (t : Traversal) : Traversal :=
  match qs with
  | [] => t
  | r :: rest =>
      let cross := match heap t !! r with Some q => q_cross_page q | None => false end in
      if cross then
        file_questions images page_idx rest
          (mkTraversal (heap t) (all_questions t) (Some (r, page_idx)))
      else
        file_questions images page_idx rest
          (mkTraversal
             (update r (set_image_height (Some (height_of images page_idx))) (heap t))
             (all_questions t ++ [(page_idx, r)]) (pending_cross_page_question t))
  end.

(** One turn of the loop over the pages in the second step. *)
Definition visit_page (images : list Page) (all_ocr_results : gmap Z OcrResult)
    (total_pages page_idx : Z) (t : Traversal) : Traversal :=
  let ocr_result := default [] (all_ocr_results !! page_idx) in
  let t1 := resolve_pending images all_ocr_results total_pages page_idx ocr_result t in
  let '(heap1, questions) :=
    extract_question_positions pm prefer_chinese_primary (heap t1) ocr_result page_idx
      all_ocr_results total_pages in
  file_questions images page_idx questions
    (mkTraversal heap1 (all_questions t1) (pending_cross_page_question t1)).

(** The pending question left when the pages are exhausted. *)
Definition flush_pending (images : list Page) (t : Traversal) : Traversal :=
  match pending_cross_page_question t with
  | Some (cq, cross_page_from_page) =>
      mkTraversal
        (update cq (set_image_height (Some (height_of images cross_page_from_page))) (heap t))
        (all_questions t ++ [(cross_page_from_page, cq)]) (pending_cross_page_question t)
  | None => t
  end.

(** The second step: [(store, all_questions)]. *)
Definition collect_questions (images : list Page) : Traversal :=
  let all_ocr_results := collect_ocr images in
  let total_pages := Z.of_nat (length images) in
  flush_pending images
    (fold_left (fun t page_idx => visit_page images all_ocr_results total_pages page_idx t)
       (map (fun i => Z.of_nat (S i)) (seq 0 (length images)))
       (mkTraversal [] [] None)).

End WithMatcher.

(** *** Third step: the minimal line height inside a question *)

(** The loop that collects [line_heights]; the [break] ends it. *)
Fixpoint collect_heights (question_start_y : Z) (question_end_y : option Z)
    (ocr_result : OcrResult) : list Z :=
  match ocr_result with
  | [] => []
  | None :: rest => collect_heights question_start_y question_end_y rest
  | Some line_data :: rest =>
      let line_y_min := line_y_min line_data in
      if line_y_min >=? question_start_y then
        if match question_end_y with
           | Some e => negb (e =? 0) && (line_y_min >? e)
           | None => false
           end
        then []
        else
          let text_height := line_y_max line_data - line_y_min in
          if text_height >? 0
          then text_height :: collect_heights question_start_y question_end_y rest
          else collect_heights question_start_y question_end_y rest
      else collect_heights question_start_y question_end_y rest
  end.

Definition refine_height (ocr_result : OcrResult) (q : Question) : Question :=
  match collect_heights (q_start_y q) (q_end_y q) ocr_result with
  | [] => q
  | line_heights => set_text_height (zmin line_heights) q
  end.

Definition refine_heights (page_ocr_results : gmap Z OcrResult) (aq : list (Z * ref))
    (st : Store) : Store :=
  fold_left
    (fun st '(page_num, r) =>
       update r (refine_height (default [] (page_ocr_results !! page_num))) st)
    aq st.

(** *** Fourth step: the end of each question *)

(** What the loop body reads of [next_question_info]:
    [(next_page, next_q['start_y'], next_q.get('text_height', 0))]. *)
Definition NextInfo : Type := Z * Z * Z.

(** The first [if/elif] chain. *)
Definition resolve_special (images : list Page) (page_num : Z) (q : Question) : Question :=
  if q_cross_page_merged q then
    let cross_page_end_page := default page_num (q_cross_page_end_page q) in
    match q_cross_page_end_y q with
    | Some cross_page_end_y =>
        set_end_page (Some cross_page_end_page) (set_end_y (Some cross_page_end_y) q)
    | None =>
        let end_page_height :=
          if cross_page_end_page <=? Z.of_nat (length images)
          then height_of images cross_page_end_page
          else height_of images page_num in
        set_end_page (Some cross_page_end_page)
          (set_end_y (Some (Float.int_mul_097 end_page_height)) q)
    end
  else if q_cross_page q then
    set_end_page (Some page_num)
      (set_end_y (Some (Float.int_mul_097 (height_of images page_num))) q)
  else
    match q_early_end_y q with
    | Some early_end_y =>
        if early_end_y >? q_start_y q
        then set_end_page (Some page_num) (set_end_y (Some early_end_y) q)
        else set_early_end_y None q
    | None => q
    end.

(** The second [if]: the regular computation. *)
Definition resolve_regular (images : list Page) (page_num : Z) (next : option NextInfo)
    (q : Question) : Question :=
  if match q_early_end_y q with None => true | Some _ => false end
     && negb (q_cross_page q) && negb (q_cross_page_merged q)
  then
    match next with
    | Some (next_page, next_question_y, next_text_height) =>
        if next_page =? page_num then
          let margin_offset := Float.int_mul_03 next_text_height in
          set_next_question_y (Some next_question_y)
            (set_end_page (Some page_num)
               (set_end_y (Some (next_question_y - margin_offset)) q))
        else
          set_potential_cross_page true
            (set_end_page (Some page_num)
               (set_end_y (Some (Float.int_mul_097 (height_of images page_num))) q))
    | None =>
        set_end_page (Some (Z.of_nat (length images)))
          (set_end_y (Some (Float.int_mul_097 (height_of images page_num))) q)
    end
  else q.

Definition resolve_question (images : list Page) (page_num : Z) (next : option NextInfo)
    (q : Question) : Question :=
  resolve_regular images page_num next (resolve_special images page_num q).

Definition next_info (st : Store) (next : option (Z * ref)) : option NextInfo :=
  match next with
  | Some (next_page, nr) =>
      match st !! nr with
      | Some next_q => Some (next_page, q_start_y next_q, q_text_height next_q)
      | None => None
      end
  | None => None
  end.

(** The loop of the fourth step over [all_questions[i:]]. *)
Fixpoint resolve_ends (images : list Page) (aq : list (Z * ref)) (st : Store) : Store :=
  match aq with
  | [] => st
  | (page_num, r) :: rest =>
      resolve_ends images rest
        (update r (resolve_question images page_num (next_info st (head rest))) st)
  end.

(** What the fourth step reads of a question and never changes: the
    start, the line height, the cross-page fields, and the early end
    in as far as it is valid. *)
Definition valid_early_end (q : Question) : option Z :=
  if q_cross_page_merged q || q_cross_page q then None
  else
    match q_early_end_y q with
    | Some e => if e >? q_start_y q then Some e else None
    | None => None
    end.

Definition view (q : Question) : Z * Z * bool * bool * option Z * option Z * option Z :=
  (q_start_y q, q_text_height q, q_cross_page_merged q, q_cross_page q,
   q_cross_page_end_page q, q_cross_page_end_y q, valid_early_end q).

(** The end fields. *)
Definition ends (q : Question) : option Z * option Z := (q_end_y q, q_end_page q).

(** [analyze_all_pages]: the store and [final_questions]. *)
Definition analyze_all_pages (pm : PatternMatcher) (prefer_chinese_primary : bool)
    (images : list Page) : Store * list ref :=
  let t := collect_questions pm prefer_chinese_primary images in
  let st3 := refine_heights (collect_ocr images) (all_questions t) (heap t) in
  let st4 := resolve_ends images (all_questions t) st3 in
  (st4, map snd (all_questions t)).

(** The question objects of a list of references. *)
Definition objects (st : Store) (rs : list ref) : list Question :=
  omap (fun r => st !! r) rs.

End LayoutAnalyzer.

(** ** Sample documents *)

Module Samples.

Import LayoutAnalyzer.

(** A recognized line: the axis-parallel box with top-left corner
    [(x, y)], width [w] and height [h], and the text [t]. *)
Definition ln (x y w h : Z) (t : string) : Line :=
  mkLine (mkBox (x, y) (x + w, y) (x + w, y + h) (x, y + h)) t (9 # 10).

(** Two fragments, each 100 high, centres 40 apart, spans overlapping
    by 60: one visual line by the 0.8-of-average-height rule and by
    the 30%-overlap rule. *)
Definition tall_fragment_a : Line := ln 0 0 50 100 "1.stem".
Definition tall_fragment_b : Line := ln 60 40 30 100 "text".

(** A question whose nested items continue on the second page. *)
Definition cross_page_document : list Page :=
  [ mkPage 1000 [ln 0 800 50 20 "1.stem"; ln 0 900 50 20 "(1) part a"];
    mkPage 1000 [ln 0 100 50 20 "(2) part b"] ].


(** The only question is on the first page; the last page is twice as
    high and has no text. *)
Definition trailing_page_document : list Page :=
  [ mkPage 1000 [ln 0 100 50 20 "1.stem"]; mkPage 2000 [] ].

(** Two opening markers with the same [y_min] 100 whose centres, 105
    and 120, are too far apart for the merger to join them. *)
Definition same_start_lines : list Line :=
  [ ln 0 100 50 10 "1.a"; ln 60 100 30 40 "2.b" ].
Definition same_start_document : list Page := [ mkPage 1000 same_start_lines ].

(** Two questions of the first page both wait for the item (2), which
    opens the second page. *)
Definition two_pending_document : list Page :=
  [ mkPage 1000 [ln 0 100 50 20 "1.a"; ln 0 200 50 20 "(1)x";
                 ln 0 300 50 20 "2.b"; ln 0 400 50 20 "(1)y"];
    mkPage 1000 [ln 0 100 50 20 "(2)z"] ].


(** The state of the extractor on the page above once the first line
    opened a question. *)
Definition question_open : QuestionExtractor.State :=
  QuestionExtractor.mkState [new_question 100 "1.stem" 1 Sub 20] [] {[100]} (Some 0%nat)
    false [].

(** A document of one page: a question, one nested item and a plain
    line, which the look-ahead records as early end. *)
Definition early_end_document : list Page :=
  [ mkPage 1000 [ln 0 100 50 20 "1.stem"; ln 0 200 50 20 "(1) a";
                 ln 0 300 50 20 "some text"] ].

(** The question of that document as the traversal leaves it. *)
Definition early_end_question : Question :=
  mkQuestion 100 "1.stem" 1 Sub 20 [1] (Some 300) (Some "some text"%string) false None
    false None None (Some 1000) (Some 300) (Some 1) None false.

(** Scenario A of the specification: a major heading, a minor heading
    under it and two nested items. *)
Definition scenario_a_document : list Page :=
  [ mkPage 1000 [ln 0 100 50 20 "一、"; ln 0 200 50 20 "1. stem text";
                 ln 0 300 50 20 "(1) part a"; ln 0 400 50 20 "(2) part b"] ].

(** Scenario D: a nested item and no open question. *)
Definition scenario_d_document : list Page := [ mkPage 1000 [ln 0 100 50 20 "(5)"] ].

End Samples.

(** ** Merging of adjacent zones ([ZoneExtractor.merge_adjacent_zones]) *)

Module ZoneExtractor.

(** A zone [dict]; the keys that the merge does not read ([text],
    [start_line], [is_chinese_question]) are kept as [z_rest]. *)
Record Zone := mkZone {
  z_type : string;
  z_x : Z;
  z_y : Z;
  z_width : Z;
  z_height : Z;
  z_rest : string * option bool
}.

(** [current['height'] = v] *)
Definition set_height (v : Z) (z : Zone) : Zone :=
  mkZone (z_type z) (z_x z) (z_y z) (z_width z) v (z_rest z).

(** The test of the inner loop: same type, and the next zone starts at
    most 50 pixels below the bottom of the current one. *)
Definition mergeable (current next_zone : Zone) : bool :=
  String.eqb (z_type next_zone) (z_type current)
  && (z_y next_zone <=? z_y current + z_height current + 50).

(** [current['height'] = (next_zone['y'] + next_zone['height']) - current['y']] *)
Definition absorb (current next_zone : Zone) : Zone :=
  set_height (z_y next_zone + z_height next_zone - z_y current) current.

(** The two loops from the moment [current] is the copy of [zones[i]]
    (possibly grown) and [rest] is [zones[j:]]. *)
Fixpoint merge_from (current : Zone) (rest : list Zone) : list Zone :=
  match rest with
  | [] => [current]
  | next_zone :: rest' =>
      if mergeable current next_zone
      then merge_from (absorb current next_zone) rest'
      else current :: merge_from next_zone rest'
  end.

Definition merge_adjacent_zones (zones : list Zone) : list Zone :=
  match zones with
  | [] => []
  | z :: rest => merge_from z rest
  end.

(** What the loops make of the run [g] of zones that they merge into
    one: the first zone, reaching to the bottom of the last. *)
Definition fuse (g : list Zone) : option Zone :=
  match g with
  | [] => None
  | z :: rest =>
      match last rest with
      | None => Some z
      | Some l => Some (absorb z l)
      end
  end.

(** The runs of zones that the loops merge into one zone each, from the
    moment the current run is [cur] and ends in [a]. *)
Fixpoint runs_from (cur : list Zone) (a : Zone) (rest : list Zone) : list (list Zone) :=
  match rest with
  | [] => [cur]
  | next_zone :: rest' =>
      if mergeable a next_zone
      then runs_from (cur ++ [next_zone]) next_zone rest'
      else cur :: runs_from [next_zone] next_zone rest'
  end.

Definition runs (zones : list Zone) : list (list Zone) :=
  match zones with
  | [] => []
  | z :: rest => runs_from [z] z rest
  end.

(** No zone can absorb the one after it. *)
Fixpoint settled (zones : list Zone) : Prop :=
  match zones with
  | a :: (b :: _) as rest => mergeable a b = false /\ settled rest
  | _ => True
  end.

(** *** The zones of a page ([extract_zones]) *)
(** The variables of the loop: [zones], [current_question],
    [current_answer] and [is_chinese_question]. *)
Record Scan := mkScan {
  sc_zones : list Zone;
  sc_question : option Zone;
  sc_answer : option Zone;
  sc_chinese : bool
}.

Definition initial_scan : Scan := mkScan [] None None false.

(** The [dict] that opens a zone at [line_data]; [flag] is the key
    [is_chinese_question], which two of the literals leave out. *)
Definition new_zone (ty : string) (page_width : Z) (line_data : Line)
    (flag : option bool) : Zone :=
  mkZone ty 0 (line_y_min line_data) page_width 0 (line_text line_data, flag).

(** [current_question['height'] = int(line_y_min - current_question['y'])] *)
Definition reach (line_data : Line) (z : Zone) : Zone :=
  set_height (line_y_min line_data - z_y z) z.

Section WithMatcher.

Variable pm : PatternMatcher.

(** [matches_pattern(text, 'answer')] *)
Variable matches_answer_pattern : string -> bool.

(** [str.strip] *)
Variable strip : string -> string.

(** Lines 83-100, 113-129 and 135-151: both open zones are appended as
    they are and a question zone is opened. *)
Definition open_zone (chinese : bool) (page_width : Z) (line_data : Line)
    (st : Scan) : Scan :=
  mkScan (sc_zones st ++ option_list (sc_question st) ++ option_list (sc_answer st))
    (Some (new_zone "question" page_width line_data (Some chinese))) None chinese.

(** Lines 162-175, 180-193 and 198-210: the current question is closed
    at the top of the line and a question zone is opened. *)
Definition close_and_open (flag : option bool) (chinese : bool) (page_width : Z)
    (line_data : Line) (current_question : Zone) (st : Scan) : Scan :=
  mkScan (sc_zones st ++ [reach line_data current_question])
    (Some (new_zone "question" page_width line_data flag)) (sc_answer st) chinese.

(** The body of the loop for one entry of [ocr_result]. *)
Definition scan_line (page_width : Z) (entry : option Line) (st : Scan) : Scan :=
  match entry with
  | None => st
  | Some line_data =>
      let line_text := line_text line_data in
      let answer_branch :=
        if matches_answer_pattern line_text then
          let zones :=
            match sc_question st with
            | Some current_question => sc_zones st ++ [reach line_data current_question]
            | None => sc_zones st
            end in
          mkScan (zones ++ option_list (sc_answer st)) None
            (Some (new_zone "answer" page_width line_data None)) (sc_chinese st)
        else st in
      if matches_question_pattern pm line_text then
        if is_chinese_number_question pm line_text then
          open_zone true page_width line_data st
        else if is_sub_question pm line_text then
          match sc_question st with
          | Some current_question =>
              if sc_chinese st then
                mkScan (sc_zones st) (Some (reach line_data current_question))
                  (sc_answer st) (sc_chinese st)
              else open_zone false page_width line_data st
          | None => open_zone false page_width line_data st
          end
        else open_zone false page_width line_data st
      else
        match sc_question st with
        | Some current_question =>
            if negb (String.eqb (strip line_text) EmptyString) then
              if is_chinese_number_question pm line_text then
                close_and_open (Some true) true page_width line_data current_question st
              else if is_sub_question pm line_text && negb (sc_chinese st) then
                close_and_open (Some false) false page_width line_data current_question st
              else if matches_question_pattern pm line_text then
                close_and_open None false page_width line_data current_question st
              else
                mkScan (sc_zones st) (Some (reach line_data current_question))
                  (sc_answer st) (sc_chinese st)
            else answer_branch
        | None => answer_branch
        end
  end.

Definition scan (page_width : Z) (ocr_result : OcrResult) (st : Scan) : Scan :=
  fold_left (fun st entry => scan_line page_width entry st) ocr_result st.

(** [z['height'] = page_height - z['y']] *)
Definition to_bottom (page_height : Z) (z : Zone) : Zone :=
  set_height (page_height - z_y z) z.

(** Lines 245-251: the zones that are still open reach to the bottom
    of the page. *)
Definition close_page (page_height : Z) (st : Scan) : list Zone :=
  sc_zones st ++ option_list (to_bottom page_height <$> sc_question st)
    ++ option_list (to_bottom page_height <$> sc_answer st).

Definition extract_zones (ocr_result : OcrResult) (page_size : Z * Z) : list Zone :=
  let '(page_width, page_height) := page_size in
  merge_adjacent_zones (close_page page_height (scan page_width ocr_result initial_scan)).

(** A zone of the result comes from a line of the page: *)
Definition opened_at (page_width : Z) (line_data : Line) (z : Zone) : Prop :=
  z_x z = 0 /\ z_width z = page_width /\ z_y z = line_y_min line_data /\
  (z_rest z).1 = line_text line_data /\
  (   z_type z = "question"%string /\
      (matches_question_pattern pm (line_text line_data)
       || is_chinese_number_question pm (line_text line_data)
       || is_sub_question pm (line_text line_data)) = true
   \/ z_type z = "answer"%string /\
      matches_question_pattern pm (line_text line_data) = false /\
      matches_answer_pattern (line_text line_data) = true).

(** A line that opens a zone on a page where none is open. *)
Definition opening (line_data : Line) : bool :=
  matches_question_pattern pm (line_text line_data)
  || matches_answer_pattern (line_text line_data).

End WithMatcher.

End ZoneExtractor.

(** ** The coordinate correction ([image_preprocessor.correct_coordinates]) *)

Module ImagePreprocessor.

(** A recognized line as the recognizer returns it for the preprocessed
    image: the polygon (floats) and the pair [(text, confidence)],
    which the correction passes on as it is. *)
Record RawLine := mkRawLine { raw_box : list (Q * Q); raw_text_info : string * Q }.

(** [crop_info]: [{'x': ..., 'y': ..., 'scale': ...}] *)
Record CropInfo := mkCropInfo { crop_x : Q; crop_y : Q; crop_scale : Q }.

(** [min(a, b)] and [max(a, b)] of Python: the first argument unless
    the second is smaller (larger). *)
Definition py_min (a b : Q) : Q := if Qlt_le_dec b a then b else a.
Definition py_max (a b : Q) : Q := if Qlt_le_dec a b then b else a.

Section WithRounding.

(** The rounding of the result of a binary64 operation; the properties
    below hold whatever it is. *)
Variable round : Q -> Q.

(** The body of the loop over the points; [original_shape] is
    [(height, width)]. *)
Definition correct_point (info : CropInfo) (original_shape : Z * Z) (point : Q * Q)
    : Q * Q :=
  let orig_x := round (round (point.1 / crop_scale info) + crop_x info) in
  let orig_y := round (round (point.2 / crop_scale info) + crop_y info) in
  (py_max 0 (py_min orig_x (inject_Z original_shape.2)),
   py_max 0 (py_min orig_y (inject_Z original_shape.1))).

Definition correct_line (info : CropInfo) (original_shape : Z * Z) (line_data : RawLine)
    : RawLine :=
  mkRawLine (map (correct_point info original_shape) (raw_box line_data))
    (raw_text_info line_data).

(** A division is executed: some line that is not falsy has a point. *)
Definition divides (ocr_result : list (option RawLine)) : bool :=
  existsb (fun entry =>
             match entry with
             | Some line_data => match raw_box line_data with [] => false | _ => true end
             | None => false
             end) ocr_result.

(** [correct_coordinates]; [None] when the division by a zero scale
    raises. *)
Definition correct_coordinates (ocr_result : list (option RawLine)) (info : CropInfo)
    (original_shape : Z * Z) : option (list RawLine) :=
  if Qeq_bool (crop_scale info) 0 && divides ocr_result then None
  else Some (map (correct_line info original_shape) (omap id ocr_result)).

End WithRounding.

End ImagePreprocessor.

(** ** The cropper ([ImageCropper])

    An image is its size; the result of a crop is the list of the
    calls [image.crop(box)] whose results are pasted below each other,
    so what PIL does with a box is outside the model. *)

Module ImageCropper.

Record Picture := mkPicture { pic_width : Z; pic_height : Z }.

(** [(left, top, right, bottom)] *)
Definition CropBox : Type := Z * Z * Z * Z.

(** A question as the cropper receives it: the [dict] with the keys
    [start_x], [page_image] and [pages_data]. *)
Record Job := mkJob {
  job_question : Question;
  start_x : Z;
  page_image : Picture;
  pages_data : list Picture
}.

Inductive Outcome :=
| Cropped (pieces : list (Picture * CropBox))
| NoImage                       (* [return None] *)
| Raises.                       (* [KeyError], [TypeError], [IndexError] *)

(** [l[i]] of Python, with negative indices counted from the end. *)
Definition py_index {A} (l : list A) (i : Z) : option A :=
  if 0 <=? i then l !! Z.to_nat i
  else if - Z.of_nat (length l) <=? i then l !! Z.to_nat (Z.of_nat (length l) + i)
  else None.

(** [start_y]: the start moved up by [int(text_height * 0.5)]. *)
Definition start_row (q : Question) : Z :=
  if q_text_height q >? 0 then q_start_y q - q_text_height q / 2 else q_start_y q.

Section WithConfig.

(** [self.config.horizontal_margin if self.config else 5] *)
Variable margin_h : Z.

Definition _crop_cross_page_merged (job : Job) : Outcome :=
  let q := job_question job in
  let page1 := page_image job in
  let start_page_num := q_page q in
  let start_y := start_row q in
  let crop1 :=
    (page1, (Z.max 0 (0 - margin_h), Z.max 0 start_y, pic_width page1, pic_height page1)) in
  let cross_page_end_page := default (start_page_num + 1) (q_cross_page_end_page q) in
  if (cross_page_end_page >? start_page_num)
     && (cross_page_end_page <=? Z.of_nat (length (pages_data job)))
  then
    match py_index (pages_data job) (cross_page_end_page - 1) with
    | Some page2 =>
        let end_y := default (pic_height page2) (q_cross_page_end_y q) in
        let crop2 :=
          (page2, (Z.max 0 (0 - margin_h), 0, pic_width page2,
                   Z.min (pic_height page2) end_y)) in
        Cropped [crop1; crop2]
    | None => Raises
    end
  else Cropped [crop1].

Definition _crop_cross_page (job : Job) : Outcome :=
  let q := job_question job in
  let page1 := page_image job in
  let start_y := start_row q in
  let crop1 := (page1, (0, Z.max 0 start_y, pic_width page1, pic_height page1)) in
  let page_num := q_page q in
  if page_num <? Z.of_nat (length (pages_data job)) then
    match py_index (pages_data job) page_num with
    | Some page2 =>
        let end_y :=
          match q_next_question_y q with
          | Some next_question_y =>
              if next_question_y =? 0 then pic_height page2
              else default next_question_y (q_end_y q)
          | None => pic_height page2
          end in
        Cropped [crop1; (page2, (0, 0, pic_width page2, Z.min (pic_height page2) end_y))]
    | None => Raises
    end
  else Cropped [crop1].

Definition _crop_question (job : Job) : Outcome :=
  let q := job_question job in
  match q_end_y q with
  | None => Raises
  | Some end_y =>
      let image := page_image job in
      let image_width := pic_width image in
      let image_height := default (pic_height image) (q_image_height q) in
      let start_y := start_row q in
      let x1 := Z.max 0 (start_x job - margin_h) in
      let y1 := Z.max 0 start_y in
      let x2 := image_width in
      let y2 := Z.min image_height end_y in
      let y2 := if y2 >? image_height then image_height else y2 in
      if q_cross_page_merged q then _crop_cross_page_merged job
      else if end_y <=? image_height then
        if (x1 >=? x2) || (y1 >=? y2) then NoImage
        else
          let y2 := if y2 >? image_height then image_height else y2 in
          Cropped [(image, (x1, y1, x2, y2))]
      else _crop_cross_page job
  end.

End WithConfig.

(** The job that [analyze_all_pages] attaches to a question of the
    output: the image of its page and all the images. *)
Definition job_of (pictures : list Picture) (q : Question) : option Job :=
  (fun image => mkJob q 0 image pictures) <$> pictures !! Z.to_nat (q_page q - 1).

(** *** Crop boxes of zones ([_apply_margin], [_is_valid_box]) *)
(** What [_is_valid_box] finds: [Valid] is [return True], the others
    are the warnings printed before [return False]. *)
Inductive Verdict := Valid | WrongOrder | OutsideImage | TooNarrow | TooLow.

Section WithZoneConfig.

Variables margin_v margin_h min_zone_height min_zone_width : Z.

Definition _apply_margin (zone : ZoneExtractor.Zone) (image_size : Z * Z) : CropBox :=
  let x1 := Z.max 0 (ZoneExtractor.z_x zone - margin_h) in
  let y1 := Z.max 0 (ZoneExtractor.z_y zone - margin_v) in
  let x2 := Z.min image_size.1 (ZoneExtractor.z_x zone + ZoneExtractor.z_width zone + margin_h) in
  let y2 := Z.min image_size.2 (ZoneExtractor.z_y zone + ZoneExtractor.z_height zone + margin_v) in
  (x1, y1, x2, y2).

Definition _is_valid_box (box : CropBox) (image_size : Z * Z) : Verdict :=
  let '(box_left, box_top, box_right, box_bottom) := box in
  let width := box_right - box_left in
  let height := box_bottom - box_top in
  if (box_left >=? box_right) || (box_top >=? box_bottom) then WrongOrder
  else if (box_left <? 0) || (box_top <? 0) || (box_right >? image_size.1)
          || (box_bottom >? image_size.2)
  then OutsideImage
  else if width <? min_zone_width then TooNarrow
  else if height <? min_zone_height then TooLow
  else Valid.

End WithZoneConfig.

End ImageCropper.

(** ** Predicates of the invariants *)

Module Invariants.

Import QuestionExtractor LayoutAnalyzer.

(** A question as the extractor leaves it on page [page_num]: the keys
    that only the traversal and the finalizer write are absent,
    [cross_page_to] is set together with [cross_page], to the next
    page, and the start and the early end satisfy [tops] (they are
    tops of lines of the page). *)
Definition extracted_on (tops : Z -> Prop) (page_num : Z) (q : Question) : Prop :=
  q_page q = page_num /\ 0 <= q_text_height q /\
  q_cross_page_to q = (if q_cross_page q then Some (page_num + 1) else None) /\
  q_cross_page_merged q = false /\ q_cross_page_end_page q = None /\
  q_cross_page_end_y q = None /\ q_image_height q = None /\
  q_end_y q = None /\ q_end_page q = None /\
  q_next_question_y q = None /\ q_potential_cross_page q = false /\
  tops (q_start_y q) /\ (forall e, q_early_end_y q = Some e -> tops e).

(** [y] is the top ([y_min]) of a line of the page. *)
Definition line_top (ocr_result : OcrResult) (y : Z) : Prop :=
  exists line_data, In (Some line_data) ocr_result /\ line_y_min line_data = y.

(** The reference [r] denotes a question created after [heap]. *)
Definition created (heap s : Store) (r : ref) : Prop :=
  (length heap <= r < length s)%nat.

(** The invariant of the loop of [extract_question_positions] started
    on the store [heap]: the store only grew, by questions of this
    page with pairwise distinct starts, which are the seen positions;
    the saved and the current references denote new questions, and
    every new question is saved or current. *)
Definition extractor_inv (heap : Store) (tops : Z -> Prop) (page_num : Z) (s : Store)
    (qs : list ref) (seen : gset Z) (cur : option ref) : Prop :=
  exists news,
    s = heap ++ news /\
    Forall (extracted_on tops page_num) news /\
    seen = list_to_set (q_start_y <$> news) /\
    NoDup (q_start_y <$> news) /\
    Forall (created heap s) qs /\
    (forall r, cur = Some r -> created heap s r) /\
    (forall r, created heap s r -> r ∈ qs \/ cur = Some r).

(** The line opens a question or closes the current one: one of the
    three opening branches of the extractor is taken. *)
Definition is_opening (pm : PatternMatcher) (entry : option Line) : bool :=
  match entry with
  | Some line_data =>
      is_chinese_number_question pm (line_text line_data)
      || is_sub_question pm (line_text line_data)
      || (negb (is_nested_sub_question pm (line_text line_data))
          && matches_question_pattern pm (line_text line_data))
  | None => false
  end.

(** The line neither is a major heading nor takes the last opening
    branch: under a major heading, with majors preferred, it opens no
    question. *)
Definition continues (pm : PatternMatcher) (entry : option Line) : bool :=
  match entry with
  | Some line_data =>
      negb (is_chinese_number_question pm (line_text line_data))
      && (is_sub_question pm (line_text line_data)
          || is_nested_sub_question pm (line_text line_data)
          || negb (matches_question_pattern pm (line_text line_data)))
  | None => true
  end.

(** The numbers of the lines that reach the nested branch of the
    extractor and have a number. *)
Definition nested_numbers (pm : PatternMatcher) (lines : OcrResult) : list Z :=
  omap (fun entry : option Line =>
          match entry with
          | Some line_data =>
              if negb (is_sub_question pm (line_text line_data))
                 && is_nested_sub_question pm (line_text line_data)
              then extract_nested_sub_number pm (line_text line_data)
              else None
          | None => None
          end) lines.

(** A question of the store once the pages up to [k] were visited:
    it lies on one of them, the finalizer has not run, and the keys of
    a completed cross-page merge are all set or all absent. *)
Definition visited_ok (images : list Page) (k : Z) (q : Question) : Prop :=
  1 <= q_page q <= k /\
  q_end_y q = None /\ q_end_page q = None /\
  q_next_question_y q = None /\ q_potential_cross_page q = false /\
  if q_cross_page_merged q then
    q_cross_page q = false /\ q_cross_page_to q = None /\
    q_image_height q = Some (height_of images (q_page q)) /\
    exists p y,
      q_cross_page_end_page q = Some p /\ q_page q < p <= k /\
      q_cross_page_end_y q = Some y
  else q_cross_page_end_page q = None /\ q_cross_page_end_y q = None.

(** An entry [(page, question)] of [all_questions] during the loop over
    the pages. *)
Definition filed_ok (images : list Page) (st : Store) (entry : Z * ref) : Prop :=
  exists q,
    st !! entry.2 = Some q /\ q_page q = entry.1 /\
    q_image_height q = Some (height_of images entry.1) /\ q_cross_page q = false.

(** The pending question waits on the page it was opened on. *)
Definition pending_ok (st : Store) (pending : option (ref * Z)) : Prop :=
  match pending with
  | Some (cq, cross_page_from_page) =>
      exists q,
        st !! cq = Some q /\ q_page q = cross_page_from_page /\
        q_cross_page q = true /\ q_cross_page_merged q = false
  | None => True
  end.

(** The invariant of the loop over the pages, after page [k]. *)
Definition traversal_inv (images : list Page) (k : Z) (t : Traversal) : Prop :=
  Forall (visited_ok images k) (heap t) /\
  Forall (filed_ok images (heap t)) (all_questions t) /\
  pending_ok (heap t) (pending_cross_page_question t).

(** What the bounds of a question read of it. *)
Definition core (q : Question) : Z * Z * Z * option Z :=
  (q_page q, q_start_y q, q_text_height q, q_early_end_y q).

(** The start and the early end of the question are not below the
    bottom of its page. *)
Definition within (images : list Page) (q : Question) : Prop :=
  0 <= q_text_height q /\
  q_start_y q <= height_of images (q_page q) /\
  (forall e, q_early_end_y q = Some e -> e <= height_of images (q_page q)).

(** The recognized polygons lie above the bottom of their page, and
    the heights are such that the products with 0.97 are exact. *)
Definition fits (images : list Page) : Prop :=
  Forall (fun img =>
            0 <= page_height img < 2 ^ 45 /\
            forall line p,
              In line (page_lines img) -> In p (points (line_box line)) ->
              p.2 <= page_height img) images.

(** The keys that the third and the fourth step never write. *)
Definition kept (q : Question) :
    Z * string * Z * QuestionType * list Z * option string * bool * option Z * bool
    * option Z * option Z * option Z :=
  (q_start_y q, q_text q, q_page q, q_type q, q_nested q, q_early_end_text q,
   q_cross_page q, q_cross_page_to q, q_cross_page_merged q, q_cross_page_end_page q,
   q_cross_page_end_y q, q_image_height q).

End Invariants.

(** ** More sample pages *)

Module MoreSamples.

Import LayoutAnalyzer Samples.

(** A page of nested items and plain text without any opening marker. *)
Definition no_opening_page : OcrResult :=
  [ Some (ln 0 100 50 20 "(5) orphan"); None; Some (ln 0 200 50 20 "plain text") ].

(** The lines of scenario A: before the heading nothing, after it a
    minor heading and two nested items. *)
Definition heading : Line := ln 0 100 50 20 "一、".
Definition under_heading : OcrResult :=
  [ Some (ln 0 200 50 20 "1. stem text"); Some (ln 0 300 50 20 "(1) part a");
    Some (ln 0 400 50 20 "(2) part b") ].

(** A question with the items (1) and (2) on the same page. *)
Definition two_items_page : OcrResult :=
  [ Some (ln 0 100 50 20 "1.stem"); Some (ln 0 200 50 20 "(1) a");
    Some (ln 0 300 50 20 "text of a"); Some (ln 0 400 50 20 "(2) b") ].

(** Two recognized lines of a preprocessed image, the second outside
    the original image once mapped back, and a falsy entry. *)
Definition raw_page : list (option ImagePreprocessor.RawLine) :=
  [ Some (ImagePreprocessor.mkRawLine [(10 # 1, 20 # 1); (110 # 1, 20 # 1)]
            ("1.stem"%string, 9 # 10));
    None;
    Some (ImagePreprocessor.mkRawLine [((-30) # 1, 900 # 1)] ("x"%string, 1 # 2)) ].

(** The question of [early_end_document] as the cropper receives it. *)
Definition early_end_job : ImageCropper.Job :=
  ImageCropper.mkJob early_end_question 0 (ImageCropper.mkPicture 800 1000)
    [ImageCropper.mkPicture 800 1000].




(** The recognized pages of [cross_page_document]. *)
Definition cross_page_ocr : gmap Z OcrResult := collect_ocr cross_page_document.

(** A question whose items (3), (1) make the look-ahead wait for (2)
    on the next page, while the merge of the next page expects (4): the
    question is still waiting when the pages are exhausted. *)
Definition waiting_document : list Page :=
  [ mkPage 1000 [ln 0 100 50 20 "1.a"; ln 0 200 50 20 "(3)x"; ln 0 300 50 20 "(1)y"];
    mkPage 1000 [ln 0 100 50 20 "(2)z"] ].

(** The question of that document in the output. *)
Definition waiting_question : Question :=
  mkQuestion 100 "1.a" 1 Sub 20 [3; 1] (Some 300) (Some "(1)y"%string) true (Some 2)
    false None None (Some 1000) (Some 970) (Some 1) None false.

End MoreSamples.

(** ** Invariants of the loop of [extract_zones] *)

Module ScanInvariants.

Import ZoneExtractor.

(** [P] holds of the zones appended so far and of the open ones. *)
Definition all_open (P : Zone -> Prop) (st : Scan) : Prop :=
  Forall P (sc_zones st) /\
  (forall z, sc_question st = Some z -> P z) /\
  (forall z, sc_answer st = Some z -> P z).

(** A zone is open. *)
Definition started (st : Scan) : Prop :=
  is_Some (sc_question st) \/ is_Some (sc_answer st).

Definition is_question (z : Zone) : Prop := z_type z = "question"%string.
Definition is_answer (z : Zone) : Prop := z_type z = "answer"%string.

(** Answer zones, then question zones. *)
Fixpoint answers_first (zones : list Zone) : Prop :=
  match zones with
  | [] => True
  | z :: rest => is_answer z /\ answers_first rest \/ Forall is_question zones
  end.

(** At most one zone is open, and an answer zone only as long as no
    question zone was opened. *)
Definition one_open (st : Scan) : Prop :=
  match sc_question st, sc_answer st with
  | Some current_question, None =>
      is_question current_question /\ answers_first (sc_zones st)
  | None, current_answer =>
      Forall is_answer (sc_zones st) /\ (forall z, current_answer = Some z -> is_answer z)
  | Some _, Some _ => False
  end.

(** Two zones that differ in their [height] at most. *)
Definition same_place (a b : Zone) : Prop := set_height 0 a = set_height 0 b.

End ScanInvariants.

(** ** The answer patterns of the default configuration *)

Module ConfigAnswers.

Import Config.

(** The patterns that are a literal text: [^【答案】], [^【解析】],
    [^【详解】], [^参考答案] and, the optional rest of it matching the
    empty text, [^答案\s*:?]. *)
Definition answer_titles : list string :=
  ["【答案】"; "【解析】"; "【详解】"; "参考答案"; "答案"]%string.

(** [^Answer\s*:?] under [re.IGNORECASE]: each letter in either case,
    and for [s] also the long s (U+017F). *)
Definition answer_word : list (list string) :=
  [ ["A"; "a"]; ["n"; "N"]; ["s"; "S"; "ſ"]; ["w"; "W"]; ["e"; "E"]; ["r"; "R"] ]%string.

Fixpoint letters (classes : list (list string)) (s : string) : option string :=
  match classes with
  | [] => Some s
  | class :: classes' =>
      match one_of class s with
      | Some r => letters classes' r
      | None => None
      end
  end.

Definition answer_pattern (s : string) : bool :=
  bool_decide (is_Some (one_of answer_titles s))
  || bool_decide (is_Some (letters answer_word s)).

(** [matches_pattern(text, 'answer')] *)
Definition matches_answer_pattern (text : string) : bool := answer_pattern (strip text).

End ConfigAnswers.

(** ** Sample pages of zones *)

Module ZoneSamples.

Import Samples.

(** An answer line, two questions and, below the first question, a
    line that reads like an answer. *)
Definition answers_page : OcrResult :=
  [ Some (ln 0 10 200 20 "答案: B"); Some (ln 0 100 200 20 "1.first");
    Some (ln 0 200 200 20 "【答案】A"); None; Some (ln 0 400 200 20 "2.second") ].

(** A major heading with two minor headings and their texts. *)
Definition heading_page : OcrResult :=
  [ Some (ln 0 50 300 30 "一、选择题"); Some (ln 0 100 200 20 "1.first");
    Some (ln 0 150 200 20 "text"); Some (ln 0 200 200 20 "2.second") ].

End ZoneSamples.

(** * Properties *)

(** The default patterns on sample texts. *)
Example default_matcher_samples :
  is_chinese_number_question Config.default_matcher "一、选择题" = true /\
  is_sub_question Config.default_matcher "1.stem" = true /\
  is_sub_question Config.default_matcher "1." = false /\
  is_nested_sub_question Config.default_matcher "(12) part" = true /\
  is_nested_sub_question Config.default_matcher "（2）" = true /\
  extract_nested_sub_number Config.default_matcher "(12) part" = Some 12 /\
  extract_nested_sub_number Config.default_matcher " x [3]" = Some 3 /\
  matches_question_pattern Config.default_matcher "填空题" = true /\
  matches_question_pattern Config.default_matcher "plain" = false.
Proof. vm_compute. repeat split. Qed.

(** The binary64 products on sample heights. *)
Example float_products_samples :
  Float.int_mul_097 1000 = 970 /\ Float.int_mul_097 1123 = 1089 /\
  Float.int_mul_03 20 = 6 /\ Float.int_mul_03 3 = 0 /\ Float.int_mul_03 10 = 3.
Proof. vm_compute. repeat split. Qed.

(** Scenarios A, D and B of the specification on the model. *)
Example scenario_a :
  let '(st, final) :=
    LayoutAnalyzer.analyze_all_pages Config.default_matcher true
      Samples.scenario_a_document in
  (fun q => (q_type q, q_nested q, q_end_y q)) <$> LayoutAnalyzer.objects st final
  = [(Chinese, [1; 2], Some 970)].
Proof. vm_compute. reflexivity. Qed.

Example scenario_d :
  LayoutAnalyzer.analyze_all_pages Config.default_matcher true Samples.scenario_d_document
  = ([], []).
Proof. vm_compute. reflexivity. Qed.

Example scenario_b :
  let '(st, final) :=
    LayoutAnalyzer.analyze_all_pages Config.default_matcher true
      Samples.cross_page_document in
  (fun q => (q_nested q, q_cross_page q, q_cross_page_merged q, q_cross_page_end_page q))
    <$> LayoutAnalyzer.objects st final
  = [([1; 2], false, true, Some 2)].
Proof. vm_compute. reflexivity. Qed.

(** ** Lists of integers *)

Section ZLists.

Lemma fold_min_acc (l : list Z) (x : Z) : fold_left Z.min l x = Z.min x (zmin (x :: l)).
Proof.
  simpl. revert x. induction l as [|y l IH]; intros x; simpl; [lia|].
  rewrite IH. rewrite (IH (Z.min x y)) at 1. lia.
Qed.

Lemma zmin_cons (x y : Z) (l : list Z) : zmin (x :: y :: l) = Z.min x (zmin (y :: l)).
Proof.
  simpl. revert x y. induction l as [|z l IH]; intros x y; simpl; [reflexivity|].
  rewrite (IH (Z.min x y) z), (IH y z). lia.
Qed.

Lemma zmax_cons (x y : Z) (l : list Z) : zmax (x :: y :: l) = Z.max x (zmax (y :: l)).
Proof.
  simpl. revert x y. induction l as [|z l IH]; intros x y; simpl; [reflexivity|].
  rewrite (IH (Z.max x y) z), (IH y z). lia.
Qed.

Lemma zmin_app (l1 l2 : list Z) :
  l1 <> [] -> l2 <> [] -> zmin (l1 ++ l2) = Z.min (zmin l1) (zmin l2).
Proof.
  intros H1 H2. induction l1 as [|x l1 IH]; [congruence|].
  destruct l1 as [|y l1].
  - destruct l2 as [|z l2]; [congruence|]. simpl app. now rewrite zmin_cons.
  - change ((x :: y :: l1) ++ l2) with (x :: y :: (l1 ++ l2)).
    rewrite !zmin_cons. change (y :: l1 ++ l2) with ((y :: l1) ++ l2).
    rewrite IH by congruence. lia.
Qed.

Lemma zmax_app (l1 l2 : list Z) :
  l1 <> [] -> l2 <> [] -> zmax (l1 ++ l2) = Z.max (zmax l1) (zmax l2).
Proof.
  intros H1 H2. induction l1 as [|x l1 IH]; [congruence|].
  destruct l1 as [|y l1].
  - destruct l2 as [|z l2]; [congruence|]. simpl app. now rewrite zmax_cons.
  - change ((x :: y :: l1) ++ l2) with (x :: y :: (l1 ++ l2)).
    rewrite !zmax_cons. change (y :: l1 ++ l2) with ((y :: l1) ++ l2).
    rewrite IH by congruence. lia.
Qed.

Lemma zmin_In (l : list Z) : l <> [] -> In (zmin l) l.
Proof.
  induction l as [|x l IH]; [congruence|]. intros _.
  destruct l as [|y l]; [now left|].
  rewrite zmin_cons. destruct (Z.min_spec x (zmin (y :: l))) as [[_ ->]|[_ ->]].
  - now left.
  - right. apply IH. congruence.
Qed.

Lemma zmin_le (l : list Z) (x : Z) : In x l -> zmin l <= x.
Proof.
  induction l as [|y l IH]; [intros []|].
  destruct l as [|z l].
  - intros [->|[]]. simpl. lia.
  - rewrite zmin_cons. intros [->|H]; [lia|]. specialize (IH H). lia.
Qed.

Lemma zmax_In (l : list Z) : l <> [] -> In (zmax l) l.
Proof.
  induction l as [|x l IH]; [congruence|]. intros _.
  destruct l as [|y l]; [now left|].
  rewrite zmax_cons. destruct (Z.max_spec x (zmax (y :: l))) as [[_ ->]|[_ ->]].
  - right. apply IH. congruence.
  - now left.
Qed.

Lemma zmax_ge (l : list Z) (x : Z) : In x l -> x <= zmax l.
Proof.
  induction l as [|y l IH]; [intros []|].
  destruct l as [|z l].
  - intros [->|[]]. simpl. lia.
  - rewrite zmax_cons. intros [->|H]; [lia|]. specialize (IH H). lia.
Qed.

End ZLists.

(** ** [sorted] *)

Section Sorting.

Context {A : Type} (key : A -> Z).

Let le_key (a b : A) : Prop := key a <= key b.

Lemma insert_by_perm (x : A) (l : list A) : Permutation (insert_by key x l) (x :: l).
Proof.
  induction l as [|y l IH]; simpl; [reflexivity|].
  destruct (key x <=? key y); [reflexivity|].
  rewrite IH. apply perm_swap.
Qed.

Lemma sorted_by_perm (l : list A) : Permutation (sorted_by key l) l.
Proof.
  induction l as [|x l IH]; simpl; [reflexivity|].
  rewrite insert_by_perm. now constructor.
Qed.

Lemma insert_by_sorted (x : A) (l : list A) :
  Sorted le_key l -> Sorted le_key (insert_by key x l).
Proof.
  induction l as [|y l IH]; intros Hs; simpl.
  - repeat constructor.
  - destruct (key x <=? key y) eqn:E.
    + constructor; [assumption|]. constructor. unfold le_key. lia.
    + inversion Hs as [|? ? Hs' Hhd]; subst. constructor; [now apply IH|].
      destruct l as [|z l]; simpl.
      * constructor. unfold le_key. lia.
      * destruct (key x <=? key z); constructor; unfold le_key.
        -- lia.
        -- inversion Hhd; subst. assumption.
Qed.

Lemma sorted_by_sorted (l : list A) : Sorted le_key (sorted_by key l).
Proof.
  induction l as [|x l IH]; simpl; [constructor|]. now apply insert_by_sorted.
Qed.

Lemma sorted_by_length (l : list A) : length (sorted_by key l) = length l.
Proof. apply Permutation_length, sorted_by_perm. Qed.


End Sorting.

(** ** The line merger *)

Module MergerFacts.

Import OCRTextMerger.

(** The loop of [merge_same_line_texts] builds the visual lines of [group]. *)
Lemma fold_merge_step (s : list Line) (merged : OcrResult) (cur : list Line) :
  let '(merged', cur') := fold_left merge_step s (merged, cur) in
  match cur' with
  | [] => merged'
  | _ => merged' ++ [_merge_line_texts cur']
  end = merged ++ map _merge_line_texts (group cur s).
Proof.
  revert merged cur. induction s as [|l s IH]; intros merged cur; simpl.
  - destruct cur; simpl; [now rewrite app_nil_r|reflexivity].
  - destruct (last cur) as [p|] eqn:El.
    + destruct (same_line p l).
      * apply IH.
      * specialize (IH (merged ++ [_merge_line_texts cur]) [l]).
        destruct (fold_left merge_step s _) as [m' c']. rewrite IH.
        now rewrite <- app_assoc.
    + apply IH.
Qed.

Lemma merge_same_line_texts_group (ocr_result : list Line) :
  merge_same_line_texts ocr_result
  = map _merge_line_texts (group [] (sorted_by line_y_min ocr_result)).
Proof.
  unfold merge_same_line_texts. destruct ocr_result as [|l r]; [reflexivity|].
  pose proof (fold_merge_step (sorted_by line_y_min (l :: r)) [] []) as H.
  destruct (fold_left merge_step _ _) as [m' c']. exact H.
Qed.

Lemma group_concat (s cur : list Line) : concat (group cur s) = cur ++ s.
Proof.
  revert cur. induction s as [|l s IH]; intros cur; simpl.
  - destruct cur; simpl; now rewrite ?app_nil_r.
  - destruct (last cur) as [p|] eqn:El.
    + destruct (same_line p l).
      * rewrite IH. now rewrite <- app_assoc.
      * simpl. now rewrite IH.
    + rewrite IH. apply last_None in El. now subst.
Qed.

Lemma group_nonempty (s cur : list Line) : Forall (fun c => c <> []) (group cur s).
Proof.
  revert cur. induction s as [|l s IH]; intros cur; simpl.
  - destruct cur; constructor; [congruence|constructor].
  - destruct (last cur) as [p|] eqn:El; [|apply IH].
    destruct (same_line p l); [apply IH|].
    constructor; [|apply IH]. intros ->. discriminate.
Qed.

Lemma chained_snoc (c : list Line) (p l : Line) :
  chained c -> last c = Some p -> same_line p l = true -> chained (c ++ [l]).
Proof.
  intros Hc Hl Hs i a b Ha Hb.
  assert (Hi : (S i < length (c ++ [l]))%nat) by (apply lookup_lt_is_Some; eauto).
  rewrite length_app in Hi. simpl in Hi.
  rewrite lookup_app_l in Ha by lia.
  destruct (decide (S i = length c)) as [E|E].
  - rewrite lookup_app_r in Hb by lia. rewrite E, Nat.sub_diag in Hb.
    simpl in Hb. injection Hb as <-.
    rewrite last_lookup in Hl. replace (pred (length c)) with i in Hl by lia.
    congruence.
  - rewrite lookup_app_l in Hb by lia. eauto.
Qed.

Lemma chained_single (l : Line) : chained [l].
Proof. intros [|i] a b Ha Hb; simpl in *; discriminate. Qed.

Lemma group_chained (s cur : list Line) :
  chained cur -> Forall chained (group cur s).
Proof.
  revert cur. induction s as [|l s IH]; intros cur Hc; simpl.
  - destruct cur; repeat constructor. assumption.
  - destruct (last cur) as [p|] eqn:El.
    + destruct (same_line p l) eqn:Es.
      * apply IH. eapply chained_snoc; eauto.
      * constructor; [assumption|]. apply IH, chained_single.
    + apply IH, chained_single.
Qed.

(** The first visual line of [group cur s] starts with [cur]. *)
Lemma group_head (s cur : list Line) (x : Line) :
  head cur = Some x -> exists c cs, group cur s = c :: cs /\ head c = Some x.
Proof.
  revert cur. induction s as [|l s IH]; intros cur Hh; simpl.
  - destruct cur; [discriminate|]. eauto.
  - destruct (last cur) as [p|] eqn:El.
    + destruct (same_line p l); [|eauto].
      apply IH. destruct cur; [discriminate|]. exact Hh.
    + apply last_None in El. subst. discriminate.
Qed.

Lemma group_separated (s cur : list Line) : separated (group cur s).
Proof.
  revert cur. induction s as [|l s IH]; intros cur; simpl.
  - destruct cur; intros [|i] c1 c2 a b H1 H2; simpl in *; discriminate.
  - destruct (last cur) as [p|] eqn:El; [|apply IH].
    destruct (same_line p l) eqn:Es; [apply IH|].
    intros [|i] c1 c2 a b H1 H2 Ha Hb; simpl in H1, H2.
    + injection H1 as <-.
      destruct (group_head s [l] l eq_refl) as (c & cs & Hg & Hc).
      rewrite Hg in H2. simpl in H2. injection H2 as <-. congruence.
    + exact (IH [l] i c1 c2 a b H1 H2 Ha Hb).
Qed.

Lemma same_line_le (a b : Line) :
  same_line a b = true <-> (Qabs (y_center b - y_center a) <= 10 # 1)%Q.
Proof. unfold same_line, line_y_threshold. apply Qle_bool_iff. Qed.

Lemma same_line_gt (a b : Line) :
  same_line a b = false <-> (10 # 1 < Qabs (y_center b - y_center a))%Q.
Proof.
  rewrite <- not_true_iff_false, same_line_le. split.
  - apply Qnot_le_lt.
  - intros H1 H2. apply (Qlt_not_le _ _ H1 H2).
Qed.

Lemma zmin_perm (l l' : list Z) : Permutation l l' -> zmin l = zmin l'.
Proof.
  intros Hp. destruct l as [|x l].
  - apply Permutation_nil in Hp. now subst.
  - assert (Hne : l' <> []) by (intros ->; apply Permutation_sym in Hp; exact (Permutation_nil_cons Hp)).
    pose proof (zmin_le l' (zmin (x :: l))
                  (Permutation_in _ Hp (zmin_In (x :: l) ltac:(congruence)))).
    pose proof (zmin_le (x :: l) (zmin l')
                  (Permutation_in _ (Permutation_sym Hp) (zmin_In l' Hne))).
    lia.
Qed.

Lemma zmin_concat (ls : list (list Z)) :
  ls <> [] -> Forall (fun l => l <> []) ls -> zmin (concat ls) = zmin (map zmin ls).
Proof.
  induction ls as [|l ls IH]; [congruence|]. intros _ Hne.
  inversion Hne as [|? ? Hl Hls]; subst. destruct ls as [|l' ls].
  - simpl. now rewrite app_nil_r.
  - change (concat (l :: l' :: ls)) with (l ++ concat (l' :: ls)).
    change (map zmin (l :: l' :: ls)) with (zmin l :: zmin l' :: map zmin ls).
    assert (Hc : concat (l' :: ls) <> []).
    { inversion Hls; subst. destruct l'; [congruence|discriminate]. }
    rewrite zmin_cons, zmin_app, IH; try assumption; try congruence. reflexivity.
Qed.

Lemma zmax_concat (ls : list (list Z)) :
  ls <> [] -> Forall (fun l => l <> []) ls -> zmax (concat ls) = zmax (map zmax ls).
Proof.
  induction ls as [|l ls IH]; [congruence|]. intros _ Hne.
  inversion Hne as [|? ? Hl Hls]; subst. destruct ls as [|l' ls].
  - simpl. now rewrite app_nil_r.
  - change (concat (l :: l' :: ls)) with (l ++ concat (l' :: ls)).
    change (map zmax (l :: l' :: ls)) with (zmax l :: zmax l' :: map zmax ls).
    assert (Hc : concat (l' :: ls) <> []).
    { inversion Hls; subst. destruct l'; [congruence|discriminate]. }
    rewrite zmax_cons, zmax_app, IH; try assumption; try congruence. reflexivity.
Qed.

Lemma zmin_le_zmax (l : list Z) : l <> [] -> zmin l <= zmax l.
Proof. intros H. apply zmax_ge, zmin_In, H. Qed.

Lemma append_empty (s : string) : String.append s EmptyString = s.
Proof.
  induction s as [|a s IH]; [reflexivity|].
  change (String a (String.append s EmptyString) = String a s). now rewrite IH.
Qed.

(** The coordinates of all points of the fragments [s], by fragment. *)
Lemma all_points_coords {B} (proj : Point -> B) (s : list Line) :
  map proj (concat (map (fun info => points (line_box info)) s))
  = concat (map (fun info => map proj (points (line_box info))) s).
Proof.
  induction s as [|f s IH]; [reflexivity|].
  cbn [map concat]. rewrite map_app, IH. reflexivity.
Qed.

Lemma coords_nonempty {B} (proj : Point -> B) (s : list Line) :
  Forall (fun l : list B => l <> [])
    (map (fun info => map proj (points (line_box info))) s).
Proof. induction s; constructor; [discriminate|assumption]. Qed.

Lemma points_min (proj : Point -> Z) (s : list Line) :
  s <> [] ->
  zmin (map proj (concat (map (fun info => points (line_box info)) s)))
  = zmin (map (fun f => zmin (map proj (points (line_box f)))) s).
Proof.
  intros Hs. rewrite all_points_coords, zmin_concat, map_map.
  - reflexivity.
  - intros E. apply map_eq_nil in E. contradiction.
  - apply coords_nonempty.
Qed.

Lemma points_max (proj : Point -> Z) (s : list Line) :
  s <> [] ->
  zmax (map proj (concat (map (fun info => points (line_box info)) s)))
  = zmax (map (fun f => zmax (map proj (points (line_box f)))) s).
Proof.
  intros Hs. rewrite all_points_coords, zmax_concat, map_map.
  - reflexivity.
  - intros E. apply map_eq_nil in E. contradiction.
  - apply coords_nonempty.
Qed.

Lemma points_min_le_max (proj : Point -> Z) (s : list Line) :
  s <> [] ->
  zmin (map proj (concat (map (fun info => points (line_box info)) s)))
  <= zmax (map proj (concat (map (fun info => points (line_box info)) s))).
Proof.
  intros Hs. apply zmin_le_zmax. rewrite all_points_coords.
  destruct s as [|f s']; [congruence|]. discriminate.
Qed.

Lemma rectangle_bounds (a b : Z) :
  a <= b ->
  zmin [a; b; b; a] = a /\ zmax [a; b; b; a] = b /\
  zmin [a; a; b; b] = a /\ zmax [a; a; b; b] = b.
Proof. intros H. cbn. lia. Qed.

(** [_merge_line_texts] on a visual line that is not empty. *)
Lemma merge_line_texts_spec (c : list Line) :
  c <> [] -> exists m, _merge_line_texts c = Some m /\ merged_from c m.
Proof.
  intros Hne. destruct c as [|f1 [|f2 r]]; [congruence| |].
  - exists f1. split; [now destruct f1|]. split; [congruence|].
    exists [f1]. repeat split; try reflexivity.
    + repeat constructor.
    + simpl. now rewrite append_empty.
    + unfold meanQ. simpl. field.
    + simpl. lia.
  - set (c := f1 :: f2 :: r) in *.
    set (s := sorted_by line_x_min c).
    assert (Hp : Permutation s c) by apply sorted_by_perm.
    assert (Hs : s <> []).
    { intros E. rewrite E in Hp. exact (Permutation_nil_cons Hp). }
    destruct (rectangle_bounds _ _ (points_min_le_max fst s Hs)) as (X1 & X2 & _).
    destruct (rectangle_bounds _ _ (points_min_le_max snd s Hs)) as (_ & _ & Y1 & Y2).
    eexists. split; [reflexivity|]. split; [intros f E; discriminate|].
    exists s. fold s. repeat split.
    + exact Hp.
    + apply sorted_by_sorted.
    + etransitivity; [exact X1|]. now apply points_min.
    + etransitivity; [exact X2|]. now apply points_max.
    + etransitivity; [exact Y1|]. now apply points_min.
    + etransitivity; [exact Y2|]. now apply points_max.
    + intros _. cbn [line_box].
      f_equal; f_equal;
        first [ apply (points_min fst s Hs) | apply (points_min snd s Hs)
              | apply (points_max fst s Hs) | apply (points_max snd s Hs) ].
Qed.

Lemma merged_outputs (cs : list (list Line)) :
  Forall (fun c => c <> []) cs ->
  exists out, map _merge_line_texts cs = map Some out /\ Forall2 merged_from cs out.
Proof.
  induction 1 as [|c cs Hc _ (out & Ho & Hf)].
  - exists []. split; [reflexivity|constructor].
  - destruct (merge_line_texts_spec c Hc) as (m & Hm & Hmf).
    exists (m :: out). split; [simpl; congruence|now constructor].
Qed.

Lemma merged_y_min (c : list Line) (m : Line) :
  merged_from c m -> line_y_min m = zmin (map line_y_min c).
Proof.
  intros (_ & s & Hp & _ & _ & _ & _ & _ & Hy & _).
  unfold line_y_min at 1. rewrite Hy.
  apply zmin_perm, Permutation_map, Hp.
Qed.


End MergerFacts.

(** C6, as stated, fails: the two sample fragments satisfy the adaptive
    rule of the specification (each is 100 high, the centres are 40
    apart, the spans overlap by 60), and [merge_same_line_texts] keeps
    them on two lines. *)
Lemma merger_adaptive_rule_counterexample :
  ~ (length (OCRTextMerger.merge_same_line_texts [Samples.tall_fragment_a; Samples.tall_fragment_b]) = 1%nat
     <-> OCRTextMerger.spec_same_line [Samples.tall_fragment_a; Samples.tall_fragment_b]
           Samples.tall_fragment_a Samples.tall_fragment_b = true).
Proof.
  intros [_ H].
  assert (E : OCRTextMerger.spec_same_line [Samples.tall_fragment_a; Samples.tall_fragment_b]
                Samples.tall_fragment_a Samples.tall_fragment_b = true) by (vm_compute; reflexivity).
  specialize (H E). vm_compute in H. discriminate.
Qed.

(** C6, amended: the fragments are taken in ascending [y_min] order and
    cut into visual lines; a fragment joins the line of the fragment
    before it exactly when their vertical centres differ by at most the
    fixed threshold 10 (no adaptive threshold, no overlap rule). *)
Theorem merge_same_line_fixed_threshold (ocr_result : list Line) :
  exists clusters : list (list Line),
    OCRTextMerger.merge_same_line_texts ocr_result
    = map OCRTextMerger._merge_line_texts clusters /\
    concat clusters = sorted_by line_y_min ocr_result /\
    Forall (fun c => c <> []) clusters /\
    (forall c i a b,
        In c clusters -> c !! i = Some a -> c !! S i = Some b ->
        (Qabs (y_center b - y_center a) <= 10 # 1)%Q) /\
    (forall i c1 c2 a b,
        clusters !! i = Some c1 -> clusters !! S i = Some c2 ->
        last c1 = Some a -> head c2 = Some b ->
        (10 # 1 < Qabs (y_center b - y_center a))%Q).
Proof.
  exists (OCRTextMerger.group [] (sorted_by line_y_min ocr_result)).
  split; [apply MergerFacts.merge_same_line_texts_group|].
  split; [apply MergerFacts.group_concat|].
  split; [apply MergerFacts.group_nonempty|].
  split.
  - intros c i a b Hc Ha Hb. apply MergerFacts.same_line_le.
    assert (Hch : Forall OCRTextMerger.chained
                    (OCRTextMerger.group [] (sorted_by line_y_min ocr_result))).
    { apply MergerFacts.group_chained. intros j x y Hx. discriminate. }
    rewrite Forall_forall in Hch. apply list_elem_of_In in Hc.
    exact (Hch c Hc i a b Ha Hb).
  - intros i c1 c2 a b H1 H2 Ha Hb. apply MergerFacts.same_line_gt.
    exact (MergerFacts.group_separated _ _ i c1 c2 a b H1 H2 Ha Hb).
Qed.


(** ** The look-ahead of the extractor *)

Module LookAheadFacts.

Import QuestionExtractor.

Section WithMatcher.

Variable pm : PatternMatcher.

(** The scan of the current page when the window holds no item
    [expected]: every line is counted and the first one is recorded. *)
Lemma scan_current_page_no_item (expected : Z) (window : OcrResult)
    (ey : option Z) (et : option string) (checked : nat) :
  Forall (fun e => is_item pm expected e = false) window ->
  scan_current_page pm expected window ey et checked
  = (false,
     match ey with
     | Some _ => ey
     | None => line_y_min <$> first_line window
     end,
     match ey, first_line window with
     | None, Some l => Some (substring 0 30 (line_text l))
     | _, _ => et
     end,
     (checked + count_lines window)%nat).
Proof.
  intros H. revert ey et checked.
  induction H as [|e w He Hw IH]; intros ey et checked.
  - simpl. rewrite Nat.add_0_r. now destruct ey.
  - destruct e as [l|]; simpl in *.
    + rewrite He. destruct ey; rewrite IH; simpl; rewrite ?Nat.add_succ_r; reflexivity.
    + rewrite IH. reflexivity.
Qed.

(** The early end that the scan of the current page returns is the
    one it was given or the [y_min] of a line of the window. *)
Lemma scan_current_page_early (expected : Z) (window : OcrResult)
    (ey : option Z) (et : option string) (checked : nat) (y : Z) :
  (scan_current_page pm expected window ey et checked).1.1.2 = Some y ->
  ey = Some y \/
  exists j line, window !! j = Some (Some line) /\ line_y_min line = y.
Proof.
  revert ey et checked. induction window as [|e w IH]; intros ey et checked; simpl.
  - auto.
  - destruct e as [l|].
    + destruct (is_nested_sub_question pm (line_text l)
                && is_number (extract_nested_sub_number pm (line_text l)) expected);
        [simpl; auto|].
      destruct ey as [y0|].
      * intros H. destruct (IH _ _ _ H) as [?|(j & line & Hj & Hy)]; [auto|].
        right. exists (S j), line. auto.
      * intros H. destruct (IH _ _ _ H) as [E|(j & line & Hj & Hy)].
        -- right. exists 0%nat, l. split; [reflexivity|congruence].
        -- right. exists (S j), line. auto.
    + intros H. destruct (IH _ _ _ H) as [?|(j & line & Hj & Hy)]; [auto|].
      right. exists (S j), line. auto.
Qed.

Lemma scan_next_page_exists (expected : Z) (window : OcrResult) :
  scan_next_page pm expected window = existsb (is_item pm expected) window.
Proof.
  induction window as [|[l|] w IH]; simpl; [reflexivity| |assumption].
  rewrite IH. now destruct (_ && _).
Qed.

(** The window of the current page. *)
Lemma current_window (idx : nat) (ocr_result : OcrResult) :
  take (Nat.min 3 (length ocr_result - idx - 1)) (drop (S idx) ocr_result)
  = take 3 (drop (S idx) ocr_result).
Proof.
  destruct (Nat.min_spec 3 (length ocr_result - idx - 1)) as [[_ ->]|[H ->]];
    [reflexivity|].
  rewrite !take_ge; [reflexivity| |]; rewrite length_drop; lia.
Qed.

End WithMatcher.

End LookAheadFacts.

(** C10: an early end returned by the look-ahead is the [y_min] of a
    line of the same page, one of the three entries after the nested
    item; the other pages can only turn the result into the cross-page
    outcome, which carries no early end. *)
Theorem early_end_only_from_same_page (pm : PatternMatcher) (current_idx : nat)
    (ocr_result : OcrResult) (nested_number page_num : Z)
    (all_page_ocr_results : gmap Z OcrResult) (total_pages : Z) :
  let info :=
    QuestionExtractor._check_next_nested_sub_question pm current_idx ocr_result
      nested_number page_num all_page_ocr_results total_pages in
  (forall y,
      QuestionExtractor.la_early_end_y info = Some y ->
      exists j line,
        (current_idx < j <= current_idx + 3)%nat /\
        ocr_result !! j = Some (Some line) /\ line_y_min line = y) /\
  (info = QuestionExtractor._check_next_nested_sub_question pm current_idx ocr_result
            nested_number page_num ∅ total_pages
   \/ info = QuestionExtractor.mkLookAhead true true (Some (page_num + 1)) None None).
Proof.
  unfold QuestionExtractor._check_next_nested_sub_question.
  rewrite LookAheadFacts.current_window. cbv zeta.
  pose proof (LookAheadFacts.scan_current_page_early pm (nested_number + 1)
                (take 3 (drop (S current_idx) ocr_result)) None None 0) as Hscan.
  destruct (QuestionExtractor.scan_current_page pm (nested_number + 1)
              (take 3 (drop (S current_idx) ocr_result)) None None 0)
    as [[[found ey] et] checked].
  simpl in Hscan.
  assert (Hsame : forall y, ey = Some y ->
            exists j line, (current_idx < j <= current_idx + 3)%nat /\
              ocr_result !! j = Some (Some line) /\ line_y_min line = y).
  { intros y Hy. destruct (Hscan y Hy) as [?|(j & line & Hj & Hl)]; [discriminate|].
    apply lookup_take_Some in Hj as [Hj Hlt]. rewrite lookup_drop in Hj.
    exists (S current_idx + j)%nat, line. split; [lia|]. split; assumption. }
  rewrite lookup_empty.
  destruct (negb found && (checked <? 3)%nat); [|split; [exact Hsame|now left]].
  destruct (page_num + 1 <=? total_pages); [|split; [exact Hsame|now left]].
  destruct (all_page_ocr_results !! (page_num + 1)) as [np|];
    [|split; [exact Hsame|now left]].
  destruct (QuestionExtractor.scan_next_page pm (nested_number + 1) _).
  - split; [intros y Hy; discriminate|now right].
  - split; [exact Hsame|now left].
Qed.

(** ** Field projections of updated questions *)


Lemma lookup_update (r : nat) (f : Question -> Question) (st : list Question) :
  update r f st !! r = f <$> st !! r.
Proof. unfold update. apply list_lookup_alter_eq. Qed.

Lemma lookup_update_ne (r r' : nat) (f : Question -> Question) (st : list Question) :
  r <> r' -> update r f st !! r' = st !! r'.
Proof. unfold update. intros H. now apply list_lookup_alter_ne. Qed.

Lemma length_update (r : nat) (f : Question -> Question) (st : list Question) :
  length (update r f st) = length st.
Proof. unfold update. apply length_alter. Qed.

(** The look-ahead when the window of the current page holds no item
    [n + 1]. *)
Lemma check_next_no_item (pm : PatternMatcher) (idx : nat) (ocr_result : OcrResult)
    (n page_num : Z) (all_page_ocr_results : gmap Z OcrResult) (total_pages : Z) :
  let window := take 3 (drop (S idx) ocr_result) in
  Forall (fun e => QuestionExtractor.is_item pm (n + 1) e = false) window ->
  QuestionExtractor._check_next_nested_sub_question pm idx ocr_result n page_num
    all_page_ocr_results total_pages
  = if QuestionExtractor.found_on_next_page pm (n + 1) page_num all_page_ocr_results
         total_pages (3 - QuestionExtractor.count_lines window)
    then QuestionExtractor.mkLookAhead true true (Some (page_num + 1)) None None
    else QuestionExtractor.mkLookAhead false false None
           (line_y_min <$> QuestionExtractor.first_line window)
           ((fun l => substring 0 30 (line_text l)) <$> QuestionExtractor.first_line window).
Proof.
  intros window H. unfold QuestionExtractor._check_next_nested_sub_question.
  rewrite LookAheadFacts.current_window. fold window.
  rewrite (LookAheadFacts.scan_current_page_no_item pm _ _ None None 0 H).
  unfold QuestionExtractor.found_on_next_page. cbn [negb andb Nat.add].
  destruct (QuestionExtractor.count_lines window <? 3)%nat eqn:E.
  - destruct (page_num + 1 <=? total_pages); [|now destruct (QuestionExtractor.first_line window)].
    destruct (all_page_ocr_results !! (page_num + 1)) as [np|];
      [|now destruct (QuestionExtractor.first_line window)].
    rewrite LookAheadFacts.scan_next_page_exists. cbn [andb].
    destruct (existsb _ _); [reflexivity|now destruct (QuestionExtractor.first_line window)].
  - apply Nat.ltb_ge in E.
    replace (3 - QuestionExtractor.count_lines window)%nat with 0%nat by lia.
    destruct (page_num + 1 <=? total_pages); cbn [andb];
      [destruct (all_page_ocr_results !! (page_num + 1)); rewrite ?take_0; cbn [existsb]|];
      now destruct (QuestionExtractor.first_line window).
Qed.


(** ** The finalizer *)

Module FinalizerFacts.

Import LayoutAnalyzer.

(** Case analysis on the tests of [resolve_question]. *)
Ltac split_tests :=
  repeat first
    [ progress cbn in *
    | progress subst
    | progress rewrite ?andb_false_r, ?andb_true_r in *
    | match goal with
      | H : ?x = ?x |- _ => clear H
      | H : (_, _) = (_, _) |- _ => injection H as ?
      | H : Some _ = Some _ |- _ => injection H as ?
      | H : context [if ?b then _ else _] |- _ => destruct b eqn:?
      | H : context [match ?o with Some _ => _ | None => _ end] |- _ => destruct o eqn:?
      | |- context [if ?b then _ else _] => destruct b eqn:?
      | |- context [match ?o with Some _ => _ | None => _ end] => destruct o eqn:?
      end ];
  try congruence.

Lemma resolve_question_view (images : list Page) (page_num : Z) (next : option NextInfo)
    (q : Question) :
  view (resolve_question images page_num next q) = view q.
Proof.
  destruct q, next as [[[? ?] ?]|];
    unfold view, valid_early_end, resolve_question, resolve_regular, resolve_special;
    split_tests.
Qed.

Lemma resolve_question_ends (images : list Page) (page_num : Z) (next : option NextInfo)
    (q q' : Question) :
  view q = view q' ->
  ends (resolve_question images page_num next q)
  = ends (resolve_question images page_num next q').
Proof.
  intros H. destruct q, q'. unfold view, valid_early_end in H. cbn in H.
  injection H as -> -> -> -> -> -> H.
  destruct next as [[[? ?] ?]|];
    unfold ends, resolve_question, resolve_regular, resolve_special;
    split_tests.
Qed.

Lemma map_fmap {A B} (f : A -> B) (l : list A) : map f l = f <$> l.
Proof. induction l as [|x l IH]; [reflexivity|]. cbn. now rewrite IH. Qed.

Lemma fmap_update_view (r : nat) (f : Question -> Question) (st : list Question) :
  (forall q, view (f q) = view q) -> view <$> update r f st = view <$> st.
Proof.
  intros Hf. apply list_eq. intros i. rewrite !list_lookup_fmap.
  destruct (decide (r = i)) as [->|Hne].
  - rewrite lookup_update. destruct (st !! i); simpl; [now rewrite Hf|reflexivity].
  - now rewrite lookup_update_ne.
Qed.

Lemma view_lookup (st st' : list Question) (r : nat) :
  view <$> st = view <$> st' -> view <$> st !! r = view <$> st' !! r.
Proof. intros H. rewrite <- !list_lookup_fmap. now rewrite H. Qed.

Lemma next_info_view (st st' : list Question) (next : option (Z * nat)) :
  view <$> st = view <$> st' -> next_info st next = next_info st' next.
Proof.
  intros H. destruct next as [[p nr]|]; [|reflexivity]. simpl.
  pose proof (view_lookup st st' nr H) as Hv.
  destruct (st !! nr) as [q|], (st' !! nr) as [q'|]; simpl in Hv; try discriminate;
    [|reflexivity].
  unfold view in Hv. simplify_eq. congruence.
Qed.

Lemma resolve_ends_view (images : list Page) (aq : list (Z * nat)) (st : list Question) :
  view <$> resolve_ends images aq st = view <$> st.
Proof.
  revert st. induction aq as [|[p r] rest IH]; intros st; simpl; [reflexivity|].
  rewrite IH. apply fmap_update_view. intros q. apply resolve_question_view.
Qed.

Lemma resolve_ends_untouched (images : list Page) (aq : list (Z * nat))
    (st : list Question) (r : nat) :
  ~ In r (map snd aq) -> resolve_ends images aq st !! r = st !! r.
Proof.
  revert st. induction aq as [|[p r0] rest IH]; intros st Hr; simpl in *; [reflexivity|].
  rewrite IH by tauto. apply lookup_update_ne. tauto.
Qed.

(** Two stores that agree on what the pass reads, and on the end
    fields of the questions that the pass does not visit, agree on
    all end fields after the pass. *)
Lemma resolve_ends_determined (images : list Page) (aq : list (Z * nat))
    (st st' : list Question) :
  view <$> st = view <$> st' ->
  (forall r, ~ In r (map snd aq) -> ends <$> st !! r = ends <$> st' !! r) ->
  forall r, ends <$> resolve_ends images aq st !! r = ends <$> resolve_ends images aq st' !! r.
Proof.
  revert st st'. induction aq as [|[p r0] rest IH]; intros st st' Hv He r; simpl.
  - apply He. tauto.
  - apply IH.
    + rewrite !fmap_update_view; auto using resolve_question_view.
    + intros r' Hr'. destruct (decide (r0 = r')) as [->|Hne].
      * rewrite !lookup_update, (next_info_view st st' _ Hv).
        pose proof (view_lookup st st' r' Hv) as Hq.
        destruct (st !! r') as [q|], (st' !! r') as [q'|]; simpl in *; try discriminate;
          [|reflexivity].
        f_equal. apply resolve_question_ends. congruence.
      * rewrite !lookup_update_ne by assumption. apply He. simpl. tauto.
Qed.

End FinalizerFacts.

(** C9: a second run of the end resolution over the same list leaves the
    [end_y] and the [end_page] of every question as the first run set
    them. *)
Theorem resolve_ends_idempotent (images : list LayoutAnalyzer.Page) (aq : list (Z * nat))
    (st : list Question) :
  let once := LayoutAnalyzer.resolve_ends images aq st in
  let twice := LayoutAnalyzer.resolve_ends images aq once in
  map q_end_y twice = map q_end_y once /\ map q_end_page twice = map q_end_page once.
Proof.
  intros once twice.
  assert (H : LayoutAnalyzer.ends <$> twice = LayoutAnalyzer.ends <$> once).
  { apply list_eq. intros r. rewrite !list_lookup_fmap.
    apply FinalizerFacts.resolve_ends_determined.
    - apply FinalizerFacts.resolve_ends_view.
    - intros r' Hr'. unfold once. now rewrite FinalizerFacts.resolve_ends_untouched. }
  split.
  - apply (f_equal (fmap fst)) in H. rewrite <- !list_fmap_compose in H.
    rewrite !FinalizerFacts.map_fmap. exact H.
  - apply (f_equal (fmap snd)) in H. rewrite <- !list_fmap_compose in H.
    rewrite !FinalizerFacts.map_fmap. exact H.
Qed.

(** The rules of the end resolution, as [resolve_question] applies them
    to one question: (a) merged across pages, (b) still waiting for a
    later page, (c) a valid early end, (d) a next question on the same
    page, (e) on another page, (f) no next question. In (f) the page
    bottom is that of the page of the question itself. *)
Lemma end_resolution_rules (images : list LayoutAnalyzer.Page) (page_num : Z)
    (next : option LayoutAnalyzer.NextInfo) (q : Question) :
  let q' := LayoutAnalyzer.resolve_question images page_num next q in
  let bottom := Float.int_mul_097 (LayoutAnalyzer.height_of images page_num) in
  if q_cross_page_merged q then
    let end_page := default page_num (q_cross_page_end_page q) in
    q_end_page q' = Some end_page /\
    q_end_y q'
    = Some match q_cross_page_end_y q with
           | Some y => y
           | None =>
               Float.int_mul_097
                 (LayoutAnalyzer.height_of images
                    (if end_page <=? Z.of_nat (length images) then end_page else page_num))
           end
  else if q_cross_page q then
    q_end_y q' = Some bottom /\ q_end_page q' = Some page_num
  else
    match LayoutAnalyzer.valid_early_end q with
    | Some e => q_end_y q' = Some e /\ q_end_page q' = Some page_num
    | None =>
        match next with
        | Some (next_page, next_start_y, next_text_height) =>
            if next_page =? page_num then
              q_end_y q' = Some (next_start_y - Float.int_mul_03 next_text_height) /\
              q_end_page q' = Some page_num
            else
              q_end_y q' = Some bottom /\ q_end_page q' = Some page_num /\
              q_potential_cross_page q' = true
        | None =>
            q_end_y q' = Some bottom /\ q_end_page q' = Some (Z.of_nat (length images))
        end
    end.
Proof.
  destruct q, next as [[[? ?] ?]|];
    unfold LayoutAnalyzer.valid_early_end, LayoutAnalyzer.resolve_question,
      LayoutAnalyzer.resolve_regular, LayoutAnalyzer.resolve_special;
    FinalizerFacts.split_tests; auto.
Qed.

(** C3, rule (f): the only question of the sample document is on page 1
    (height 1000) and the last page is page 2 (height 2000). The
    question gets [end_page = 2], the last page, and [end_y = 970],
    which is 97% of the height of page 1, not of the last page (1940). *)
Lemma last_question_end_uses_own_page :
  let '(st, final) :=
    LayoutAnalyzer.analyze_all_pages Config.default_matcher true
      Samples.trailing_page_document in
  final = [0%nat] /\
  LayoutAnalyzer.ends <$> st !! 0%nat = Some (Some 970, Some 2) /\
  Float.int_mul_097 (LayoutAnalyzer.height_of Samples.trailing_page_document 1) = 970 /\
  Float.int_mul_097 (LayoutAnalyzer.height_of Samples.trailing_page_document 2) = 1940.
Proof. vm_compute. auto. Qed.

(** A line at a position already seen opens no question: the store
    keeps its length, and the open question and the set of seen
    positions stay as they are (with Chinese numerals as primary type). *)
Lemma seen_position_opens_no_question (pm : PatternMatcher) (ocr_result : OcrResult)
    (page_num : Z) (all_page_ocr_results : gmap Z OcrResult) (total_pages : Z) (idx : nat)
    (line : Line) (st : QuestionExtractor.State) :
  let st' :=
    QuestionExtractor.process_line pm true ocr_result page_num all_page_ocr_results
      total_pages idx (Some line) st in
  line_y_min line ∈ QuestionExtractor.seen_start_positions st ->
  length (QuestionExtractor.store st') = length (QuestionExtractor.store st) /\
  QuestionExtractor.current_question st' = QuestionExtractor.current_question st /\
  QuestionExtractor.seen_start_positions st' = QuestionExtractor.seen_start_positions st.
Proof.
  intros st' Hseen. subst st'. unfold QuestionExtractor.process_line.
  assert (Hopen : forall ty saved nested st0,
             QuestionExtractor.seen_start_positions st0
             = QuestionExtractor.seen_start_positions st ->
             QuestionExtractor.open_question ty line page_num saved nested st0
             = QuestionExtractor.mkState (QuestionExtractor.store st0) saved
                 (QuestionExtractor.seen_start_positions st0)
                 (QuestionExtractor.current_question st0)
                 (QuestionExtractor.is_chinese_question st0) nested).
  { intros ty saved nested st0 E. unfold QuestionExtractor.open_question.
    rewrite E, bool_decide_eq_true_2 by assumption. reflexivity. }
  destruct (is_chinese_number_question pm (line_text line)).
  { rewrite Hopen by reflexivity. auto. }
  destruct (is_sub_question pm (line_text line)).
  { destruct (_ && _); [auto|]. rewrite Hopen by reflexivity. auto. }
  destruct (is_nested_sub_question pm (line_text line)).
  { destruct (QuestionExtractor.current_question st) eqn:Ec; [|auto].
    destruct (extract_nested_sub_number pm (line_text line)); [|auto].
    cbn [QuestionExtractor.store QuestionExtractor.current_question
         QuestionExtractor.seen_start_positions].
    rewrite length_update. auto. }
  destruct (matches_question_pattern pm (line_text line)); [|auto].
  rewrite Hopen by reflexivity.
  cbn [QuestionExtractor.store QuestionExtractor.current_question
       QuestionExtractor.seen_start_positions].
  destruct (QuestionExtractor.current_question st) eqn:Ec; rewrite ?length_update; auto.
Qed.

(** C4: the second line of the sample page is an opening marker at the
    [y] of the first, which is in the set of seen positions. No
    question is opened for it, but the open question 0 is appended to
    the list of emitted questions, and it is appended again at the end
    of the page. *)
Lemma duplicate_opening_appends_current :
  let ocr_result := OCRTextMerger.merge_same_line_texts Samples.same_start_lines in
  let step idx st :=
    QuestionExtractor.process_line Config.default_matcher true ocr_result 1 ∅ 1 idx
      (default None (ocr_result !! idx)) st in
  let st1 := step 0%nat (QuestionExtractor.initial_state []) in
  let st2 := step 1%nat st1 in
  bool_decide (100 ∈ QuestionExtractor.seen_start_positions st1) = true /\
  QuestionExtractor.current_question st1 = Some 0%nat /\
  QuestionExtractor.questions st1 = [] /\
  length (QuestionExtractor.store st2) = 1%nat /\
  QuestionExtractor.current_question st2 = Some 0%nat /\
  QuestionExtractor.questions st2 = [0%nat] /\
  (QuestionExtractor.extract_question_positions Config.default_matcher true [] ocr_result
     1 ∅ 1).2 = [0%nat; 0%nat].
Proof. vm_compute. auto 10. Qed.

(** C5: in the first sample document the questions 0 and 1 of page 1
    both wait for a later page; question 0 is opened, is not merged into
    another question, and is absent from the output. In the second one
    the only question is in the output twice. *)
Lemma questions_lost_or_repeated :
  (let '(st, final) :=
     LayoutAnalyzer.analyze_all_pages Config.default_matcher true
       Samples.two_pending_document in
   length st = 2%nat /\ final = [1%nat]) /\
  (let '(st, final) :=
     LayoutAnalyzer.analyze_all_pages Config.default_matcher true
       Samples.same_start_document in
   length st = 1%nat /\ final = [0%nat; 0%nat]).
Proof. vm_compute. auto. Qed.

(** C1, as stated, fails: the question of the sample document starts at
    [y = 800] on page 1 and is merged with the item (2) of page 2, whose
    line ends at [y = 120]; its [end_y] is 120 on [end_page] 2. *)
Lemma cross_page_end_below_start :
  let '(st, final) :=
    LayoutAnalyzer.analyze_all_pages Config.default_matcher true
      Samples.cross_page_document in
  ~ Forall (fun q => exists e, q_end_y q = Some e /\ e > q_start_y q /\ q_start_y q >= 0)
      (LayoutAnalyzer.objects st final).
Proof.
  vm_compute. intros H. inversion H as [|q l (e & He & Hgt & _) _]; subst.
  injection He as <-. discriminate Hgt.
Qed.


(** ** Accumulation of nested numbers *)

Module NestedFacts.

Import QuestionExtractor LayoutAnalyzer.

Lemma apply_look_ahead_nested (info : LookAhead) (q : Question) :
  q_nested (apply_look_ahead info q) = q_nested q.
Proof.
  unfold apply_look_ahead. destruct q, info. cbn.
  repeat match goal with
         | |- context [if ?b then _ else _] => destruct b
         | |- context [match ?o with Some _ => _ | None => _ end] => destruct o
         end; reflexivity.
Qed.

Lemma consecutive_S (e : Z) (k : nat) : consecutive e (S k) = e :: consecutive (e + 1) k.
Proof.
  unfold consecutive. simpl. f_equal; [lia|].
  rewrite <- seq_shift, map_map. apply map_ext. intros i. lia.
Qed.


(** The merge loop appends a run of consecutive numbers that starts at
    the expected number, and nothing else. *)
Lemma merge_nested_run (pm : PatternMatcher) (lines : OcrResult) (nums : list Z)
    (expected : Z) (count : nat) :
  exists k,
    merge_nested pm lines nums expected count
    = (nums ++ consecutive expected k, expected + Z.of_nat k, (count + k)%nat).
Proof.
  revert nums expected count.
  induction lines as [|[l|] lines IH]; intros nums expected count; simpl.
  - exists 0%nat. unfold consecutive. simpl.
    now rewrite app_nil_r, Z.add_0_r, Nat.add_0_r.
  - destruct (is_nested_sub_question pm (line_text l)); [|apply IH].
    destruct (extract_nested_sub_number pm (line_text l)) as [n|]; [|apply IH].
    destruct (n =? expected) eqn:E; [|apply IH].
    apply Z.eqb_eq in E. subst n.
    destruct (IH (nums ++ [expected]) (expected + 1) (S count)) as (k & Hk).
    exists (S k). rewrite Hk, consecutive_S, <- app_assoc. simpl.
    f_equal; [f_equal|]; lia.
  - apply IH.
Qed.

Lemma next_number_above (nums : list Z) : Forall (fun x => x < next_number nums) nums.
Proof.
  apply Forall_forall. intros x Hx. apply list_elem_of_In in Hx.
  destruct nums as [|y nums]; [destruct Hx|].
  unfold next_number. pose proof (zmax_ge _ _ Hx). lia.
Qed.

End NestedFacts.




(** ** Invariants of the traversal *)

Module TraversalFacts.

Import QuestionExtractor LayoutAnalyzer.

Local Abbreviation starts_ok := (Forall (fun q : Question => 0 <= q_start_y q)).
Local Abbreviation lines_ok := (fun ocr : OcrResult => forall l, In (Some l) ocr -> 0 <= line_y_min l).

(** Case analysis on the tests of a function that updates a question. *)
Ltac split_updates :=
  repeat match goal with
         | |- context [if ?b then _ else _] => destruct b
         | |- context [match ?o with Some _ => _ | None => _ end] => destruct o
         | |- context [match ?l with [] => _ | _ :: _ => _ end] => destruct l
         end;
  try reflexivity.

Lemma update_starts_ok (r : nat) (f : Question -> Question) (st : list Question) :
  (forall q, q_start_y (f q) = q_start_y q) -> starts_ok st -> starts_ok (update r f st).
Proof.
  intros Hf Hst. unfold update. apply Forall_alter; [assumption|].
  intros q _ Hq. simpl. now rewrite Hf.
Qed.

Lemma apply_look_ahead_start (info : LookAhead) (q : Question) :
  q_start_y (apply_look_ahead info q) = q_start_y q.
Proof. unfold apply_look_ahead. destruct q, info. cbn. split_updates. Qed.

Lemma complete_merge_start (pm : PatternMatcher) (images : list Page) (ocr : OcrResult)
    (from_page page_idx : Z) (q : Question) :
  q_start_y (complete_merge pm images ocr from_page page_idx q) = q_start_y q.
Proof. unfold complete_merge. destruct q. cbn. split_updates. Qed.

Lemma refine_height_start (ocr : OcrResult) (q : Question) :
  q_start_y (refine_height ocr q) = q_start_y q.
Proof. unfold refine_height. destruct q. cbn. split_updates. Qed.

Lemma resolve_question_start (images : list Page) (page_num : Z) (next : option NextInfo)
    (q : Question) :
  q_start_y (resolve_question images page_num next q) = q_start_y q.
Proof.
  pose proof (FinalizerFacts.resolve_question_view images page_num next q) as H.
  unfold view in H. now simplify_eq.
Qed.

Lemma open_question_starts_ok (ty : QuestionType) (l : Line) (page_num : Z)
    (saved : list nat) (nested : list Z) (st : State) :
  0 <= line_y_min l -> starts_ok (store st) ->
  starts_ok (store (open_question ty l page_num saved nested st)).
Proof.
  intros Hl Hst. unfold open_question. destruct (bool_decide _); cbn [store]; [assumption|].
  apply Forall_app. split; [assumption|]. repeat constructor. exact Hl.
Qed.

Lemma process_line_starts_ok (pm : PatternMatcher) (prefer : bool) (ocr : OcrResult)
    (page_num : Z) (all : gmap Z OcrResult) (total : Z) (idx : nat)
    (entry : option Line) (st : State) :
  (forall l, entry = Some l -> 0 <= line_y_min l) -> starts_ok (store st) ->
  starts_ok (store (process_line pm prefer ocr page_num all total idx entry st)).
Proof.
  intros He Hst. destruct entry as [l|]; [|assumption].
  specialize (He l eq_refl). unfold process_line.
  destruct (is_chinese_number_question pm (line_text l)).
  { destruct prefer; [now apply open_question_starts_ok|].
    destruct (current_question st); cbn [store]; [|assumption].
    apply update_starts_ok; [|assumption]. intros q. destruct q. cbn. split_updates. }
  destruct (is_sub_question pm (line_text l)).
  { destruct (_ && _); [assumption|now apply open_question_starts_ok]. }
  destruct (is_nested_sub_question pm (line_text l)).
  { destruct (current_question st); [|assumption].
    destruct (extract_nested_sub_number pm (line_text l)); [|assumption].
    cbn [store]. apply update_starts_ok; [|assumption].
    intros q. rewrite apply_look_ahead_start. now destruct q. }
  destruct (matches_question_pattern pm (line_text l)); [|assumption].
  apply open_question_starts_ok; [assumption|]. cbn [store].
  destruct (current_question st); [|assumption].
  apply update_starts_ok; [|assumption]. intros q. destruct q. cbn. split_updates.
Qed.

Lemma extract_loop_starts_ok (pm : PatternMatcher) (prefer : bool) (ocr : OcrResult)
    (page_num : Z) (all : gmap Z OcrResult) (total : Z) (rest : OcrResult) (idx : nat)
    (st : State) :
  lines_ok rest -> starts_ok (store st) ->
  starts_ok (store (extract_loop pm prefer ocr page_num all total idx rest st)).
Proof.
  revert idx st. induction rest as [|e rest IH]; intros idx st Hl Hst; simpl; [assumption|].
  apply IH; [intros l Hin; apply Hl; now right|].
  apply process_line_starts_ok; [|assumption].
  intros l ->. apply Hl. now left.
Qed.

Lemma resolve_pending_starts_ok (pm : PatternMatcher) (images : list Page)
    (all : gmap Z OcrResult) (total page_idx : Z) (ocr : OcrResult) (t : Traversal) :
  starts_ok (heap t) -> starts_ok (heap (resolve_pending pm images all total page_idx ocr t)).
Proof.
  intros Ht. unfold resolve_pending.
  destruct (pending_cross_page_question t) as [[cq from]|]; [|assumption].
  destruct (heap t !! cq) as [q|]; [|assumption].
  destruct (page_idx >=? _); [|assumption].
  destruct (merge_nested pm ocr (q_nested q) (next_number (q_nested q)) 0)
    as [[merged e] count].
  destruct (0 <? count)%nat; [|assumption].
  destruct (probe_pages _ _ _ _); cbn [heap]; (apply update_starts_ok; [|assumption]);
    intros q0; rewrite ?complete_merge_start; now destruct q0.
Qed.

Lemma file_questions_starts_ok (images : list Page) (page_idx : Z) (qs : list nat)
    (t : Traversal) :
  starts_ok (heap t) -> starts_ok (heap (file_questions images page_idx qs t)).
Proof.
  revert t. induction qs as [|r qs IH]; intros t Ht; simpl; [assumption|].
  destruct (match heap t !! r with Some q => q_cross_page q | None => false end);
    apply IH; cbn [heap]; [assumption|].
  apply update_starts_ok; [|assumption]. intros q. now destruct q.
Qed.

Lemma visit_page_starts_ok (pm : PatternMatcher) (prefer : bool) (images : list Page)
    (all : gmap Z OcrResult) (total page_idx : Z) (t : Traversal) :
  (forall p ocr, all !! p = Some ocr -> lines_ok ocr) ->
  starts_ok (heap t) ->
  starts_ok (heap (visit_page pm prefer images all total page_idx t)).
Proof.
  intros Hall Ht. unfold visit_page, extract_question_positions.
  apply file_questions_starts_ok. cbn [heap].
  apply extract_loop_starts_ok.
  - destruct (all !! page_idx) as [ocr|] eqn:E; simpl; [eapply Hall, E|intros l []].
  - cbn [store initial_state]. now apply resolve_pending_starts_ok.
Qed.

Lemma collect_questions_starts_ok (pm : PatternMatcher) (prefer : bool)
    (images : list Page) :
  (forall p ocr, collect_ocr images !! p = Some ocr -> lines_ok ocr) ->
  starts_ok (heap (collect_questions pm prefer images)).
Proof.
  intros Hall. unfold collect_questions, flush_pending.
  set (pages := map (fun i => Z.of_nat (S i)) (seq 0 (length images))).
  assert (H : forall t, starts_ok (heap t) ->
            starts_ok (heap (fold_left
              (fun t page_idx =>
                 visit_page pm prefer images (collect_ocr images)
                   (Z.of_nat (length images)) page_idx t) pages t))).
  { induction pages as [|p pages IH]; intros t Ht; simpl; [assumption|].
    apply IH. now apply visit_page_starts_ok. }
  specialize (H (mkTraversal [] [] None) (Forall_nil_2 _)).
  destruct (pending_cross_page_question _) as [[cq from]|]; [|assumption].
  cbn [heap]. apply update_starts_ok; [|assumption]. intros q. now destruct q.
Qed.

Lemma refine_heights_starts_ok (all : gmap Z OcrResult) (aq : list (Z * nat))
    (st : list Question) :
  starts_ok st -> starts_ok (refine_heights all aq st).
Proof.
  unfold refine_heights. revert st.
  induction aq as [|[p r] aq IH]; intros st Hst; simpl; [assumption|].
  apply IH. apply update_starts_ok; [|assumption]. intros q. apply refine_height_start.
Qed.

Lemma resolve_ends_starts_ok (images : list Page) (aq : list (Z * nat))
    (st : list Question) :
  starts_ok st -> starts_ok (resolve_ends images aq st).
Proof.
  revert st. induction aq as [|[p r] aq IH]; intros st Hst; simpl; [assumption|].
  apply IH. apply update_starts_ok; [|assumption]. intros q. apply resolve_question_start.
Qed.

(** The merged lines of a page lie at or below the topmost fragment. *)
Lemma merged_lines_ok (input : list Line) :
  (forall l, In l input -> 0 <= line_y_min l) ->
  lines_ok (OCRTextMerger.merge_same_line_texts input).
Proof.
  intros Hin m Hm. rewrite MergerFacts.merge_same_line_texts_group in Hm.
  set (clusters := OCRTextMerger.group [] (sorted_by line_y_min input)) in *.
  destruct (MergerFacts.merged_outputs clusters (MergerFacts.group_nonempty _ _))
    as (out & Ho & Hf).
  rewrite Ho in Hm. apply in_map_iff in Hm as (m' & [= ->] & Hm).
  assert (Hc : exists c, In c clusters /\ OCRTextMerger.merged_from c m).
  { clear Ho. induction Hf as [|c x cs xs Hcx _ IH]; [destruct Hm|].
    destruct Hm as [->|Hm]; [exists c; split; [now left|assumption]|].
    destruct (IH Hm) as (c' & Hc' & Hmf). exists c'. split; [now right|assumption]. }
  destruct Hc as (c & Hc & Hmf).
  rewrite (MergerFacts.merged_y_min c m Hmf).
  destruct c as [|f c']; [simpl; lia|].
  pose proof (zmin_In (map line_y_min (f :: c')) ltac:(discriminate)) as Hz.
  apply in_map_iff in Hz as (g & <- & Hg). apply Hin.
  apply (Permutation_in g (sorted_by_perm line_y_min input)).
  change (sorted_by line_y_min input) with ([] ++ sorted_by line_y_min input).
  rewrite <- (MergerFacts.group_concat (sorted_by line_y_min input) []).
  apply in_concat. exists (f :: c'). split; assumption.
Qed.

Lemma collect_ocr_lines_ok (images : list Page) :
  (forall img line p,
      In img images -> In line (page_lines img) -> In p (points (line_box line)) ->
      0 <= p.2) ->
  forall p ocr, collect_ocr images !! p = Some ocr -> lines_ok ocr.
Proof.
  intros Hpts p ocr Hp. unfold collect_ocr in Hp.
  apply elem_of_list_to_map_2, elem_of_lookup_imap_1 in Hp as (i & img & [= _ ->] & Hi).
  apply merged_lines_ok. intros l Hl.
  pose proof (zmin_In (y_coords (line_box l)) ltac:(discriminate)) as Hz.
  unfold y_coords in Hz at 2. apply in_map_iff in Hz as (pt & Hpt & Hin).
  unfold line_y_min. rewrite <- Hpt. apply (Hpts img l pt); try assumption.
  apply list_elem_of_In, list_elem_of_lookup_2 with i. exact Hi.
Qed.

(** What the end resolution establishes for a question. *)
Lemma resolve_question_post (images : list Page) (page_num : Z) (next : option NextInfo)
    (q : Question) :
  let q' := resolve_question images page_num next q in
  is_Some (q_end_y q') /\ is_Some (q_end_page q') /\
  (q_cross_page_merged q' = false -> q_cross_page q' = false ->
   forall e, q_early_end_y q' = Some e -> q_end_y q' = Some e /\ q_start_y q' < e).
Proof.
  destruct q, next as [[[? ?] ?]|];
    unfold resolve_question, resolve_regular, resolve_special;
    FinalizerFacts.split_tests.
  all: split; [eauto|].
  all: split; [eauto|].
  all: intros; simplify_eq.
  all: split; [reflexivity|lia].
Qed.

Lemma resolve_ends_visited (images : list Page) (aq : list (Z * nat))
    (st : list Question) (r : nat) (q : Question) :
  In r (map snd aq) -> resolve_ends images aq st !! r = Some q ->
  is_Some (q_end_y q) /\ is_Some (q_end_page q) /\
  (q_cross_page_merged q = false -> q_cross_page q = false ->
   forall e, q_early_end_y q = Some e -> q_end_y q = Some e /\ q_start_y q < e).
Proof.
  revert st. induction aq as [|[p r0] rest IH]; intros st Hr Hq; simpl in *; [destruct Hr|].
  destruct (in_dec Nat.eq_dec r (map snd rest)) as [Hin|Hnin]; [eauto|].
  destruct Hr as [->|Hr]; [|contradiction].
  rewrite FinalizerFacts.resolve_ends_untouched, lookup_update in Hq by assumption.
  destruct (st !! r) as [q0|]; [|discriminate]. injection Hq as <-.
  apply resolve_question_post.
Qed.

End TraversalFacts.

(** C1, amended: every question of the output of [analyze_all_pages] has
    [end_y] and [end_page] set, and [start_y >= 0] when no recognized
    point has a negative [y]. [end_y > start_y] is guaranteed where the
    end is the early end of a question without cross-page flag; for a
    question merged across pages [end_y] is a position on [end_page],
    and the regular rules do not compare it with [start_y]. *)
Theorem finalized_question_bounds (pm : PatternMatcher) (prefer_chinese_primary : bool)
    (images : list LayoutAnalyzer.Page) (q : Question) :
  let result := LayoutAnalyzer.analyze_all_pages pm prefer_chinese_primary images in
  (forall img line p,
      In img images -> In line (LayoutAnalyzer.page_lines img) ->
      In p (points (line_box line)) -> 0 <= p.2) ->
  In q (LayoutAnalyzer.objects result.1 result.2) ->
  0 <= q_start_y q /\
  is_Some (q_end_y q) /\ is_Some (q_end_page q) /\
  (q_cross_page_merged q = false -> q_cross_page q = false ->
   forall e, q_early_end_y q = Some e -> q_end_y q = Some e /\ q_start_y q < e).
Proof.
  intros result Hpts Hq. unfold LayoutAnalyzer.objects in Hq.
  apply list_elem_of_In, list_elem_of_omap in Hq as (r & Hr & Hq).
  apply list_elem_of_In in Hr. subst result.
  unfold LayoutAnalyzer.analyze_all_pages in *. cbn [fst snd] in *.
  split.
  - assert (Hall : Forall (fun q : Question => 0 <= q_start_y q)
                     (LayoutAnalyzer.resolve_ends images
                        (LayoutAnalyzer.all_questions
                           (LayoutAnalyzer.collect_questions pm prefer_chinese_primary images))
                        (LayoutAnalyzer.refine_heights (LayoutAnalyzer.collect_ocr images)
                           (LayoutAnalyzer.all_questions
                              (LayoutAnalyzer.collect_questions pm prefer_chinese_primary
                                 images))
                           (LayoutAnalyzer.heap
                              (LayoutAnalyzer.collect_questions pm prefer_chinese_primary
                                 images))))).
    { apply TraversalFacts.resolve_ends_starts_ok, TraversalFacts.refine_heights_starts_ok,
        TraversalFacts.collect_questions_starts_ok.
      now apply TraversalFacts.collect_ocr_lines_ok. }
    rewrite Forall_forall in Hall. apply Hall. eapply list_elem_of_lookup_2, Hq.
  - eapply TraversalFacts.resolve_ends_visited; eassumption.
Qed.

(** The theorem on the question of the sample document, whose end is
    its early end 300. *)
Lemma finalized_question_bounds_witness :
  0 <= q_start_y Samples.early_end_question /\
  q_end_y Samples.early_end_question = Some 300 /\
  q_start_y Samples.early_end_question < 300.
Proof.
  assert (Hpts : forall img line p,
             In img Samples.early_end_document -> In line (LayoutAnalyzer.page_lines img) ->
             In p (points (line_box line)) -> 0 <= p.2).
  { intros img line p [<-|[]] Hline Hp. simpl in Hline.
    repeat (destruct Hline as [<-|Hline];
            [simpl in Hp; repeat (destruct Hp as [<-|Hp]; [simpl; lia|]); destruct Hp|]).
    destruct Hline. }
  assert (Hin : In Samples.early_end_question
                  (LayoutAnalyzer.objects
                     (LayoutAnalyzer.analyze_all_pages Config.default_matcher true
                        Samples.early_end_document).1
                     (LayoutAnalyzer.analyze_all_pages Config.default_matcher true
                        Samples.early_end_document).2)).
  { vm_compute. left. reflexivity. }
  destruct (finalized_question_bounds Config.default_matcher true
              Samples.early_end_document Samples.early_end_question Hpts Hin)
    as (H1 & _ & _ & H4).
  split; [exact H1|]. exact (H4 eq_refl eq_refl 300 eq_refl).
Defined.

(** ** The extractor: what a call does to the store *)

Module ExtractorFacts.

Import QuestionExtractor Invariants.

Lemma update_new (heap news : list Question) (r : nat) (f : Question -> Question) :
  (length heap <= r)%nat ->
  update r f (heap ++ news) = heap ++ update (r - length heap) f news.
Proof. intros H. unfold update. now rewrite alter_app_r_alt. Qed.

Lemma box_height_nonneg (l : Line) : 0 <= line_y_max l - line_y_min l.
Proof.
  unfold line_y_max, line_y_min.
  pose proof (MergerFacts.zmin_le_zmax (y_coords (line_box l)) ltac:(discriminate)). lia.
Qed.

(** The cross-page outcome of the look-ahead names the next page. *)
Lemma check_next_cross_page_to (pm : PatternMatcher) (idx : nat) (ocr_result : OcrResult)
    (n page_num : Z) (all : gmap Z OcrResult) (total : Z) :
  let info := _check_next_nested_sub_question pm idx ocr_result n page_num all total in
  la_cross_page_to info = (if la_cross_page info then Some (page_num + 1) else None).
Proof.
  unfold _check_next_nested_sub_question.
  destruct (scan_current_page _ _ _ _ _ _) as [[[found ey] et] checked].
  destruct (negb found && _); [|reflexivity].
  destruct (_ <=? _); [|reflexivity].
  destruct (all !! _); [|reflexivity].
  destruct (scan_next_page _ _ _); reflexivity.
Qed.

(** An early end returned by the look-ahead is the top of a line of
    the page. *)
Lemma check_next_early_top (pm : PatternMatcher) (idx : nat) (ocr_result : OcrResult)
    (n page_num : Z) (all : gmap Z OcrResult) (total : Z) (y : Z) :
  la_early_end_y (_check_next_nested_sub_question pm idx ocr_result n page_num all total)
  = Some y ->
  line_top ocr_result y.
Proof.
  unfold _check_next_nested_sub_question.
  pose proof (LookAheadFacts.scan_current_page_early pm (n + 1)
                (take (Nat.min 3 (length ocr_result - idx - 1)) (drop (S idx) ocr_result))
                None None 0 y) as Hscan.
  destruct (scan_current_page _ _ _ _ _ _) as [[[found ey] et] checked].
  cbn [fst snd] in Hscan.
  assert (Hey : ey = Some y -> line_top ocr_result y).
  { intros E. destruct (Hscan E) as [?|(j & line & Hj & Hy)]; [discriminate|].
    exists line. split; [|exact Hy].
    apply lookup_take_Some in Hj as [Hj _]. rewrite lookup_drop in Hj.
    apply list_elem_of_In. eapply list_elem_of_lookup_2, Hj. }
  destruct (negb found && _); [|exact Hey].
  destruct (_ <=? _); [|exact Hey].
  destruct (all !! _); [|exact Hey].
  destruct (scan_next_page _ _ _); [discriminate|exact Hey].
Qed.

Lemma apply_look_ahead_extracted (info : LookAhead) (tops : Z -> Prop) (page_num : Z)
    (q : Question) :
  la_cross_page_to info = (if la_cross_page info then Some (page_num + 1) else None) ->
  (forall y, la_early_end_y info = Some y -> tops y) ->
  extracted_on tops page_num q ->
  extracted_on tops page_num (apply_look_ahead info q) /\
  q_start_y (apply_look_ahead info q) = q_start_y q.
Proof.
  unfold extracted_on, apply_look_ahead.
  destruct info as [found cross to ey et], q. cbn.
  intros -> Hey H.
  assert (Hey' : forall y e, ey = Some y -> Some y = Some e -> tops e).
  { intros y e -> [= <-]. now apply Hey. }
  clear Hey.
  destruct cross, found, q_cross_page0; cbn; try (intuition congruence).
  all: repeat first
         [ progress cbn
         | match goal with
           | |- context [match ?o with Some _ => _ | None => _ end] => is_var o; destruct o
           | |- context [if ?a >? ?b then _ else _] => destruct (a >? b)
           | |- context [if ?a <? ?b then _ else _] => destruct (a <? b)
           | |- context [if (?a <? ?b) && _ then _ else _] => destruct (a <? b)
           end ].
  all: intuition (congruence || eauto).
Qed.

Lemma extractor_inv_update (heap : list Question) (tops : Z -> Prop) (page_num : Z)
    (s : list Question) (qs : list nat) (seen : gset Z) (cur : option nat) (r : nat)
    (f : Question -> Question) :
  (forall q, extracted_on tops page_num q ->
             extracted_on tops page_num (f q) /\ q_start_y (f q) = q_start_y q) ->
  extractor_inv heap tops page_num s qs seen cur -> cur = Some r ->
  extractor_inv heap tops page_num (update r f s) qs seen cur.
Proof.
  intros Hf (news & -> & Hn & Hseen & Hnd & Hqs & Hcur & Hall) Hr.
  destruct (Hcur r Hr) as [Hlo Hhi].
  exists (update (r - length heap) f news).
  assert (Hstarts : q_start_y <$> update (r - length heap) f news = q_start_y <$> news).
  { unfold update. apply list_eq. intros i. rewrite !list_lookup_fmap.
    destruct (decide (i = (r - length heap)%nat)) as [->|Hne].
    - rewrite list_lookup_alter_eq. destruct (news !! _) as [q|] eqn:E; [|reflexivity].
      cbn. f_equal. apply Hf. rewrite Forall_forall in Hn. apply Hn.
      eapply list_elem_of_lookup_2, E.
    - now rewrite list_lookup_alter_ne. }
  unfold created in *. rewrite length_update.
  split; [now apply update_new|].
  split.
  { unfold update. apply Forall_alter; [assumption|]. intros q _ Hq. now apply Hf. }
  rewrite Hstarts. auto.
Qed.

Lemma extractor_inv_open (heap : list Question) (tops : Z -> Prop) (page_num : Z)
    (ty : QuestionType) (l : Line) (nested : list Z) (st : State) :
  tops (line_y_min l) ->
  extractor_inv heap tops page_num (store st) (questions st) (seen_start_positions st)
    (current_question st) ->
  let st' := open_question ty l page_num (save_current st) nested st in
  extractor_inv heap tops page_num (store st') (questions st') (seen_start_positions st')
    (current_question st').
Proof.
  intros Htop (news & Hs & Hn & Hseen & Hnd & Hqs & Hcur & Hall).
  assert (Hsaved : Forall (created heap (store st)) (save_current st)).
  { unfold save_current. destruct (current_question st) as [r|]; [|assumption].
    apply Forall_app. split; [assumption|]. apply Forall_singleton. now apply Hcur. }
  assert (Hcov : forall r, created heap (store st) r -> r ∈ save_current st).
  { intros r Hr. unfold save_current. destruct (Hall r Hr) as [H|H].
    - destruct (current_question st); [apply elem_of_app; now left|assumption].
    - rewrite H. apply elem_of_app. right. now apply list_elem_of_singleton. }
  unfold open_question. cbv zeta. destruct (bool_decide _) eqn:Eseen; cbn [store questions seen_start_positions current_question].
  - exists news. do 4 (split; [assumption|]). split; [assumption|]. split; [assumption|].
    intros r Hr. left. now apply Hcov.
  - apply bool_decide_eq_false in Eseen.
    set (q := new_question (line_y_min l) (line_text l) page_num ty
                (line_y_max l - line_y_min l)).
    exists (news ++ [q]).
    assert (Hlen : length (store st ++ [q]) = S (length (store st)))
      by (rewrite length_app; simpl; lia).
    split; [rewrite Hs; now rewrite <- app_assoc|].
    split.
    { apply Forall_app. split; [assumption|]. apply Forall_singleton.
      unfold extracted_on. cbn. pose proof (box_height_nonneg l).
      intuition discriminate. }
    split.
    { rewrite Hseen, fmap_app, list_to_set_app_L. cbn [fmap list_fmap list_to_set].
      rewrite union_empty_r_L. apply union_comm_L. }
    split.
    { rewrite fmap_app. apply NoDup_app. split; [assumption|]. split; [|apply NoDup_singleton].
      intros y Hy Hy'. apply list_elem_of_singleton in Hy'. subst y.
      apply Eseen. rewrite Hseen. now apply elem_of_list_to_set. }
    unfold created in *. rewrite Hlen.
    split.
    { eapply Forall_impl; [exact Hsaved|]. intros r Hr. simpl in Hr. lia. }
    split.
    { intros r [= <-]. rewrite Hs, length_app. lia. }
    intros r Hr. destruct (decide (r = length (store st))) as [->|Hne]; [now right|].
    left. apply Hcov. lia.
Qed.

(** Closes a goal that is the invariant of an unchanged state. *)
Ltac same_state Hinv :=
  first
    [ exact Hinv
    | match goal with
      | E : current_question _ = _ |- _ =>
          first [rewrite E; exact Hinv | rewrite <- E; exact Hinv
                | rewrite E in Hinv; exact Hinv | rewrite <- E in Hinv; exact Hinv]
      end ].

(** Every step of the loop keeps the invariant. *)
Lemma process_line_inv (pm : PatternMatcher) (prefer : bool) (heap : list Question)
    (ocr : OcrResult) (page_num : Z) (all : gmap Z OcrResult) (total : Z) (idx : nat)
    (entry : option Line) (st : State) :
  In entry ocr ->
  extractor_inv heap (line_top ocr) page_num (store st) (questions st)
    (seen_start_positions st) (current_question st) ->
  let st' := process_line pm prefer ocr page_num all total idx entry st in
  extractor_inv heap (line_top ocr) page_num (store st') (questions st')
    (seen_start_positions st') (current_question st').
Proof.
  intros Hentry Hinv. destruct entry as [l|]; [|assumption].
  assert (Htop : line_top ocr (line_y_min l)) by (now exists l).
  unfold process_line. cbv zeta.
  destruct (is_chinese_number_question pm (line_text l)).
  { destruct prefer; [now apply extractor_inv_open|].
    destruct (current_question st) as [r|] eqn:Ec;
      cbn [store questions seen_start_positions current_question].
    - assert (Hu : extractor_inv heap (line_top ocr) page_num
                     (update r (fun q =>
                        if line_y_min l >? q_start_y q
                        then set_early_end_text (Some (substring 0 30 (line_text l)))
                               (set_early_end_y (Some (line_y_min l)) q)
                        else q) (store st))
                     (questions st) (seen_start_positions st) (Some r)).
      { eapply extractor_inv_update; [|exact Hinv|reflexivity].
        revert Htop. generalize (line_y_min l) (substring 0 30 (line_text l)).
        intros y t Htop q. unfold extracted_on. destruct q. cbn.
        destruct (_ >? _); cbn; intuition (try congruence); simplify_eq; assumption. }
      destruct Hu as (news & Hs & Hn & Hseen & Hnd & Hqs & Hcur & Hall).
      exists news. do 4 (split; [assumption|]). split; [|split].
      + apply Forall_app. split; [assumption|]. apply Forall_singleton. now apply Hcur.
      + intros r' [=].
      + intros r' Hr'. left. destruct (Hall r' Hr') as [H|[= ->]];
          apply elem_of_app; [now left|right; now apply list_elem_of_singleton].
    - exact Hinv. }
  destruct (is_sub_question pm (line_text l)).
  { destruct (_ && _); [assumption|now apply extractor_inv_open]. }
  destruct (is_nested_sub_question pm (line_text l)).
  { destruct (current_question st) as [r|] eqn:Ec; [|same_state Hinv].
    destruct (extract_nested_sub_number pm (line_text l)) as [n|]; [|same_state Hinv].
    cbn [store questions seen_start_positions current_question].
    eapply extractor_inv_update; [|same_state Hinv|reflexivity].
    intros q Hq.
    assert (Hq' : extracted_on (line_top ocr) page_num
                    (set_nested (nested_sub_numbers st ++ [n]) q))
      by (revert Hq; unfold extracted_on; destruct q; cbn; intuition).
    destruct (apply_look_ahead_extracted
                (_check_next_nested_sub_question pm idx ocr n page_num all total)
                (line_top ocr) page_num _
                (check_next_cross_page_to pm idx ocr n page_num all total)
                (check_next_early_top pm idx ocr n page_num all total) Hq')
      as [H1 H2].
    split; [exact H1|]. rewrite H2. now destruct q. }
  destruct (matches_question_pattern pm (line_text l)); [|assumption].
  match goal with
  | |- context [open_question Other l page_num (save_current ?s) _ _] =>
      change (save_current s) with (save_current st)
  end.
  match goal with
  | |- context [open_question Other l page_num _ _ ?s] =>
      apply (extractor_inv_open heap (line_top ocr) page_num Other l
               (nested_sub_numbers st) s Htop)
  end.
  cbn [store questions seen_start_positions current_question].
  destruct (current_question st) as [r|] eqn:Ec; [|same_state Hinv].
  eapply extractor_inv_update; [|same_state Hinv|reflexivity].
  revert Htop. generalize (line_y_min l) (substring 0 30 (line_text l)). intros y t Htop.
  intros q. unfold extracted_on. destruct q. cbn.
  destruct q_early_end_y0 as [e|]; [destruct (y <? e)|]; cbn;
    intuition (try congruence); simplify_eq; assumption.
Qed.

Lemma extract_loop_inv (pm : PatternMatcher) (prefer : bool) (heap : list Question)
    (ocr : OcrResult) (page_num : Z) (all : gmap Z OcrResult) (total : Z)
    (rest : OcrResult) (idx : nat) (st : State) :
  (forall e, In e rest -> In e ocr) ->
  extractor_inv heap (line_top ocr) page_num (store st) (questions st)
    (seen_start_positions st) (current_question st) ->
  let st' := extract_loop pm prefer ocr page_num all total idx rest st in
  extractor_inv heap (line_top ocr) page_num (store st') (questions st')
    (seen_start_positions st') (current_question st').
Proof.
  revert idx st. induction rest as [|e rest IH]; intros idx st Hin Hinv; simpl;
    [assumption|].
  apply IH; [intros e' He'; apply Hin; now right|].
  apply process_line_inv; [apply Hin; now left|assumption].
Qed.

Lemma initial_state_inv (heap : list Question) (tops : Z -> Prop) (page_num : Z) :
  extractor_inv heap tops page_num heap [] ∅ None.
Proof.
  exists []. rewrite app_nil_r.
  split; [reflexivity|]. split; [constructor|]. split; [reflexivity|].
  split; [constructor|]. split; [constructor|]. split; [intros r [=]|].
  intros r Hr. unfold created in Hr. lia.
Qed.

(** What a call of [extract_question_positions] establishes. *)
Lemma extract_question_positions_inv (pm : PatternMatcher) (prefer : bool)
    (heap : list Question) (ocr : OcrResult) (page_num : Z) (all : gmap Z OcrResult)
    (total : Z) :
  let result := extract_question_positions pm prefer heap ocr page_num all total in
  exists news,
    result.1 = heap ++ news /\
    Forall (extracted_on (line_top ocr) page_num) news /\
    NoDup (q_start_y <$> news) /\
    Forall (created heap result.1) result.2 /\
    (forall r, created heap result.1 r -> r ∈ result.2).
Proof.
  unfold extract_question_positions. cbn [fst snd].
  pose proof (extract_loop_inv pm prefer heap ocr page_num all total ocr 0
                (initial_state heap) (fun e He => He)
                (initial_state_inv heap (line_top ocr) page_num)) as H.
  cbv zeta in H.
  set (st := extract_loop pm prefer ocr page_num all total 0 ocr (initial_state heap)) in *.
  destruct H as (news & Hs & Hn & Hseen & Hnd & Hqs & Hcur & Hall).
  exists news. do 3 (split; [assumption|]). split.
  - unfold save_current. destruct (current_question st) as [r|]; [|assumption].
    apply Forall_app. split; [assumption|]. apply Forall_singleton. now apply Hcur.
  - intros r Hr. unfold save_current. destruct (Hall r Hr) as [H|H].
    + destruct (current_question st); [apply elem_of_app; now left|assumption].
    + rewrite H. apply elem_of_app. right. now apply list_elem_of_singleton.
Qed.

(** A line that opens nothing, met while no question is open, leaves
    the state of the loop as it is. *)
Lemma process_line_no_opening (pm : PatternMatcher) (prefer : bool) (ocr : OcrResult)
    (page_num : Z) (all : gmap Z OcrResult) (total : Z) (idx : nat)
    (entry : option Line) (st : State) :
  is_opening pm entry = false -> current_question st = None ->
  process_line pm prefer ocr page_num all total idx entry st = st.
Proof.
  intros He Hc. destruct entry as [l|]; [|reflexivity].
  unfold is_opening in He. unfold process_line.
  destruct (is_chinese_number_question pm (line_text l)); [discriminate|].
  destruct (is_sub_question pm (line_text l)); [discriminate|].
  rewrite Hc.
  destruct (is_nested_sub_question pm (line_text l)); [reflexivity|].
  destruct (matches_question_pattern pm (line_text l)); [discriminate|reflexivity].
Qed.

Lemma extract_loop_no_opening (pm : PatternMatcher) (prefer : bool) (ocr : OcrResult)
    (page_num : Z) (all : gmap Z OcrResult) (total : Z) (rest : OcrResult) (idx : nat)
    (st : State) :
  Forall (fun e => is_opening pm e = false) rest -> current_question st = None ->
  extract_loop pm prefer ocr page_num all total idx rest st = st.
Proof.
  intros H. revert idx. induction H as [|e rest He _ IH]; intros idx Hc; simpl;
    [reflexivity|].
  rewrite process_line_no_opening by assumption. now apply IH.
Qed.

Lemma extract_loop_app (pm : PatternMatcher) (prefer : bool) (ocr : OcrResult)
    (page_num : Z) (all : gmap Z OcrResult) (total : Z) (l1 l2 : OcrResult) (idx : nat)
    (st : State) :
  extract_loop pm prefer ocr page_num all total idx (l1 ++ l2) st
  = extract_loop pm prefer ocr page_num all total (idx + length l1) l2
      (extract_loop pm prefer ocr page_num all total idx l1 st).
Proof.
  revert idx st. induction l1 as [|e l1 IH]; intros idx st; simpl.
  - now rewrite Nat.add_0_r.
  - rewrite IH. f_equal. lia.
Qed.

(** The loop under a major heading, majors preferred: the question of
    the heading stays the only one and collects the nested numbers. *)
Lemma extract_loop_under_heading (pm : PatternMatcher) (ocr : OcrResult) (page_num : Z)
    (all : gmap Z OcrResult) (total : Z) (heap : list Question) (post : OcrResult)
    (idx : nat) (q : Question) (seen : gset Z) :
  Forall (fun e => continues pm e = true) post ->
  exists q',
    extract_loop pm true ocr page_num all total idx post
      (mkState (heap ++ [q]) [] seen (Some (length heap)) true (q_nested q))
    = mkState (heap ++ [q']) [] seen (Some (length heap)) true (q_nested q') /\
    q_start_y q' = q_start_y q /\ q_text q' = q_text q /\ q_type q' = q_type q /\
    q_nested q' = q_nested q ++ nested_numbers pm post.
Proof.
  intros H. revert idx q.
  induction H as [|e post He _ IH]; intros idx q; simpl.
  { exists q. now rewrite app_nil_r. }
  destruct e as [l|]; [|apply IH].
  unfold continues in He. unfold process_line, nested_numbers. cbn [omap list_omap].
  cbn [current_question is_chinese_question store questions seen_start_positions
       nested_sub_numbers].
  destruct (is_chinese_number_question pm (line_text l)); [discriminate|].
  destruct (is_sub_question pm (line_text l)).
  { cbn [andb negb]. rewrite bool_decide_eq_true_2 by eauto. apply IH. }
  cbn [andb negb orb] in *.
  destruct (is_nested_sub_question pm (line_text l)).
  - destruct (extract_nested_sub_number pm (line_text l)) as [n|]; [|apply IH].
    rewrite update_new by lia. rewrite Nat.sub_diag. cbn [update alter list_alter].
    set (q1 := apply_look_ahead _ (set_nested (q_nested q ++ [n]) q)).
    assert (Hn : q_nested q1 = q_nested q ++ [n])
      by (subst q1; rewrite NestedFacts.apply_look_ahead_nested; now destruct q).
    rewrite <- Hn.
    destruct (IH (S idx) q1) as (q' & Hloop & Hy & Ht & Hty & Hnest).
    exists q'. split; [exact Hloop|].
    subst q1. rewrite Hy, Ht, Hty, Hnest, Hn.
    rewrite TraversalFacts.apply_look_ahead_start, <- app_assoc.
    repeat split; try (now destruct q).
    + unfold apply_look_ahead. destruct (_check_next_nested_sub_question _ _ _ _ _ _ _), q.
      cbn. TraversalFacts.split_updates.
    + unfold apply_look_ahead. destruct (_check_next_nested_sub_question _ _ _ _ _ _ _), q.
      cbn. TraversalFacts.split_updates.
  - destruct (matches_question_pattern pm (line_text l)); [discriminate|apply IH].
Qed.

(** The scan of the current page stops at the item it looks for. *)
Lemma scan_current_page_found (pm : PatternMatcher) (expected : Z) (window : OcrResult)
    (ey : option Z) (et : option string) (checked : nat) :
  existsb (is_item pm expected) window = true ->
  (scan_current_page pm expected window ey et checked).1.1.1 = true.
Proof.
  revert ey et checked. induction window as [|[l|] w IH]; intros ey et checked; simpl.
  - discriminate.
  - destruct (is_nested_sub_question pm (line_text l)
              && is_number (extract_nested_sub_number pm (line_text l)) expected);
      [reflexivity|].
    simpl. intros H. destruct ey; now apply IH.
  - apply IH.
Qed.

Lemma scan_current_page_not_found (pm : PatternMatcher) (expected : Z) (window : OcrResult)
    (ey : option Z) (et : option string) (checked : nat) :
  (scan_current_page pm expected window ey et checked).1.1.1 = false ->
  Forall (fun e => is_item pm expected e = false) window /\
  (scan_current_page pm expected window ey et checked).2
  = (checked + count_lines window)%nat.
Proof.
  revert ey et checked. induction window as [|[l|] w IH]; intros ey et checked; simpl.
  - intros _. split; [constructor|lia].
  - destruct (is_nested_sub_question pm (line_text l)
              && is_number (extract_nested_sub_number pm (line_text l)) expected) eqn:E;
      [discriminate|].
    intros H. destruct ey; destruct (IH _ _ _ H) as [Hf Hc];
      (split; [constructor; [exact E|exact Hf]|rewrite Hc; lia]).
  - intros H. destruct (IH _ _ _ H) as [Hf Hc]. split; [constructor; [reflexivity|exact Hf]|exact Hc].
Qed.

End ExtractorFacts.

(** X1: a call of [extract_question_positions] only appends to the
    store, so that every question that existed before is left as it
    was, and the list it returns holds exactly the references of the
    questions it created (each at least once). *)
Theorem extract_appends_and_returns_created (pm : PatternMatcher) (prefer : bool)
    (heap : list Question) (ocr_result : OcrResult) (page_num : Z)
    (all_page_ocr_results : gmap Z OcrResult) (total_pages : Z) :
  let result :=
    QuestionExtractor.extract_question_positions pm prefer heap ocr_result page_num
      all_page_ocr_results total_pages in
  (exists news, result.1 = heap ++ news) /\
  (forall r, r ∈ result.2 <-> (length heap <= r < length result.1)%nat).
Proof.
  intros result.
  destruct (ExtractorFacts.extract_question_positions_inv pm prefer heap ocr_result page_num
              all_page_ocr_results total_pages) as (news & Hs & _ & _ & Hqs & Hall).
  fold result in Hs, Hqs, Hall. split; [now exists news|].
  intros r. split; [|apply Hall].
  intros Hr. rewrite Forall_forall in Hqs. now apply Hqs.
Qed.


(** X3: the questions created by one call of
    [extract_question_positions] have pairwise distinct [start_y]: the
    set of seen positions admits one question per position on a page. *)
Theorem extracted_starts_distinct (pm : PatternMatcher) (prefer : bool)
    (heap : list Question) (ocr_result : OcrResult) (page_num : Z)
    (all_page_ocr_results : gmap Z OcrResult) (total_pages : Z) :
  let result :=
    QuestionExtractor.extract_question_positions pm prefer heap ocr_result page_num
      all_page_ocr_results total_pages in
  NoDup (q_start_y <$> drop (length heap) result.1).
Proof.
  intros result.
  destruct (ExtractorFacts.extract_question_positions_inv pm prefer heap ocr_result page_num
              all_page_ocr_results total_pages) as (news & Hs & _ & Hnd & _).
  fold result in Hs. now rewrite Hs, drop_app_length.
Qed.

(** X4: a page on which no line is a major heading, a minor heading or
    (without being a nested item) a line of the general question
    pattern yields no question and leaves the store as it is: nested
    items and plain text outside a question are dropped. *)
Theorem page_without_opening_line (pm : PatternMatcher) (prefer : bool)
    (heap : list Question) (ocr_result : OcrResult) (page_num : Z)
    (all_page_ocr_results : gmap Z OcrResult) (total_pages : Z) :
  Forall (fun e => Invariants.is_opening pm e = false) ocr_result ->
  QuestionExtractor.extract_question_positions pm prefer heap ocr_result page_num
    all_page_ocr_results total_pages
  = (heap, []).
Proof.
  intros H. unfold QuestionExtractor.extract_question_positions.
  now rewrite ExtractorFacts.extract_loop_no_opening.
Qed.

Lemma page_without_opening_line_witness :
  QuestionExtractor.extract_question_positions Config.default_matcher true [] 
    MoreSamples.no_opening_page 1 ∅ 1
  = ([], []).
Proof.
  apply (page_without_opening_line Config.default_matcher true []
           MoreSamples.no_opening_page 1 ∅ 1).
  repeat constructor.
Defined.

(** X5: with major headings preferred, a page whose first opening line
    is a major heading, followed by no further major heading and no
    line that takes the general-pattern branch, yields exactly one
    question: that of the heading, of type chinese, and its
    [nested_sub_numbers] are the numbers of the nested items after the
    heading, in their order. Minor headings under the heading open
    nothing. *)
Theorem major_heading_collects_page (pm : PatternMatcher) (heap : list Question)
    (pre post : OcrResult) (h : Line) (page_num : Z)
    (all_page_ocr_results : gmap Z OcrResult) (total_pages : Z) :
  Forall (fun e => Invariants.is_opening pm e = false) pre ->
  is_chinese_number_question pm (line_text h) = true ->
  Forall (fun e => Invariants.continues pm e = true) post ->
  let result :=
    QuestionExtractor.extract_question_positions pm true heap (pre ++ Some h :: post)
      page_num all_page_ocr_results total_pages in
  result.2 = [length heap] /\
  exists q,
    result.1 = heap ++ [q] /\
    q_start_y q = line_y_min h /\ q_text q = line_text h /\ q_type q = Chinese /\
    q_nested q = Invariants.nested_numbers pm post.
Proof.
  intros Hpre Hh Hpost. unfold QuestionExtractor.extract_question_positions. cbv zeta.
  rewrite ExtractorFacts.extract_loop_app.
  rewrite (ExtractorFacts.extract_loop_no_opening pm true _ page_num all_page_ocr_results
             total_pages pre 0 (QuestionExtractor.initial_state heap) Hpre eq_refl).
  cbn [QuestionExtractor.extract_loop].
  set (q0 := new_question (line_y_min h) (line_text h) page_num Chinese
               (line_y_max h - line_y_min h)).
  assert (Hstep :
           QuestionExtractor.process_line pm true (pre ++ Some h :: post) page_num
             all_page_ocr_results total_pages (0 + length pre) (Some h)
             (QuestionExtractor.initial_state heap)
           = QuestionExtractor.mkState (heap ++ [q0]) [] ({[line_y_min h]} ∪ ∅)
               (Some (length heap)) true (q_nested q0)).
  { unfold QuestionExtractor.process_line. rewrite Hh.
    unfold QuestionExtractor.open_question.
    cbn [QuestionExtractor.initial_state QuestionExtractor.seen_start_positions
         QuestionExtractor.store QuestionExtractor.save_current
         QuestionExtractor.current_question QuestionExtractor.questions].
    rewrite bool_decide_eq_false_2 by set_solver. reflexivity. }
  rewrite Hstep.
  destruct (ExtractorFacts.extract_loop_under_heading pm (pre ++ Some h :: post) page_num
              all_page_ocr_results total_pages heap post (S (0 + length pre)) q0
              ({[line_y_min h]} ∪ ∅) Hpost)
    as (q' & Hloop & Hy & Ht & Hty & Hn).
  rewrite Hloop. cbn [fst snd QuestionExtractor.store QuestionExtractor.save_current
                      QuestionExtractor.current_question QuestionExtractor.questions app].
  split; [reflexivity|]. exists q'. repeat split; assumption.
Qed.

Lemma major_heading_collects_page_witness :
  let result :=
    QuestionExtractor.extract_question_positions Config.default_matcher true []
      ([] ++ Some MoreSamples.heading :: MoreSamples.under_heading) 1 ∅ 1 in
  result.2 = [0%nat] /\
  exists q,
    result.1 = [q] /\ q_start_y q = 100 /\ q_text q = line_text MoreSamples.heading /\
    q_type q = Chinese /\ q_nested q = [1; 2].
Proof.
  apply (major_heading_collects_page Config.default_matcher [] [] MoreSamples.under_heading
           MoreSamples.heading 1 ∅ 1).
  - constructor.
  - reflexivity.
  - repeat constructor.
Defined.

(** X6: when one of the three entries after an accepted nested item
    [n] is the item [n + 1], the look-ahead changes nothing: the open
    question only gets [n] appended to its [nested_sub_numbers],
    whatever lies between the two items and whatever the next page
    holds; no early end and no cross-page flag is set. *)
Theorem nested_item_followed_by_next (pm : PatternMatcher) (prefer_chinese_primary : bool)
    (ocr_result : OcrResult) (page_num : Z) (all_page_ocr_results : gmap Z OcrResult)
    (total_pages : Z) (idx : nat) (line : Line) (st : QuestionExtractor.State)
    (r : nat) (q : Question) (n : Z) :
  let st' :=
    QuestionExtractor.process_line pm prefer_chinese_primary ocr_result page_num
      all_page_ocr_results total_pages idx (Some line) st in
  is_chinese_number_question pm (line_text line) = false ->
  is_sub_question pm (line_text line) = false ->
  is_nested_sub_question pm (line_text line) = true ->
  extract_nested_sub_number pm (line_text line) = Some n ->
  QuestionExtractor.current_question st = Some r ->
  QuestionExtractor.store st !! r = Some q ->
  existsb (QuestionExtractor.is_item pm (n + 1)) (take 3 (drop (S idx) ocr_result)) = true ->
  QuestionExtractor.store st' !! r
  = Some (set_nested (QuestionExtractor.nested_sub_numbers st ++ [n]) q) /\
  QuestionExtractor.nested_sub_numbers st' = QuestionExtractor.nested_sub_numbers st ++ [n] /\
  QuestionExtractor.questions st' = QuestionExtractor.questions st /\
  QuestionExtractor.current_question st' = Some r.
Proof.
  intros st' Hc Hs Hn He Hcur Hq Hw. subst st'.
  unfold QuestionExtractor.process_line. rewrite Hc, Hs, Hn, Hcur, He.
  cbn [QuestionExtractor.store QuestionExtractor.nested_sub_numbers
       QuestionExtractor.questions QuestionExtractor.current_question].
  rewrite lookup_update, Hq. cbn [fmap option_fmap option_map].
  repeat split; try assumption. f_equal.
  unfold QuestionExtractor._check_next_nested_sub_question.
  rewrite LookAheadFacts.current_window. cbv zeta.
  pose proof (ExtractorFacts.scan_current_page_found pm (n + 1) _ None None 0 Hw) as Hf.
  destruct (QuestionExtractor.scan_current_page pm (n + 1) _ None None 0)
    as [[[found ey] et] checked].
  simpl in Hf. subst found. cbn [negb andb].
  unfold QuestionExtractor.apply_look_ahead.
  cbn [QuestionExtractor.la_cross_page QuestionExtractor.found_next_nested negb].
  reflexivity.
Qed.

Lemma nested_item_followed_by_next_witness :
  let st' :=
    QuestionExtractor.process_line Config.default_matcher true MoreSamples.two_items_page 1
      ∅ 1 1 (Some (Samples.ln 0 200 50 20 "(1) a")) Samples.question_open in
  QuestionExtractor.store st' !! 0%nat = Some (set_nested [1] (new_question 100 "1.stem" 1 Sub 20)) /\
  QuestionExtractor.nested_sub_numbers st' = [1] /\
  QuestionExtractor.questions st' = [] /\
  QuestionExtractor.current_question st' = Some 0%nat.
Proof.
  apply (nested_item_followed_by_next Config.default_matcher true MoreSamples.two_items_page
           1 ∅ 1 1 (Samples.ln 0 200 50 20 "(1) a") Samples.question_open 0
           (new_question 100 "1.stem" 1 Sub 20) 1); reflexivity.
Defined.

(** X7: the look-ahead reports the cross-page outcome exactly when
    none of the three entries after the item on the current page is
    the item [n + 1] and the next page exists, was recognized, and
    holds the item [n + 1] among its first entries, as many as the
    current page left unused of the three lines. In particular it never
    does on the last page. *)
Theorem look_ahead_cross_page_iff (pm : PatternMatcher) (current_idx : nat)
    (ocr_result : OcrResult) (nested_number page_num : Z)
    (all_page_ocr_results : gmap Z OcrResult) (total_pages : Z) :
  let window := take 3 (drop (S current_idx) ocr_result) in
  let info :=
    QuestionExtractor._check_next_nested_sub_question pm current_idx ocr_result
      nested_number page_num all_page_ocr_results total_pages in
  QuestionExtractor.la_cross_page info = true <->
  Forall (fun e => QuestionExtractor.is_item pm (nested_number + 1) e = false) window /\
  QuestionExtractor.found_on_next_page pm (nested_number + 1) page_num all_page_ocr_results
    total_pages (3 - QuestionExtractor.count_lines window) = true.
Proof.
  intros window info. split.
  - subst info. unfold QuestionExtractor._check_next_nested_sub_question.
    rewrite LookAheadFacts.current_window. fold window. cbv zeta.
    pose proof (ExtractorFacts.scan_current_page_not_found pm (nested_number + 1) window
                  None None 0) as Hscan.
    destruct (QuestionExtractor.scan_current_page pm (nested_number + 1) window None None 0)
      as [[[found ey] et] checked].
    cbn [fst snd] in Hscan.
    destruct found; cbn [negb andb]; [discriminate|].
    destruct (Hscan eq_refl) as [Hf Hc]. cbn [Nat.add] in Hc. subst checked.
    unfold QuestionExtractor.found_on_next_page.
    destruct (QuestionExtractor.count_lines window <? 3)%nat; [|discriminate].
    destruct (page_num + 1 <=? total_pages); [|discriminate].
    destruct (all_page_ocr_results !! (page_num + 1)) as [np|]; [|discriminate].
    rewrite LookAheadFacts.scan_next_page_exists.
    destruct (existsb _ _); [auto|discriminate].
  - intros [Hf Hn]. subst info.
    rewrite (check_next_no_item pm current_idx ocr_result nested_number page_num
               all_page_ocr_results total_pages Hf).
    fold window. now rewrite Hn.
Qed.

(** ** The binary64 products are exact floors *)

Module FloatFacts.
Import Float.

(** The rounding either keeps [N] or moves it to a nearest multiple of
    [2^s], where [N] has [s + 53] bits. *)
Lemma round53_cases (N : Z) :
  0 <= N ->
  N < 2 ^ 53 /\ round53 N = N \/
  exists s q,
    1 <= s /\ 2 ^ (s + 52) <= N < 2 ^ (s + 53) /\
    round53 N = q * 2 ^ s /\ 2 * Z.abs (q * 2 ^ s - N) <= 2 ^ s.
Proof.
  intros HN. unfold round53. cbv zeta.
  destruct (Z.log2 N + 1 <=? 53) eqn:Ek.
  { left. split; [|reflexivity]. apply Z.leb_le in Ek.
    destruct (Z.eq_dec N 0) as [->|]; [reflexivity|].
    apply Z.log2_lt_pow2; lia. }
  right. apply Z.leb_gt in Ek.
  assert (Hpos : 0 < N) by (destruct (Z.eq_dec N 0) as [->|]; [discriminate Ek || (simpl in Ek; lia)|lia]).
  set (s := Z.log2 N + 1 - 53) in *.
  assert (Hs : 1 <= s) by (unfold s; lia).
  pose proof (Z.log2_spec N Hpos) as [Hlo Hhi].
  replace (Z.log2 N) with (s + 52) in Hlo by (unfold s; lia).
  replace (Z.succ (Z.log2 N)) with (s + 53) in Hhi by (unfold s; lia).
  assert (H2s : 0 < 2 ^ s) by (apply Z.pow_pos_nonneg; lia).
  pose proof (Z.div_mod N (2 ^ s) ltac:(lia)) as Hdm.
  pose proof (Z.mod_pos_bound N (2 ^ s) H2s) as Hr.
  set (q := N / 2 ^ s) in *. set (r := N mod 2 ^ s) in *.
  exists s.
  destruct ((2 * r >? 2 ^ s) || ((2 * r =? 2 ^ s) && Z.odd q)) eqn:E.
  - exists (q + 1). repeat split; lia.
  - exists q. repeat split; lia.
Qed.

(** The binary64 nearest to 0.97 lies 24 / (100 * 2^53) below it, that
    nearest to 0.3 lies 2 / (10 * 2^54) below. *)
Lemma m097_exact : 100 * m097 = 97 * 2 ^ 53 - 24.
Proof. reflexivity. Qed.
Lemma m03_exact : 10 * m03 = 3 * 2 ^ 54 - 2.
Proof. reflexivity. Qed.

Lemma pow_split (s : Z) (c : Z) : 0 <= s <= c -> 2 ^ c = 2 ^ (c - s) * 2 ^ s.
Proof. intros H. rewrite <- Z.pow_add_r by lia. f_equal. lia. Qed.

(** The truncated product with a constant [m / 2^e] just below the
    rational [c / d]: the result is the floor of [c * x / d]. *)
Lemma int_mul_exact (m e c d g x : Z) :
  53 <= e <= 54 -> 0 < c < d -> d <= 100 -> 0 < g <= 24 ->
  d * m = c * 2 ^ e - g -> 2 * g * 2 ^ 53 <= d * m -> 2 ^ 53 < 2 * m ->
  0 <= x < 2 ^ 45 ->
  round53 (x * m) / 2 ^ e = c * x / d.
Proof.
  intros He Hc Hd Hg Hm Hgm H2m Hx.
  assert (HP : 0 < 2 ^ e) by (apply Z.pow_pos_nonneg; lia).
  assert (HPe : 2 ^ 53 <= 2 ^ e <= 2 * 2 ^ 53).
  { destruct (Z.eq_dec e 53) as [->|]; [lia|]. replace e with 54 by lia.
    change (2 ^ 54) with (2 * 2 ^ 53). lia. }
  assert (Hes : forall s, 0 <= s <= 53 -> exists A, 0 < A /\ 2 ^ e = A * 2 ^ s).
  { intros s Hs. exists (2 ^ (e - s)). split; [apply Z.pow_pos_nonneg; lia|].
    apply pow_split. lia. }
  change (2 ^ 45) with 35184372088832 in Hx.
  change (2 ^ 53) with 9007199254740992 in *.
  set (P := 2 ^ e) in *.
  set (N := x * m) in *.
  pose proof (Z.div_mod (c * x) d ltac:(lia)) as Hdm.
  pose proof (Z.mod_pos_bound (c * x) d ltac:(lia)) as Hb.
  set (a := c * x / d) in *. set (b := (c * x) mod d) in *.
  assert (Hmpos : 0 < m) by lia.
  assert (HmP : d * m < c * P) by lia.
  assert (HN : 0 <= N) by (unfold N; nia).
  assert (HdN : d * N = (d * a + b) * P - g * x) by (unfold N; nia).
  assert (HNP : N <= x * P) by (unfold N; nia).
  assert (Ha : 0 <= a) by (unfold a; apply Z.div_pos; nia).
  assert (Hax : a <= x) by nia.
  symmetry. apply Z.div_unique_pos with (r := round53 N - a * P); [|lia].
  destruct (round53_cases N HN) as [[Hsmall ->]|(s & q & Hs & HsN & -> & Hnear)].
  - change (2 ^ 53) with 9007199254740992 in Hsmall.
    destruct (Z.eq_dec b 0) as [Hb0|Hb0].
    + destruct (Z.eq_dec x 0) as [->|Hx0]; [unfold N in *; nia|].
      exfalso. assert (1 <= a) by nia. assert (2 <= x) by nia. unfold N in Hsmall. nia.
    + nia.
  - rewrite !Z.pow_add_r in HsN by lia.
    change (2 ^ 52) with 4503599627370496 in HsN.
    change (2 ^ 53) with 9007199254740992 in HsN.
    assert (HT : 0 < 2 ^ s) by (apply Z.pow_pos_nonneg; lia).
    assert (Hs47 : s < 47).
    { apply (Z.pow_lt_mono_r_iff 2); [lia|lia|].
      change (2 ^ 47) with 140737488355328. nia. }
    destruct (Hes s ltac:(lia)) as (A & HA & HPA).
    set (T := 2 ^ s) in *. clearbody T. clear Hes.
    remember (q * T - N) as D eqn:HDdef.
    assert (HqTD : q * T = N + D) by lia.
    assert (HD : Z.abs D <= 2 * x) by (clear - Hnear HsN HNP HPe Hx; nia).
    rewrite HqTD.
    destruct (Z.eq_dec b 0) as [Hb0|Hb0].
    + rewrite Hb0, Z.add_0_r in HdN.
      split; [|clear - HdN HD Hx Hg Hd Hc HPe; nia].
      destruct (Z.eq_dec x 0) as [->|Hx0]; [unfold N in *; lia|].
      destruct (Z_lt_le_dec (N + D) (a * P)) as [Hlt|]; [exfalso|lia].
      assert (HqT : q * T < (a * A) * T) by (rewrite <- Z.mul_assoc, <- HPA; lia).
      assert (Hq : q <= a * A - 1) by (clear - HqT HT; nia).
      assert (HqT' : q * T <= a * P - T).
      { rewrite HPA, Z.mul_assoc. clear - Hq HT. nia. }
      assert (HdD : d * D <= g * x - d * T) by (clear - HqT' HqTD HdN Hc; nia).
      assert (HdT : d * T <= 2 * g * x) by (clear - HdD Hnear Hc HT; nia).
      assert (HNT : d * N < d * T * 9007199254740992) by (clear - HsN Hc; nia).
      assert (Hxm : x * (d * m) < x * (2 * g * 9007199254740992))
        by (unfold N in HNT; clear - HNT HdT; nia).
      clear - Hxm Hgm Hx Hx0 Hg. nia.
    + clear - HdN HD Hx Hg Hd Hc HPe Hb Hb0. nia.
Qed.

(** [int(h * 0.97)] is the floor of [97 h / 100], and [int(t * 0.3)]
    that of [3 t / 10]: the rounding of the product never crosses an
    integer. *)
Lemma int_mul_097_exact (h : Z) : 0 <= h < 2 ^ 45 -> int_mul_097 h = 97 * h / 100.
Proof.
  intros H. unfold int_mul_097.
  apply (int_mul_exact m097 53 97 100 24 h); try lia; now vm_compute.
Qed.

Lemma int_mul_03_exact (t : Z) : 0 <= t < 2 ^ 45 -> int_mul_03 t = 3 * t / 10.
Proof.
  intros H. unfold int_mul_03.
  apply (int_mul_exact m03 54 3 10 2 t); try lia; now vm_compute.
Qed.

End FloatFacts.

(** ** The loop over the pages *)

Module PipelineFacts.

Import QuestionExtractor LayoutAnalyzer Invariants.

Lemma visited_ok_mono (images : list Page) (k k' : Z) (q : Question) :
  k <= k' -> visited_ok images k q -> visited_ok images k' q.
Proof.
  unfold visited_ok. intros Hk (Hp & H1 & H2 & H3 & H4 & H5).
  do 5 (split; [first [assumption|lia]|]).
  destruct (q_cross_page_merged q); [|assumption].
  destruct H5 as (Hc & Ht & Hi & p & y & Hep & Hlt & Hey).
  do 3 (split; [assumption|]). exists p, y. repeat split; first [assumption|lia].
Qed.

Lemma extracted_visited (images : list Page) (tops : Z -> Prop) (p : Z) (q : Question) :
  1 <= p -> extracted_on tops p q -> visited_ok images p q.
Proof.
  unfold extracted_on, visited_ok. intros Hp H.
  destruct H as (H1 & H2 & H3 & -> & H5 & H6 & H7 & H8 & H9 & H10 & H11 & _).
  repeat split; first [assumption|lia].
Qed.

Lemma zmax_unique (l : list Z) (v : Z) :
  In v l -> (forall x, In x l -> x <= v) -> zmax l = v.
Proof.
  intros Hv Hle. assert (Hne : l <> []) by (intros ->; destruct Hv).
  pose proof (zmax_In l Hne) as H1. pose proof (zmax_ge l v Hv) as H2.
  specialize (Hle _ H1). lia.
Qed.

Lemma in_consecutive (e x : Z) (k : nat) :
  In x (consecutive e k) <-> e <= x < e + Z.of_nat k.
Proof.
  unfold consecutive. rewrite in_map_iff. split.
  - intros (i & <- & Hi). apply in_seq in Hi. lia.
  - intros H. exists (Z.to_nat (x - e)). split; [lia|]. apply in_seq. lia.
Qed.

(** The last number of a run appended to numbers that lie below it. *)
Lemma zmax_run (nums : list Z) (e : Z) (k : nat) :
  Forall (fun x => x < e) nums ->
  zmax (nums ++ consecutive e (S k)) = e + Z.of_nat k.
Proof.
  intros Hn. apply zmax_unique.
  - apply in_or_app. right. apply in_consecutive. lia.
  - intros x Hx. apply in_app_or in Hx as [Hx|Hx].
    + rewrite Forall_forall in Hn. apply list_elem_of_In in Hx. specialize (Hn _ Hx).
      simpl in Hn. lia.
    + apply in_consecutive in Hx. lia.
Qed.

Lemma find_end_y_cons (pm : PatternMatcher) (n : Z) (e : option Line) (lines : OcrResult) :
  is_Some (find_end_y pm n lines) -> is_Some (find_end_y pm n (e :: lines)).
Proof.
  intros H. destruct e as [l|]; simpl; [|assumption].
  destruct (_ && _); [eauto|assumption].
Qed.

(** When the merge loop has merged an item, the line of the last one
    it merged is on the page. *)
Lemma merge_nested_last (pm : PatternMatcher) (lines : OcrResult) (nums : list Z)
    (expected : Z) (count : nat) :
  (count < (merge_nested pm lines nums expected count).2)%nat ->
  is_Some (find_end_y pm ((merge_nested pm lines nums expected count).1.2 - 1) lines).
Proof.
  revert nums expected count.
  induction lines as [|[l|] lines IH]; intros nums expected count; simpl.
  - lia.
  - destruct (is_nested_sub_question pm (line_text l)) eqn:En; cbn [andb];
      [|apply IH].
    destruct (extract_nested_sub_number pm (line_text l)) as [n|] eqn:Ex; cbn [is_number];
      [|apply IH].
    destruct (n =? expected) eqn:E.
    + apply Z.eqb_eq in E. subst n.
      destruct (NestedFacts.merge_nested_run pm lines (nums ++ [expected]) (expected + 1)
                  (S count)) as (k & Hk).
      pose proof (IH (nums ++ [expected]) (expected + 1) (S count)) as IH'.
      rewrite Hk in *. cbn [fst snd] in *. intros _.
      destruct k as [|k].
      * replace (expected + 1 + Z.of_nat 0 - 1) with expected by lia.
        rewrite Z.eqb_refl. eauto.
      * match goal with |- is_Some (if ?c then _ else _) => destruct c end; [eauto|].
        apply IH'. lia.
    + intros H. specialize (IH nums expected count H).
      match goal with |- is_Some (if ?c then _ else _) => destruct c end;
        [eauto|exact IH].
  - apply IH.
Qed.

Lemma merge_nested_end (pm : PatternMatcher) (lines : OcrResult) (nums : list Z) :
  let result := merge_nested pm lines nums (next_number nums) 0 in
  (0 < result.2)%nat ->
  result.1.1 <> [] /\ is_Some (find_end_y pm (zmax result.1.1) lines).
Proof.
  intros result Hc. subst result.
  pose proof (merge_nested_last pm lines nums (next_number nums) 0 Hc) as Hlast.
  destruct (NestedFacts.merge_nested_run pm lines nums (next_number nums) 0) as (k & Hk).
  rewrite Hk in *. cbn [fst snd] in *.
  destruct k as [|k]; [simpl in Hc; lia|].
  split.
  - intros H. apply app_eq_nil in H as [_ H]. rewrite NestedFacts.consecutive_S in H.
    discriminate.
  - rewrite (zmax_run nums (next_number nums) k (NestedFacts.next_number_above nums)).
    replace (next_number nums + Z.of_nat k) with (next_number nums + Z.of_nat (S k) - 1)
      by lia.
    exact Hlast.
Qed.

Lemma complete_merge_visited (pm : PatternMatcher) (images : list Page) (ocr : OcrResult)
    (k : Z) (q : Question) :
  visited_ok images k q -> q_cross_page_merged q = false ->
  q_nested q <> [] -> is_Some (find_end_y pm (zmax (q_nested q)) ocr) ->
  let q' := complete_merge pm images ocr (q_page q) (k + 1) q in
  visited_ok images (k + 1) q' /\ q_page q' = q_page q /\
  q_image_height q' = Some (height_of images (q_page q)) /\ q_cross_page q' = false.
Proof.
  unfold visited_ok, complete_merge. intros (Hp & H1 & H2 & H3 & H4 & H5) Hm Hne [y Hy].
  destruct q. destruct q_nested0 as [|n ns]; [cbn in Hne; congruence|].
  cbn in *. subst. rewrite Hy. cbn.
  repeat split; try assumption; try lia. exists (k + 1), y. repeat split; lia.
Qed.

Lemma filed_ok_update (images : list Page) (st : list Question) (r : nat)
    (f : Question -> Question) (entry : Z * nat) :
  (forall q, st !! r = Some q ->
     q_page (f q) = q_page q /\
     (q_cross_page q = false -> q_cross_page (f q) = false) /\
     (q_image_height q = Some (height_of images (q_page q)) ->
      q_image_height (f q) = Some (height_of images (q_page q)))) ->
  filed_ok images st entry -> filed_ok images (update r f st) entry.
Proof.
  intros Hf (q & Hq & Hp & Hi & Hc). unfold filed_ok.
  destruct (decide (r = entry.2)) as [->|Hne].
  - rewrite lookup_update, Hq. cbn. exists (f q).
    destruct (Hf q Hq) as (Hp' & Hc' & Hi'). rewrite Hp in Hp', Hi'.
    split; [reflexivity|]. split; [assumption|]. split; [now apply Hi'|now apply Hc'].
  - rewrite lookup_update_ne by assumption. now exists q.
Qed.

Lemma pending_ok_update (st : list Question) (r : nat) (f : Question -> Question)
    (pending : option (nat * Z)) :
  (forall q, q_page (f q) = q_page q /\ q_cross_page (f q) = q_cross_page q /\
             q_cross_page_merged (f q) = q_cross_page_merged q) ->
  pending_ok st pending -> pending_ok (update r f st) pending.
Proof.
  intros Hf. destruct pending as [[cq from]|]; [|auto].
  intros (q & Hq & Hp & Hc & Hm). simpl.
  destruct (decide (r = cq)) as [->|Hne].
  - rewrite lookup_update, Hq. cbn. exists (f q). destruct (Hf q) as (-> & -> & ->). auto.
  - rewrite lookup_update_ne by assumption. now exists q.
Qed.

Lemma visited_ok_update (images : list Page) (k : Z) (st : list Question) (r : nat)
    (f : Question -> Question) :
  (forall q, st !! r = Some q -> visited_ok images k q -> visited_ok images k (f q)) ->
  Forall (visited_ok images k) st -> Forall (visited_ok images k) (update r f st).
Proof.
  intros Hf Hst. unfold update. apply Forall_forall. intros q' Hq'.
  apply list_elem_of_lookup in Hq' as [i Hi].
  destruct (decide (r = i)) as [->|Hne].
  - rewrite list_lookup_alter_eq in Hi. destruct (st !! i) as [q|] eqn:E; [|discriminate].
    injection Hi as <-. apply Hf; [reflexivity|].
    rewrite Forall_forall in Hst. apply Hst. eapply list_elem_of_lookup_2, E.
  - rewrite list_lookup_alter_ne in Hi by assumption.
    rewrite Forall_forall in Hst. apply Hst. eapply list_elem_of_lookup_2, Hi.
Qed.

(** The head of the loop body keeps the invariant, for the next page. *)
Lemma resolve_pending_inv (pm : PatternMatcher) (images : list Page)
    (all : gmap Z OcrResult) (total k : Z) (ocr : OcrResult) (t : Traversal) :
  traversal_inv images k t ->
  traversal_inv images (k + 1) (resolve_pending pm images all total (k + 1) ocr t).
Proof.
  intros (Hv & Hf & Hp).
  assert (Hv' : Forall (visited_ok images (k + 1)) (heap t)).
  { eapply Forall_impl; [exact Hv|]. intros q. apply visited_ok_mono. lia. }
  assert (Hsame : traversal_inv images (k + 1) t) by (split; [|split]; assumption).
  unfold resolve_pending.
  destruct (pending_cross_page_question t) as [[cq from]|] eqn:Ep; [|exact Hsame].
  destruct (heap t !! cq) as [q|] eqn:Eq; [|exact Hsame].
  destruct (k + 1 >=? _); [|exact Hsame].
  pose proof (merge_nested_end pm ocr (q_nested q)) as Hend. cbv zeta in Hend.
  destruct (merge_nested pm ocr (q_nested q) (next_number (q_nested q)) 0)
    as [[merged e] count].
  cbn [fst snd] in Hend.
  destruct (0 <? count)%nat eqn:Ec; [|exact Hsame].
  apply Nat.ltb_lt in Ec. destruct (Hend Ec) as [Hne Hfind].
  destruct Hp as (q0 & Hq0 & Hpage & Hcross & Hmerged).
  rewrite Eq in Hq0. injection Hq0 as <-.
  destruct (probe_pages _ _ _ _) as [c|]; unfold traversal_inv; cbn [heap all_questions pending_cross_page_question].
  - split; [|split].
    + apply visited_ok_update; [|assumption]. intros q0 Hq0.
      rewrite Eq in Hq0. injection Hq0 as <-. unfold visited_ok.
      destruct q. cbn in *. subst. auto.
    + eapply Forall_impl; [exact Hf|]. intros entry. apply filed_ok_update.
      intros q0 _. destruct q0. cbn. auto.
    + apply pending_ok_update; [intros q0; now destruct q0|].
      simpl. exists q. auto.
  - assert (Hq1 : visited_ok images k (set_nested merged q)).
    { rewrite Forall_forall in Hv.
      pose proof (Hv q (list_elem_of_lookup_2 _ _ _ Eq)) as Hvq.
      revert Hvq. unfold visited_ok. destruct q. cbn. auto. }
    destruct (complete_merge_visited pm images ocr k (set_nested merged q) Hq1)
      as (Hc1 & Hc2 & Hc3 & Hc4).
    { now destruct q. }
    { now destruct q. }
    { now destruct q. }
    assert (Hpq : q_page (set_nested merged q) = from) by (now destruct q).
    rewrite Hpq in *.
    split; [|split; [|exact I]].
    + apply visited_ok_update; [|assumption]. intros q0 Hq0 _.
      rewrite Eq in Hq0. injection Hq0 as <-. exact Hc1.
    + apply Forall_app. split.
      * eapply Forall_impl; [exact Hf|]. intros entry. apply filed_ok_update.
        intros q0 Hq0. rewrite Eq in Hq0. injection Hq0 as <-.
        rewrite Hc2, Hc3, Hc4. subst from. now destruct q.
      * apply Forall_singleton. unfold filed_ok. cbn [fst snd].
        rewrite lookup_update, Eq. cbn. eexists. split; [reflexivity|]. auto.
Qed.

(** The questions that the extractor returns for page [p], as the
    filing loop needs them. *)
Local Abbreviation of_page := (fun (st : list Question) (p : Z) (r : nat) =>
  exists q, st !! r = Some q /\ q_page q = p /\ q_cross_page_merged q = false).

Lemma extraction_inv (pm : PatternMatcher) (prefer : bool) (images : list Page)
    (all : gmap Z OcrResult) (total p : Z) (ocr : OcrResult) (t : Traversal) :
  1 <= p -> traversal_inv images p t ->
  let result := extract_question_positions pm prefer (heap t) ocr p all total in
  traversal_inv images p
    (mkTraversal result.1 (all_questions t) (pending_cross_page_question t)) /\
  Forall (of_page result.1 p) result.2.
Proof.
  intros Hp (Hv & Hf & Hpend) result.
  destruct (ExtractorFacts.extract_question_positions_inv pm prefer (heap t) ocr p all total)
    as (news & Hs & Hn & _ & Hqs & _).
  fold result in Hs, Hqs. rewrite Hs. unfold traversal_inv. cbn [heap all_questions pending_cross_page_question].
  split; [split; [|split]|].
  - apply Forall_app. split; [assumption|].
    eapply Forall_impl; [exact Hn|]. intros q. now apply extracted_visited.
  - eapply Forall_impl; [exact Hf|]. intros entry (q & Hq & H). exists q.
    split; [|exact H]. now apply lookup_app_l_Some.
  - destruct (pending_cross_page_question t) as [[cq from]|]; [|exact I].
    destruct Hpend as (q & Hq & H). exists q. split; [|exact H]. now apply lookup_app_l_Some.
  - eapply Forall_impl; [exact Hqs|]. intros r [Hlo Hhi]. rewrite Hs in Hhi.
    rewrite lookup_app_r by lia.
    destruct (news !! (r - length (heap t))%nat) as [q|] eqn:E.
    + exists q. split; [reflexivity|]. rewrite Forall_forall in Hn.
      pose proof (Hn q (list_elem_of_lookup_2 _ _ _ E)) as Hq. unfold extracted_on in Hq.
      tauto.
    + apply lookup_ge_None in E. rewrite length_app in Hhi. lia.
Qed.

Lemma file_questions_inv (images : list Page) (p : Z) (qs : list nat) (t : Traversal) :
  traversal_inv images p t -> Forall (of_page (heap t) p) qs ->
  traversal_inv images p (file_questions images p qs t).
Proof.
  revert t. induction qs as [|r qs IH]; intros t Ht Hqs; simpl; [assumption|].
  apply Forall_cons in Hqs as [(q & Hq & Hpage & Hmerged) Hqs].
  destruct Ht as (Hv & Hf & Hpend).
  rewrite Hq. destruct (q_cross_page q) eqn:Ec.
  - apply IH; [|exact Hqs]. split; [|split]; try assumption.
    cbn [heap pending_cross_page_question]. exists q. auto.
  - apply IH; cbn [heap].
    + split; [|split]; cbn [heap all_questions pending_cross_page_question].
      * apply visited_ok_update; [|assumption]. intros q0 Hq0.
        rewrite Hq in Hq0. injection Hq0 as <-. unfold visited_ok.
        destruct q. cbn in *. subst. auto.
      * apply Forall_app. split.
        -- eapply Forall_impl; [exact Hf|]. intros entry. apply filed_ok_update.
           intros q0 Hq0. rewrite Hq in Hq0. injection Hq0 as <-.
           destruct q. cbn in *. subst. auto.
        -- apply Forall_singleton. unfold filed_ok. cbn [fst snd].
           rewrite lookup_update, Hq. cbn. eexists. split; [reflexivity|].
           destruct q. cbn in *. auto.
      * apply pending_ok_update; [|assumption]. intros q0. now destruct q0.
    + eapply Forall_impl; [exact Hqs|]. intros r' (q' & Hq' & H').
      destruct (decide (r = r')) as [->|Hne].
      * rewrite lookup_update, Hq'. cbn. eexists. split; [reflexivity|]. now destruct q'.
      * rewrite lookup_update_ne by assumption. now exists q'.
Qed.

Lemma visit_page_inv (pm : PatternMatcher) (prefer : bool) (images : list Page)
    (all : gmap Z OcrResult) (total k : Z) (t : Traversal) :
  0 <= k -> traversal_inv images k t ->
  traversal_inv images (k + 1) (visit_page pm prefer images all total (k + 1) t).
Proof.
  intros Hk Ht. unfold visit_page. cbv zeta.
  pose proof (resolve_pending_inv pm images all total k (default [] (all !! (k + 1))) t Ht)
    as H1.
  set (t1 := resolve_pending pm images all total (k + 1) (default [] (all !! (k + 1))) t)
    in *.
  pose proof (extraction_inv pm prefer images all total (k + 1)
                (default [] (all !! (k + 1))) t1 ltac:(lia) H1) as H2.
  cbv zeta in H2.
  destruct (extract_question_positions pm prefer (heap t1) _ (k + 1) all total)
    as [heap1 qs].
  cbn [fst snd] in H2. destruct H2 as [H2 H3].
  now apply file_questions_inv.
Qed.

Lemma fold_visit_inv (pm : PatternMatcher) (prefer : bool) (images : list Page)
    (all : gmap Z OcrResult) (total : Z) (n : nat) :
  traversal_inv images (Z.of_nat n)
    (fold_left (fun t page_idx => visit_page pm prefer images all total page_idx t)
       (map (fun i => Z.of_nat (S i)) (seq 0 n)) (mkTraversal [] [] None)).
Proof.
  induction n as [|n IH].
  - simpl. split; [|split]; cbn; auto.
  - rewrite seq_S, map_app, fold_left_app. cbn [map fold_left Nat.add].
    replace (Z.of_nat (S n)) with (Z.of_nat n + 1) by lia.
    apply visit_page_inv; [lia|exact IH].
Qed.

(** What the second step establishes. *)
Lemma collect_questions_inv (pm : PatternMatcher) (prefer : bool) (images : list Page) :
  let t := collect_questions pm prefer images in
  Forall (visited_ok images (Z.of_nat (length images))) (heap t) /\
  (forall i entry,
     all_questions t !! i = Some entry ->
     exists q,
       heap t !! entry.2 = Some q /\ q_page q = entry.1 /\
       q_image_height q = Some (height_of images entry.1) /\
       (q_cross_page q = true ->
        S i = length (all_questions t) /\ q_cross_page_merged q = false)).
Proof.
  unfold collect_questions. cbv zeta.
  pose proof (fold_visit_inv pm prefer images (collect_ocr images)
                (Z.of_nat (length images)) (length images)) as (Hv & Hf & Hpend).
  set (t := fold_left _ _ _) in *. unfold flush_pending.
  destruct (pending_cross_page_question t) as [[cq from]|] eqn:Ep.
  - cbn [heap all_questions]. destruct Hpend as (q & Hq & Hpage & Hcross & Hmerged).
    split.
    + apply visited_ok_update; [|assumption]. intros q0 Hq0.
      rewrite Hq in Hq0. injection Hq0 as <-. unfold visited_ok.
      destruct q. cbn in *. subst. auto.
    + intros i entry Hi. apply lookup_app_Some in Hi as [Hi|[Hlen Hi]].
      * rewrite Forall_forall in Hf.
        destruct (Hf entry (list_elem_of_lookup_2 _ _ _ Hi)) as (q' & Hq' & Hp' & Hi' & Hc').
        assert (Hne : cq <> entry.2) by (intros E; rewrite <- E in Hq'; congruence).
        rewrite lookup_update_ne by assumption. exists q'.
        repeat (split; [assumption|]). congruence.
      * apply list_lookup_singleton_Some in Hi as [Hi <-]. cbn [fst snd].
        rewrite lookup_update, Hq. cbn. eexists. split; [reflexivity|].
        rewrite length_app. cbn [length].
        destruct q. cbn in *. subst. repeat split; auto; lia.
  - split; [assumption|]. intros i entry Hi. rewrite Forall_forall in Hf.
    destruct (Hf entry (list_elem_of_lookup_2 _ _ _ Hi)) as (q' & Hq' & Hp' & Hi' & Hc').
    exists q'. repeat (split; [assumption|]). congruence.
Qed.

Lemma fmap_update_kept (r : nat) (f : Question -> Question) (st : list Question) :
  (forall q, kept (f q) = kept q) -> kept <$> update r f st = kept <$> st.
Proof.
  intros Hf. apply list_eq. intros i. rewrite !list_lookup_fmap.
  destruct (decide (r = i)) as [->|Hne].
  - rewrite lookup_update. destruct (st !! i); simpl; [now rewrite Hf|reflexivity].
  - now rewrite lookup_update_ne.
Qed.

Lemma refine_height_kept (ocr : OcrResult) (q : Question) :
  kept (refine_height ocr q) = kept q.
Proof.
  unfold refine_height. destruct (collect_heights _ _ _); [reflexivity|now destruct q].
Qed.

Lemma resolve_question_kept (images : list Page) (page_num : Z) (next : option NextInfo)
    (q : Question) :
  kept (resolve_question images page_num next q) = kept q.
Proof.
  destruct q, next as [[[? ?] ?]|];
    unfold kept, resolve_question, resolve_regular, resolve_special;
    FinalizerFacts.split_tests.
Qed.

Lemma refine_heights_kept (all : gmap Z OcrResult) (aq : list (Z * nat))
    (st : list Question) :
  kept <$> refine_heights all aq st = kept <$> st.
Proof.
  unfold refine_heights. revert st.
  induction aq as [|[p r] aq IH]; intros st; simpl; [reflexivity|].
  rewrite IH. apply fmap_update_kept. intros q. apply refine_height_kept.
Qed.

Lemma resolve_ends_kept (images : list Page) (aq : list (Z * nat)) (st : list Question) :
  kept <$> resolve_ends images aq st = kept <$> st.
Proof.
  revert st. induction aq as [|[p r] aq IH]; intros st; simpl; [reflexivity|].
  rewrite IH. apply fmap_update_kept. intros q. apply resolve_question_kept.
Qed.

Lemma kept_lookup (st st' : list Question) (r : nat) (q' : Question) :
  kept <$> st' = kept <$> st -> st' !! r = Some q' ->
  exists q, st !! r = Some q /\ kept q' = kept q.
Proof.
  intros H Hq'. apply (f_equal (fun l => l !! r)) in H.
  rewrite !list_lookup_fmap, Hq' in H. destruct (st !! r) as [q|]; [|discriminate].
  exists q. split; [reflexivity|]. cbn [fmap option_fmap option_map] in H. congruence.
Qed.

(** The end that the fourth step gives to a question with one of the
    two cross-page flags. *)
Lemma resolve_question_flagged (images : list Page) (p : Z) (next : option NextInfo)
    (q0 : Question) :
  let q := resolve_question images p next q0 in
  (q_cross_page_merged q = true ->
   forall y, q_cross_page_end_y q = Some y ->
   q_end_y q = Some y /\ q_end_page q = Some (default p (q_cross_page_end_page q))) /\
  (q_cross_page_merged q = false -> q_cross_page q = true ->
   q_end_y q = Some (Float.int_mul_097 (height_of images p)) /\ q_end_page q = Some p).
Proof.
  destruct q0, next as [[[? ?] ?]|];
    unfold resolve_question, resolve_regular, resolve_special;
    FinalizerFacts.split_tests.
  all: split; intros; FinalizerFacts.split_tests; auto.
Qed.

Lemma resolve_ends_flagged (images : list Page) (aq : list (Z * nat))
    (st : list Question) (p : Z) (r : nat) (q : Question) :
  In r (map snd aq) -> (forall e, In e aq -> e.2 = r -> e.1 = p) ->
  resolve_ends images aq st !! r = Some q ->
  (q_cross_page_merged q = true ->
   forall y, q_cross_page_end_y q = Some y ->
   q_end_y q = Some y /\ q_end_page q = Some (default p (q_cross_page_end_page q))) /\
  (q_cross_page_merged q = false -> q_cross_page q = true ->
   q_end_y q = Some (Float.int_mul_097 (height_of images p)) /\ q_end_page q = Some p).
Proof.
  revert st. induction aq as [|[p0 r0] rest IH]; intros st Hr Hp Hq; [destruct Hr|].
  simpl in Hq.
  destruct (in_dec Nat.eq_dec r (map snd rest)) as [Hin|Hnin].
  - eapply IH; [exact Hin| |exact Hq]. intros e He. apply Hp. now right.
  - destruct Hr as [Hr|Hr]; [|contradiction]. simpl in Hr. subst r0.
    assert (p0 = p) by (apply (Hp (p0, r)); [now left|reflexivity]). subst p0.
    rewrite FinalizerFacts.resolve_ends_untouched, lookup_update in Hq by assumption.
    destruct (st !! r) as [q0|]; [|discriminate]. injection Hq as <-.
    apply resolve_question_flagged.
Qed.

(** The questions of the output of [analyze_all_pages], traced back to
    the store that the second step leaves. *)
Lemma output_question (pm : PatternMatcher) (prefer : bool) (images : list Page)
    (i r : nat) (q : Question) :
  let result := analyze_all_pages pm prefer images in
  let t := collect_questions pm prefer images in
  result.2 !! i = Some r -> result.1 !! r = Some q ->
  exists p q0,
    all_questions t !! i = Some (p, r) /\ heap t !! r = Some q0 /\ kept q = kept q0 /\
    q_page q0 = p /\ visited_ok images (Z.of_nat (length images)) q0 /\
    q_image_height q0 = Some (height_of images p) /\
    (q_cross_page q0 = true ->
     S i = length (all_questions t) /\ q_cross_page_merged q0 = false) /\
    (forall e, In e (all_questions t) -> e.2 = r -> e.1 = p).
Proof.
  intros result t Hr Hq. subst result. unfold analyze_all_pages in *. fold t in Hr, Hq.
  cbn [fst snd] in *.
  rewrite FinalizerFacts.map_fmap, list_lookup_fmap in Hr.
  destruct (all_questions t !! i) as [[p r']|] eqn:Ei; [|discriminate].
  cbn in Hr. injection Hr as ->.
  destruct (collect_questions_inv pm prefer images) as [Hv Hf]. fold t in Hv, Hf.
  destruct (Hf i (p, r) Ei) as (q0 & Hq0 & Hp0 & Hi0 & Hc0). cbn [fst snd] in *.
  destruct (kept_lookup (heap t) _ r q
              (eq_trans (resolve_ends_kept images (all_questions t) _)
                 (refine_heights_kept (collect_ocr images) (all_questions t) (heap t))) Hq)
    as (q1 & Hq1 & Hk).
  rewrite Hq0 in Hq1. injection Hq1 as <-.
  exists p, q0. split; [reflexivity|]. do 3 (split; [assumption|]).
  split.
  { rewrite Forall_forall in Hv. apply Hv. eapply list_elem_of_lookup_2, Hq0. }
  do 2 (split; [assumption|]).
  intros e He Her. apply list_elem_of_In, list_elem_of_lookup in He as [j Hj].
  destruct (Hf j e Hj) as (q2 & Hq2 & Hp2 & _). rewrite Her, Hq0 in Hq2.
  injection Hq2 as <-. congruence.
Qed.

End PipelineFacts.

(** X8: for every integer [x] with [0 <= x < 2^45] the binary64
    product truncated by [int()] is the exact floor: [int(x * 0.97)] is
    [97 x // 100] and [int(x * 0.3)] is [3 x // 10]. The rounding of
    the constant and of the product never moves the result across an
    integer, so the page-bottom end lies inside the page and the margin
    of rule (d) is never larger than the line height. *)
Theorem float_products_are_floors (x : Z) :
  0 <= x < 2 ^ 45 ->
  Float.int_mul_097 x = 97 * x / 100 /\ Float.int_mul_03 x = 3 * x / 10 /\
  0 <= Float.int_mul_097 x <= x /\ 0 <= Float.int_mul_03 x <= x.
Proof.
  intros H.
  rewrite (FloatFacts.int_mul_097_exact x H), (FloatFacts.int_mul_03_exact x H).
  split; [reflexivity|]. split; [reflexivity|].
  pose proof (Z.div_mod (97 * x) 100 ltac:(lia)).
  pose proof (Z.mod_pos_bound (97 * x) 100 ltac:(lia)).
  pose proof (Z.div_mod (3 * x) 10 ltac:(lia)).
  pose proof (Z.mod_pos_bound (3 * x) 10 ltac:(lia)).
  lia.
Qed.

Lemma float_products_are_floors_witness :
  Float.int_mul_097 1123 = 97 * 1123 / 100 /\ Float.int_mul_03 1123 = 3 * 1123 / 10 /\
  0 <= Float.int_mul_097 1123 <= 1123 /\ 0 <= Float.int_mul_03 1123 <= 1123.
Proof. apply (float_products_are_floors 1123). now vm_compute. Defined.

(** X9: every question of the output of [analyze_all_pages] lies on a
    page of the document, and its [image_height] is the height of that
    page, also for a question merged across pages or still waiting. *)
Theorem output_pages_and_heights (pm : PatternMatcher) (prefer_chinese_primary : bool)
    (images : list LayoutAnalyzer.Page) :
  let result := LayoutAnalyzer.analyze_all_pages pm prefer_chinese_primary images in
  Forall (fun q =>
            1 <= q_page q <= Z.of_nat (length images) /\
            q_image_height q = Some (LayoutAnalyzer.height_of images (q_page q)))
    (LayoutAnalyzer.objects result.1 result.2).
Proof.
  intros result. apply Forall_forall. intros q Hq.
  unfold LayoutAnalyzer.objects in Hq. apply list_elem_of_omap in Hq as (r & Hr & Hq).
  apply list_elem_of_lookup in Hr as [i Hi].
  destruct (PipelineFacts.output_question pm prefer_chinese_primary images i r q Hi Hq)
    as (p & q0 & _ & _ & Hk & Hp & Hv & Hh & _).
  unfold Invariants.kept in Hk. unfold Invariants.visited_ok in Hv.
  injection Hk as _ _ Hpage _ _ _ _ _ _ _ _ Himg.
  rewrite Hpage, Himg, Hp. split; [|assumption]. rewrite <- Hp. tauto.
Qed.


(** X11: only the last question of the output can still have
    [cross_page]: it is the question left waiting when the pages are
    exhausted. It is not merged, and its end is the bottom (97%) of its
    own page. *)
Theorem only_last_output_waits (pm : PatternMatcher) (prefer_chinese_primary : bool)
    (images : list LayoutAnalyzer.Page) (i r : nat) (q : Question) :
  let result := LayoutAnalyzer.analyze_all_pages pm prefer_chinese_primary images in
  result.2 !! i = Some r -> result.1 !! r = Some q -> q_cross_page q = true ->
  S i = length result.2 /\ q_cross_page_merged q = false /\
  q_end_y q = Some (Float.int_mul_097 (LayoutAnalyzer.height_of images (q_page q))) /\
  q_end_page q = Some (q_page q).
Proof.
  intros result Hi Hq Hc.
  destruct (PipelineFacts.output_question pm prefer_chinese_primary images i r q Hi Hq)
    as (p0 & q0 & Hai & _ & Hk & Hp & _ & _ & Hlast & Hsame).
  unfold Invariants.kept in Hk.
  injection Hk as _ _ Hpage _ _ _ Hcross _ Hmerged _ _ _.
  destruct (Hlast ltac:(congruence)) as [Hlen Hm0].
  assert (Hin : In r (map snd (LayoutAnalyzer.all_questions
                                 (LayoutAnalyzer.collect_questions pm
                                    prefer_chinese_primary images)))).
  { apply in_map_iff. exists (p0, r). split; [reflexivity|].
    apply list_elem_of_In. eapply list_elem_of_lookup_2, Hai. }
  destruct (PipelineFacts.resolve_ends_flagged images _ _ p0 r q Hin Hsame Hq) as [_ He].
  destruct (He ltac:(congruence) Hc) as [He1 He2].
  split.
  { subst result. unfold LayoutAnalyzer.analyze_all_pages. cbn [snd].
    now rewrite length_map. }
  split; [congruence|]. rewrite Hpage, Hp. auto.
Qed.

Lemma only_last_output_waits_witness :
  let result :=
    LayoutAnalyzer.analyze_all_pages Config.default_matcher true
      MoreSamples.waiting_document in
  1%nat = length result.2 /\ q_cross_page_merged MoreSamples.waiting_question = false /\
  q_end_y MoreSamples.waiting_question = Some (Float.int_mul_097 1000) /\
  q_end_page MoreSamples.waiting_question = Some 1.
Proof.
  apply (only_last_output_waits Config.default_matcher true MoreSamples.waiting_document
           0 0 MoreSamples.waiting_question); now vm_compute.
Defined.


(** ** The default patterns *)

Module MatcherFacts.

Import Config.

(** The first byte of a text. *)
Local Abbreviation first_is := (fun (P : ascii -> Prop) (s : string) =>
  match s with String c _ => P c | EmptyString => False end).


Lemma many1_first (fuel : nat) (cs : list string) (s r : string) :
  many1 fuel cs s = Some r -> is_Some (one_of cs s).
Proof.
  destruct fuel as [|fuel]; simpl; [discriminate|].
  destruct (one_of cs s); [eauto|discriminate].
Qed.


Lemma sub_question_first (s : string) :
  sub_question_pattern s = true -> first_is (fun c => is_digit c = true) s.
Proof.
  unfold sub_question_pattern. destruct s as [|c s]; simpl; [discriminate|].
  destruct (is_digit c); [reflexivity|discriminate].
Qed.


End MatcherFacts.




(** ** Merging of adjacent zones *)

Module ZoneFacts.

Import ZoneExtractor.

(** The zone that has absorbed the run [g]. *)
Local Abbreviation grown := (fun (c : Zone) (g : list Zone) =>
  match last g with Some l => absorb c l | None => c end).

Lemma absorb_absorb (c a b : Zone) : absorb (absorb c a) b = absorb c b.
Proof. reflexivity. Qed.

Lemma mergeable_absorb (c a b : Zone) :
  z_type a = z_type c -> mergeable (absorb c a) b = mergeable a b.
Proof.
  intros Ht. unfold mergeable, absorb, set_height. cbn. rewrite Ht.
  f_equal. f_equal. lia.
Qed.

Lemma mergeable_type (a b : Zone) : mergeable a b = true -> z_type b = z_type a.
Proof.
  unfold mergeable. intros H. apply andb_true_iff in H as [H _].
  now apply String.eqb_eq in H.
Qed.

(** The test reads of the next zone its type and its [y] only. *)
Lemma mergeable_next (a b b' : Zone) :
  z_type b' = z_type b -> z_y b' = z_y b -> mergeable a b' = mergeable a b.
Proof. unfold mergeable. now intros -> ->. Qed.

Lemma merge_from_head (c : Zone) (rest : list Zone) :
  exists h t, merge_from c rest = h :: t /\ z_type h = z_type c /\ z_y h = z_y c.
Proof.
  revert c. induction rest as [|n rest IH]; intros c; simpl; [eauto|].
  destruct (mergeable c n); [|eauto].
  destruct (IH (absorb c n)) as (h & t & -> & Ht & Hy). eauto.
Qed.

Lemma merge_from_settled (c : Zone) (rest : list Zone) : settled (merge_from c rest).
Proof.
  revert c. induction rest as [|n rest IH]; intros c; simpl; [exact I|].
  destruct (mergeable c n) eqn:E; [apply IH|].
  destruct (merge_from_head n rest) as (h & t & Hm & Ht & Hy).
  specialize (IH n). rewrite Hm in *. simpl. split; [|exact IH].
  now rewrite (mergeable_next c n h Ht Hy).
Qed.

Lemma merge_settled (zones : list Zone) :
  settled zones -> merge_adjacent_zones zones = zones.
Proof.
  destruct zones as [|a rest]; [reflexivity|]. simpl. revert a.
  induction rest as [|b rest IH]; intros a H; simpl; [reflexivity|].
  destruct H as [Hab H]. rewrite Hab. f_equal. now apply IH.
Qed.

Lemma runs_from_concat (rest cur : list Zone) (a : Zone) :
  concat (runs_from cur a rest) = cur ++ rest.
Proof.
  revert cur a. induction rest as [|n rest IH]; intros cur a; simpl.
  - now rewrite app_nil_r.
  - destruct (mergeable a n); simpl; rewrite IH; [now rewrite <- app_assoc|reflexivity].
Qed.

Lemma fuse_snoc (z : Zone) (t : list Zone) (n : Zone) :
  fuse (z :: t ++ [n]) = Some (absorb z n).
Proof. unfold fuse. now rewrite last_snoc. Qed.

(** The loops return one zone per run. *)
Lemma merge_from_runs (rest : list Zone) (z : Zone) (t : list Zone) :
  z_type (default z (last t)) = z_type z ->
  merge_from (grown z t) rest = omap fuse (runs_from (z :: t) (default z (last t)) rest).
Proof.
  revert z t. induction rest as [|n rest IH]; intros z t Ht; simpl.
  - unfold fuse. destruct (last t); reflexivity.
  - assert (Hm : mergeable (grown z t) n = mergeable (default z (last t)) n).
    { destruct (last t) as [l|]; [|reflexivity]. cbn in Ht |- *.
      now apply mergeable_absorb. }
    rewrite Hm. destruct (mergeable (default z (last t)) n) eqn:E.
    + specialize (IH z (t ++ [n])). rewrite last_snoc in IH.
      change (default z (Some n)) with n in IH. rewrite <- IH.
      * f_equal. destruct (last t); reflexivity.
      * rewrite (mergeable_type _ _ E). exact Ht.
    + cbn [omap list_omap]. replace (fuse (z :: t)) with (Some (grown z t))
        by (unfold fuse; destruct (last t); reflexivity).
      cbn. f_equal. exact (IH n [] eq_refl).
Qed.

Lemma runs_from_nonempty (rest cur : list Zone) (a : Zone) :
  cur <> [] -> Forall (fun g => g <> []) (runs_from cur a rest).
Proof.
  revert cur a. induction rest as [|n rest IH]; intros cur a Hc; simpl.
  - now constructor.
  - destruct (mergeable a n).
    + apply IH. intros E. now apply app_eq_nil in E as [_ [=]].
    + constructor; [assumption|]. now apply IH.
Qed.

(** Consecutive zones of a run pass the test. *)
Local Abbreviation chained := (fun g : list Zone =>
  forall i a b, g !! i = Some a -> g !! S i = Some b -> mergeable a b = true).

Lemma run_snoc (g : list Zone) (p n : Zone) :
  chained g -> last g = Some p -> mergeable p n = true -> chained (g ++ [n]).
Proof.
  intros Hc Hl Hs i a b Ha Hb.
  assert (Hi : (S i < length (g ++ [n]))%nat) by (apply lookup_lt_is_Some; eauto).
  rewrite length_app in Hi. simpl in Hi.
  rewrite lookup_app_l in Ha by lia.
  destruct (decide (S i = length g)) as [E|E].
  - rewrite lookup_app_r in Hb by lia. rewrite E, Nat.sub_diag in Hb.
    simpl in Hb. injection Hb as <-.
    rewrite last_lookup in Hl. replace (pred (length g)) with i in Hl by lia.
    congruence.
  - rewrite lookup_app_l in Hb by lia. eauto.
Qed.

Lemma runs_from_chained (rest cur : list Zone) (a : Zone) :
  chained cur -> last cur = Some a -> Forall chained (runs_from cur a rest).
Proof.
  revert cur a. induction rest as [|n rest IH]; intros cur a Hc Hl; simpl.
  - now constructor.
  - destruct (mergeable a n) eqn:E.
    + apply IH; [eapply run_snoc; eauto|apply last_snoc].
    + constructor; [assumption|]. apply IH; [|reflexivity].
      intros [|i] x y Hx Hy; simpl in *; discriminate.
Qed.

Lemma runs_from_head (rest cur : list Zone) (a x : Zone) :
  head cur = Some x -> exists g gs, runs_from cur a rest = g :: gs /\ head g = Some x.
Proof.
  revert cur a. induction rest as [|n rest IH]; intros cur a Hh; simpl; [eauto|].
  destruct (mergeable a n); [|eauto].
  apply IH. destruct cur; [discriminate|exact Hh].
Qed.

(** The last zone of a run and the first of the next fail the test. *)
Lemma runs_from_separated (rest cur : list Zone) (a : Zone) :
  last cur = Some a ->
  forall i g1 g2 x y,
    runs_from cur a rest !! i = Some g1 -> runs_from cur a rest !! S i = Some g2 ->
    last g1 = Some x -> head g2 = Some y -> mergeable x y = false.
Proof.
  revert cur a. induction rest as [|n rest IH]; intros cur a Hl; simpl.
  - intros [|i] g1 g2 x y H1 H2; simpl in *; discriminate.
  - destruct (mergeable a n) eqn:E; [apply IH, last_snoc|].
    intros [|i] g1 g2 x y H1 H2 Hx Hy; simpl in H1, H2.
    + injection H1 as <-.
      destruct (runs_from_head rest [n] n n eq_refl) as (g & gs & Hg & Hh).
      rewrite Hg in H2. simpl in H2. injection H2 as <-. congruence.
    + exact (IH [n] n eq_refl i g1 g2 x y H1 H2 Hx Hy).
Qed.

End ZoneFacts.

(** X15: [merge_adjacent_zones] is idempotent: in its output no zone
    can absorb the zone after it (same type and start at most 50 pixels
    below its bottom), and on such a list it changes nothing. *)
Theorem merge_adjacent_zones_idempotent (zones : list ZoneExtractor.Zone) :
  ZoneExtractor.settled (ZoneExtractor.merge_adjacent_zones zones) /\
  ZoneExtractor.merge_adjacent_zones (ZoneExtractor.merge_adjacent_zones zones)
  = ZoneExtractor.merge_adjacent_zones zones.
Proof.
  assert (H : ZoneExtractor.settled (ZoneExtractor.merge_adjacent_zones zones)).
  { destruct zones as [|z rest]; [exact I|]. apply ZoneFacts.merge_from_settled. }
  split; [exact H|]. now apply ZoneFacts.merge_settled.
Qed.

(** X16: [merge_adjacent_zones] cuts the list into consecutive runs and
    returns one zone per run: the first zone of the run with its type,
    position and width, and with the height that reaches to the bottom
    of the last zone of the run (so the height of the first zone can
    shrink). Inside a run every zone has the type of the one before it
    and starts at most 50 pixels below its bottom; the first zone of
    the next run fails this test against the last zone of the run. *)
Theorem merge_adjacent_zones_runs (zones : list ZoneExtractor.Zone) :
  let runs := ZoneExtractor.runs zones in
  concat runs = zones /\
  Forall2 (fun g z => ZoneExtractor.fuse g = Some z) runs
    (ZoneExtractor.merge_adjacent_zones zones) /\
  (forall g i a b,
      In g runs -> g !! i = Some a -> g !! S i = Some b ->
      ZoneExtractor.mergeable a b = true) /\
  (forall i g1 g2 a b,
      runs !! i = Some g1 -> runs !! S i = Some g2 ->
      last g1 = Some a -> head g2 = Some b -> ZoneExtractor.mergeable a b = false).
Proof.
  destruct zones as [|z rest]; cbn zeta.
  { split; [reflexivity|]. split; [constructor|]. split.
    - intros g i a b [].
    - intros i g1 g2 a b [=]. }
  unfold ZoneExtractor.runs, ZoneExtractor.merge_adjacent_zones.
  split; [apply (ZoneFacts.runs_from_concat rest [z] z)|].
  split.
  { pose proof (ZoneFacts.merge_from_runs rest z [] eq_refl) as H. cbn in H. rewrite H.
    pose proof (ZoneFacts.runs_from_nonempty rest [z] z ltac:(discriminate)) as Hne.
    clear H. induction Hne as [|g gs Hg _ IH]; cbn; [constructor|].
    destruct g as [|x g]; [congruence|].
    assert (Hf : exists c, ZoneExtractor.fuse (x :: g) = Some c)
      by (unfold ZoneExtractor.fuse; destruct (last g); eauto).
    destruct Hf as [c Hf]. rewrite Hf. cbn. constructor; assumption. }
  split.
  - intros g i a b Hg.
    assert (Hch : Forall (fun g : list ZoneExtractor.Zone =>
                            forall i a b, g !! i = Some a -> g !! S i = Some b ->
                                          ZoneExtractor.mergeable a b = true)
                    (ZoneExtractor.runs_from [z] z rest)).
    { apply ZoneFacts.runs_from_chained; [|reflexivity].
      intros [|j] x y Hx Hy; simpl in *; discriminate. }
    rewrite Forall_forall in Hch. apply list_elem_of_In in Hg. exact (Hch g Hg i a b).
  - exact (ZoneFacts.runs_from_separated rest [z] z eq_refl).
Qed.

(** ** The coordinate correction *)

Module PreprocessorFacts.

Import ImagePreprocessor.

Lemma clamp_bounds (v w : Q) :
  (0 <= w)%Q -> (0 <= py_max 0 (py_min v w) <= w)%Q.
Proof.
  intros Hw. unfold py_max, py_min.
  destruct (Qlt_le_dec w v) as [H1|H1]; destruct (Qlt_le_dec 0 _) as [H2|H2]; split;
    try assumption; try apply Qle_refl; try (now apply Qlt_le_weak).
Qed.

End PreprocessorFacts.

(** X17: whatever the rounding of the float operations, every point
    that [correct_coordinates] returns lies in the original image,
    [0 <= x <= width] and [0 <= y <= height]; falsy entries are
    dropped, and the other lines keep their order, their number of
    points and their [(text, confidence)] pair. *)
Theorem corrected_points_within_image (round : Q -> Q)
    (ocr_result : list (option ImagePreprocessor.RawLine))
    (info : ImagePreprocessor.CropInfo) (original_shape : Z * Z)
    (out : list ImagePreprocessor.RawLine) :
  0 <= original_shape.1 -> 0 <= original_shape.2 ->
  ImagePreprocessor.correct_coordinates round ocr_result info original_shape = Some out ->
  Forall2 (fun l l' =>
             ImagePreprocessor.raw_text_info l' = ImagePreprocessor.raw_text_info l /\
             length (ImagePreprocessor.raw_box l') = length (ImagePreprocessor.raw_box l) /\
             Forall (fun p =>
                       (0 <= p.1 <= inject_Z original_shape.2)%Q /\
                       (0 <= p.2 <= inject_Z original_shape.1)%Q)
               (ImagePreprocessor.raw_box l'))
    (omap id ocr_result) out.
Proof.
  intros Hh Hw. unfold ImagePreprocessor.correct_coordinates.
  destruct (_ && _); [discriminate|]. intros [= <-].
  induction (omap id ocr_result) as [|l ls IH]; cbn [map]; constructor; [|exact IH].
  unfold ImagePreprocessor.correct_line. cbn.
  split; [reflexivity|]. split; [apply length_map|].
  apply Forall_forall. intros p Hp. apply list_elem_of_In, in_map_iff in Hp as (p0 & <- & _).
  unfold ImagePreprocessor.correct_point. cbn [fst snd].
  split; apply PreprocessorFacts.clamp_bounds;
    (rewrite Zle_Qle in *; assumption).
Qed.

Lemma corrected_points_within_image_witness :
  exists out,
    ImagePreprocessor.correct_coordinates (fun x => x) MoreSamples.raw_page
      (ImagePreprocessor.mkCropInfo (5 # 1) (7 # 1) (1 # 2)) (1000, 800) = Some out /\
    Forall2 (fun l l' =>
               ImagePreprocessor.raw_text_info l' = ImagePreprocessor.raw_text_info l /\
               length (ImagePreprocessor.raw_box l') = length (ImagePreprocessor.raw_box l) /\
               Forall (fun p => (0 <= p.1 <= inject_Z 800)%Q /\ (0 <= p.2 <= inject_Z 1000)%Q)
                 (ImagePreprocessor.raw_box l'))
      (omap id MoreSamples.raw_page) out.
Proof.
  eexists. split; [reflexivity|].
  apply (corrected_points_within_image (fun x => x) MoreSamples.raw_page
           (ImagePreprocessor.mkCropInfo (5 # 1) (7 # 1) (1 # 2)) (1000, 800));
    [cbn; lia|cbn; lia|reflexivity].
Defined.

(** ** From the analyzer to the cropper *)

Module CropFacts.

Import QuestionExtractor LayoutAnalyzer Invariants ImageCropper.

Lemma round53_nonneg (N : Z) : 0 <= N -> 0 <= Float.round53 N.
Proof.
  intros HN.
  destruct (FloatFacts.round53_cases N HN) as [[_ ->]|(s & q & Hs & HsN & -> & Hnear)];
    [assumption|].
  rewrite Z.pow_add_r in HsN by lia.
  assert (HT : 0 < 2 ^ s) by (apply Z.pow_pos_nonneg; lia).
  change (2 ^ 52) with 4503599627370496 in HsN. lia.
Qed.

Lemma int_mul_03_nonneg (t : Z) : 0 <= t -> 0 <= Float.int_mul_03 t.
Proof.
  intros Ht. unfold Float.int_mul_03. apply Z.div_pos; [|reflexivity].
  apply round53_nonneg. unfold Float.m03. lia.
Qed.

Lemma int_mul_097_le (h : Z) : 0 <= h < 2 ^ 45 -> Float.int_mul_097 h <= h.
Proof.
  intros H. rewrite (FloatFacts.int_mul_097_exact h H).
  pose proof (Z.div_mod (97 * h) 100 ltac:(lia)).
  pose proof (Z.mod_pos_bound (97 * h) 100 ltac:(lia)). lia.
Qed.

(** The same-page branch of [_crop_question]. *)
Lemma crop_same_page (margin_h : Z) (job : Job) (e : Z) :
  let q := job_question job in
  let image := page_image job in
  let image_height := default (pic_height image) (q_image_height q) in
  let x1 := Z.max 0 (start_x job - margin_h) in
  let y1 := Z.max 0 (start_row q) in
  q_cross_page_merged q = false -> q_end_y q = Some e -> e <= image_height ->
  match _crop_question margin_h job with
  | Cropped pieces =>
      pieces = [(image, (x1, y1, pic_width image, e))] /\
      0 <= x1 < pic_width image /\ 0 <= y1 < e
  | NoImage => pic_width image <= x1 \/ e <= y1
  | Raises => False
  end.
Proof.
  intros q image image_height x1 y1 Hm He Hle.
  unfold _crop_question. fold q image. rewrite He, Hm. cbv zeta.
  fold image_height x1 y1.
  replace (Z.min image_height e) with e by lia.
  replace (if e >? image_height then image_height else e) with e
    by (destruct (e >? image_height) eqn:E; [lia|reflexivity]).
  replace (e <=? image_height) with true by (symmetry; apply Z.leb_le; exact Hle).
  destruct (x1 >=? pic_width image) eqn:E1; cbn [orb]; [left; lia|].
  destruct (y1 >=? e) eqn:E2; [right; lia|].
  replace (if e >? image_height then image_height else e) with e
    by (destruct (e >? image_height) eqn:E; [lia|reflexivity]).
  split; [reflexivity|]. subst x1 y1. lia.
Qed.

Lemma fmap_update_proj {B} (proj : Question -> B) (r : nat) (f : Question -> Question)
    (st : list Question) :
  (forall q, proj (f q) = proj q) -> proj <$> update r f st = proj <$> st.
Proof.
  intros Hf. apply list_eq. intros i. rewrite !list_lookup_fmap.
  destruct (decide (r = i)) as [->|Hne].
  - rewrite lookup_update. destruct (st !! i); simpl; [now rewrite Hf|reflexivity].
  - now rewrite lookup_update_ne.
Qed.

Lemma within_core (images : list Page) (q q' : Question) :
  core q' = core q -> within images q -> within images q'.
Proof.
  unfold core, within. intros [= Hp Hs Ht He]. now rewrite Hp, Hs, Ht, He.
Qed.

Lemma Forall_within_core (images : list Page) (st st' : list Question) :
  core <$> st' = core <$> st -> Forall (within images) st -> Forall (within images) st'.
Proof.
  intros Hc Hst. apply Forall_forall. intros q' Hq'.
  apply list_elem_of_lookup in Hq' as [i Hi].
  apply (f_equal (fun l => l !! i)) in Hc. rewrite !list_lookup_fmap, Hi in Hc.
  destruct (st !! i) as [q|] eqn:E; [|discriminate]. cbn in Hc.
  apply (within_core images q); [congruence|].
  rewrite Forall_forall in Hst. apply Hst. eapply list_elem_of_lookup_2, E.
Qed.

Lemma complete_merge_core (pm : PatternMatcher) (images : list Page) (ocr : OcrResult)
    (from_page page_idx : Z) (q : Question) :
  core (complete_merge pm images ocr from_page page_idx q) = core q.
Proof. unfold complete_merge, core. destruct q. cbn. TraversalFacts.split_updates. Qed.

Lemma resolve_pending_core (pm : PatternMatcher) (images : list Page)
    (all : gmap Z OcrResult) (total page_idx : Z) (ocr : OcrResult) (t : Traversal) :
  core <$> heap (resolve_pending pm images all total page_idx ocr t) = core <$> heap t.
Proof.
  unfold resolve_pending.
  destruct (pending_cross_page_question t) as [[cq from]|]; [|reflexivity].
  destruct (heap t !! cq) as [q|]; [|reflexivity].
  destruct (page_idx >=? _); [|reflexivity].
  destruct (merge_nested pm ocr (q_nested q) (next_number (q_nested q)) 0)
    as [[merged e] count].
  destruct (0 <? count)%nat; [|reflexivity].
  destruct (probe_pages _ _ _ _); cbn [heap]; apply fmap_update_proj; intros q0;
    rewrite ?complete_merge_core; now destruct q0.
Qed.

Lemma file_questions_core (images : list Page) (page_idx : Z) (qs : list nat)
    (t : Traversal) :
  core <$> heap (file_questions images page_idx qs t) = core <$> heap t.
Proof.
  revert t. induction qs as [|r qs IH]; intros t; simpl; [reflexivity|].
  destruct (match heap t !! r with Some q => q_cross_page q | None => false end);
    rewrite IH; cbn [heap]; [reflexivity|].
  apply fmap_update_proj. intros q. now destruct q.
Qed.

(** The top of a merged line is the top of one of its fragments. *)
Lemma merged_top_from (input : list Line) (m : Line) :
  In (Some m) (OCRTextMerger.merge_same_line_texts input) ->
  exists g, In g input /\ line_y_min m = line_y_min g.
Proof.
  intros Hm. rewrite MergerFacts.merge_same_line_texts_group in Hm.
  set (clusters := OCRTextMerger.group [] (sorted_by line_y_min input)) in *.
  destruct (MergerFacts.merged_outputs clusters (MergerFacts.group_nonempty _ _))
    as (out & Ho & Hf).
  rewrite Ho in Hm. apply in_map_iff in Hm as (m' & [= ->] & Hm).
  assert (Hc : exists c, In c clusters /\ OCRTextMerger.merged_from c m).
  { clear Ho. induction Hf as [|c x cs xs Hcx _ IH]; [destruct Hm|].
    destruct Hm as [->|Hm]; [exists c; split; [now left|assumption]|].
    destruct (IH Hm) as (c' & Hc' & Hmf). exists c'. split; [now right|assumption]. }
  destruct Hc as (c & Hc & Hmf).
  rewrite (MergerFacts.merged_y_min c m Hmf).
  assert (Hne : c <> []).
  { pose proof (MergerFacts.group_nonempty (sorted_by line_y_min input) []) as Hn.
    rewrite Forall_forall in Hn. apply Hn. now apply list_elem_of_In. }
  destruct c as [|f c']; [congruence|].
  pose proof (zmin_In (map line_y_min (f :: c')) ltac:(discriminate)) as Hz.
  apply in_map_iff in Hz as (g & Hg & Hin). exists g. split; [|congruence].
  apply (Permutation_in g (sorted_by_perm line_y_min input)).
  change (sorted_by line_y_min input) with ([] ++ sorted_by line_y_min input).
  rewrite <- (MergerFacts.group_concat (sorted_by line_y_min input) []).
  apply in_concat. exists (f :: c'). split; assumption.
Qed.

Lemma height_of_lookup (images : list Page) (i : nat) (img : Page) :
  images !! i = Some img -> height_of images (Z.of_nat (S i)) = page_height img.
Proof.
  intros H. unfold height_of. replace (Z.to_nat (Z.of_nat (S i) - 1)) with i by lia.
  now rewrite H.
Qed.

Lemma height_of_bounds (images : list Page) (p : Z) :
  fits images -> 0 <= height_of images p < 2 ^ 45.
Proof.
  intros Hf. unfold height_of. destruct (images !! _) as [img|] eqn:E; [|split; [lia|reflexivity]].
  unfold fits in Hf. rewrite Forall_forall in Hf.
  apply (Hf img). eapply list_elem_of_lookup_2, E.
Qed.

(** The tops of the lines of a page are not below its bottom. *)
Lemma page_tops (images : list Page) (p : Z) (ocr : OcrResult) (y : Z) :
  fits images -> collect_ocr images !! p = Some ocr -> line_top ocr y ->
  y <= height_of images p.
Proof.
  intros Hf Hp (m & Hm & <-). unfold collect_ocr in Hp.
  apply elem_of_list_to_map_2, elem_of_lookup_imap_1 in Hp as (i & img & [= -> ->] & Hi).
  rewrite (height_of_lookup images i img Hi).
  destruct (merged_top_from (page_lines img) m Hm) as (g & Hg & ->).
  pose proof (zmin_In (y_coords (line_box g)) ltac:(discriminate)) as Hz.
  unfold y_coords in Hz at 2. apply in_map_iff in Hz as (pt & Hpt & Hin).
  unfold line_y_min. rewrite <- Hpt.
  unfold fits in Hf. rewrite Forall_forall in Hf.
  apply (Hf img (list_elem_of_lookup_2 _ _ _ Hi)) with g; assumption.
Qed.

Lemma visit_page_within (pm : PatternMatcher) (prefer : bool) (images : list Page)
    (total p : Z) (t : Traversal) :
  fits images -> Forall (within images) (heap t) ->
  Forall (within images) (heap (visit_page pm prefer images (collect_ocr images) total p t)).
Proof.
  intros Hf Ht. unfold visit_page. cbv zeta.
  set (ocr := default [] (collect_ocr images !! p)).
  set (t1 := resolve_pending pm images (collect_ocr images) total p ocr t).
  destruct (ExtractorFacts.extract_question_positions_inv pm prefer (heap t1) ocr p
              (collect_ocr images) total) as (news & Hs & Hn & _).
  destruct (extract_question_positions pm prefer (heap t1) ocr p (collect_ocr images) total)
    as [heap1 qs].
  cbn [fst] in Hs. subst heap1.
  eapply Forall_within_core; [apply file_questions_core|]. cbn [heap].
  apply Forall_app. split.
  - eapply Forall_within_core; [apply resolve_pending_core|exact Ht].
  - eapply Forall_impl; [exact Hn|]. intros q Hq. unfold extracted_on in Hq.
    destruct Hq as (Hp & Hth & _ & _ & _ & _ & _ & _ & _ & _ & _ & Hs & He).
    assert (Htop : forall y, line_top ocr y -> y <= height_of images p).
    { intros y Hy. subst ocr. destruct (collect_ocr images !! p) as [o|] eqn:E.
      - eapply page_tops; eauto.
      - destruct Hy as (m & [] & _). }
    unfold within. rewrite Hp. split; [assumption|]. split; [now apply Htop|].
    intros e Hee. apply Htop. now apply He.
Qed.

Lemma collect_questions_within (pm : PatternMatcher) (prefer : bool) (images : list Page) :
  fits images -> Forall (within images) (heap (collect_questions pm prefer images)).
Proof.
  intros Hf. unfold collect_questions, flush_pending.
  set (pages := map (fun i => Z.of_nat (S i)) (seq 0 (length images))).
  assert (H : forall t, Forall (within images) (heap t) ->
            Forall (within images) (heap (fold_left
              (fun t page_idx =>
                 visit_page pm prefer images (collect_ocr images)
                   (Z.of_nat (length images)) page_idx t) pages t))).
  { induction pages as [|p pages IH]; intros t Ht; simpl; [assumption|].
    apply IH. now apply visit_page_within. }
  specialize (H (mkTraversal [] [] None) (Forall_nil_2 _)).
  destruct (pending_cross_page_question _) as [[cq from]|]; [|assumption].
  cbn [heap]. eapply Forall_within_core; [|exact H].
  apply fmap_update_proj. intros q. now destruct q.
Qed.

Lemma collect_heights_pos (s : Z) (e : option Z) (ocr : OcrResult) :
  Forall (fun h => 0 < h) (collect_heights s e ocr).
Proof.
  induction ocr as [|[l|] ocr IH]; simpl; [constructor| |assumption].
  destruct (_ >=? _); [|assumption].
  destruct (match e with Some _ => _ | None => _ end); [constructor|].
  destruct (line_y_max l - line_y_min l >? 0) eqn:E; [|assumption].
  constructor; [lia|assumption].
Qed.

Lemma refine_height_within (images : list Page) (ocr : OcrResult) (q : Question) :
  within images q -> within images (refine_height ocr q).
Proof.
  unfold refine_height. intros Hq.
  pose proof (collect_heights_pos (q_start_y q) (q_end_y q) ocr) as Hpos.
  destruct (collect_heights _ _ _) as [|h hs] eqn:E; [assumption|].
  pose proof (zmin_In (h :: hs) ltac:(discriminate)) as Hin.
  rewrite Forall_forall in Hpos. apply list_elem_of_In in Hin.
  specialize (Hpos _ Hin). cbn beta in Hpos.
  revert Hq Hpos. generalize (zmin (h :: hs)). intros z.
  unfold within. destruct q. cbn. intuition lia.
Qed.

Lemma resolve_question_within (images : list Page) (p : Z) (next : option NextInfo)
    (q : Question) :
  within images q -> within images (resolve_question images p next q).
Proof.
  unfold within. intros (Ht & Hs & He).
  pose proof (FinalizerFacts.resolve_question_view images p next q) as Hv.
  pose proof (PipelineFacts.resolve_question_kept images p next q) as Hk.
  unfold view in Hv. unfold kept in Hk.
  injection Hv as Hs' Ht' _ _ _ _ _. injection Hk as _ _ Hp' _ _ _ _ _ _ _ _ _.
  rewrite Hs', Ht', Hp'. split; [assumption|]. split; [assumption|].
  intros e Hee. apply He.
  revert Hee. destruct q, next as [[[? ?] ?]|];
    unfold resolve_question, resolve_regular, resolve_special;
    FinalizerFacts.split_tests.
Qed.

Lemma Forall_update {P : Question -> Prop} (r : nat) (f : Question -> Question)
    (st : list Question) :
  (forall q, P q -> P (f q)) -> Forall P st -> Forall P (update r f st).
Proof.
  intros Hf Hst. unfold update. apply Forall_alter; [assumption|].
  intros q _ Hq. now apply Hf.
Qed.

Lemma refine_heights_within (images : list Page) (all : gmap Z OcrResult)
    (aq : list (Z * nat)) (st : list Question) :
  Forall (within images) st -> Forall (within images) (refine_heights all aq st).
Proof.
  unfold refine_heights. revert st.
  induction aq as [|[p r] aq IH]; intros st Hst; simpl; [assumption|].
  apply IH. apply Forall_update; [|assumption]. intros q. apply refine_height_within.
Qed.

(** The end of a question that the fourth step resolves on page [p]
    without a completed merge is not below the bottom of [p]. *)
Lemma resolve_question_fits (images : list Page) (p : Z) (next : option NextInfo)
    (q0 : Question) :
  within images q0 -> q_page q0 = p -> 0 <= height_of images p < 2 ^ 45 ->
  (forall np ny nth, next = Some (np, ny, nth) -> np = p ->
                     ny <= height_of images p /\ 0 <= nth) ->
  let q := resolve_question images p next q0 in
  q_cross_page_merged q = false ->
  exists e, q_end_y q = Some e /\ e <= height_of images p.
Proof.
  intros (Ht & Hs & He) Hp Hh Hnext.
  pose proof (int_mul_097_le (height_of images p) Hh) as H97.
  rewrite Hp in He.
  assert (Hd : forall np ny nth, next = Some (np, ny, nth) -> (np =? p) = true ->
                 ny - Float.int_mul_03 nth <= height_of images p).
  { intros np ny nth E Hnp. apply Z.eqb_eq in Hnp.
    destruct (Hnext np ny nth E Hnp) as [H1 H2].
    pose proof (int_mul_03_nonneg nth H2). lia. }
  clear Hnext Hs Ht Hp Hh.
  unfold resolve_question, resolve_regular, resolve_special.
  revert He H97 Hd. generalize (height_of images p). intros H He H97 Hd.
  destruct q0, next as [[[np ny] nth]|]; cbn in *.
  all: repeat first
         [ progress cbn in *
         | progress subst
         | match goal with
           | |- context [if ?b then _ else _] => destruct b eqn:?
           | |- context [match ?o with Some _ => _ | None => _ end] => destruct o eqn:?
           end ].
  all: intros; try discriminate.
  all: eexists; split; [reflexivity|].
  all: first [ exact H97 | now apply He | eapply Hd; [reflexivity|assumption] | idtac ].
Qed.

Lemma resolve_ends_fits (images : list Page) (aq : list (Z * nat)) (st : list Question)
    (r : nat) (q : Question) :
  (forall p, 0 <= height_of images p < 2 ^ 45) ->
  Forall (within images) st ->
  Forall (fun e : Z * nat => exists q, st !! e.2 = Some q /\ q_page q = e.1) aq ->
  In r (map snd aq) -> resolve_ends images aq st !! r = Some q ->
  q_cross_page_merged q = false ->
  exists e, q_end_y q = Some e /\ e <= height_of images (q_page q).
Proof.
  intros Hh. revert st.
  induction aq as [|[p0 r0] rest IH]; intros st Hw Haq Hr Hq Hm; [destruct Hr|].
  simpl in Hq. apply Forall_cons in Haq as [(q0 & Hq0 & Hp0) Haq]. cbn [fst snd] in *.
  set (next := next_info st (head rest)) in *.
  assert (Hw' : Forall (within images) (update r0 (resolve_question images p0 next) st)).
  { apply Forall_update; [|assumption]. intros q1. apply resolve_question_within. }
  assert (Haq' : Forall (fun e : Z * nat =>
                           exists q, update r0 (resolve_question images p0 next) st !! e.2
                                     = Some q /\ q_page q = e.1) rest).
  { eapply Forall_impl; [exact Haq|]. intros e (q1 & Hq1 & Hp1).
    destruct (decide (r0 = e.2)) as [E|E].
    - rewrite <- E, lookup_update. rewrite <- E in Hq1. rewrite Hq1. cbn.
      eexists. split; [reflexivity|].
      pose proof (PipelineFacts.resolve_question_kept images p0 next q1) as Hk.
      unfold kept in Hk. injection Hk as _ _ Hk _ _ _ _ _ _ _ _ _. congruence.
    - rewrite lookup_update_ne by assumption. eauto. }
  destruct (in_dec Nat.eq_dec r (map snd rest)) as [Hin|Hnin]; [now apply (IH _ Hw' Haq')|].
  destruct Hr as [Hr|Hr]; [|contradiction]. simpl in Hr. subst r0.
  rewrite FinalizerFacts.resolve_ends_untouched, lookup_update, Hq0 in Hq by assumption.
  cbn in Hq. injection Hq as <-.
  assert (Hpage : q_page (resolve_question images p0 next q0) = p0).
  { pose proof (PipelineFacts.resolve_question_kept images p0 next q0) as Hk.
    unfold kept in Hk. injection Hk as _ _ Hk _ _ _ _ _ _ _ _ _. congruence. }
  rewrite Hpage.
  apply resolve_question_fits; try assumption.
  - rewrite Forall_forall in Hw. apply Hw. eapply list_elem_of_lookup_2, Hq0.
  - apply Hh.
  - intros np ny nth Hnext Hnp. subst next.
    destruct rest as [|[np' nr] rest']; [discriminate|]. cbn in Hnext.
    apply Forall_cons in Haq as [(nq & Hnq & Hnp') _]. cbn [fst snd] in *.
    rewrite Hnq in Hnext. injection Hnext as -> <- <-.
    rewrite Forall_forall in Hw.
    destruct (Hw nq (list_elem_of_lookup_2 _ _ _ Hnq)) as (Ht & Hs & _).
    split; [congruence|assumption].
Qed.

(** The end of an unmerged question of the output is not below the
    bottom of its page. *)
Lemma output_unmerged_fits (pm : PatternMatcher) (prefer : bool) (images : list Page)
    (i r : nat) (q : Question) :
  let result := analyze_all_pages pm prefer images in
  fits images -> result.2 !! i = Some r -> result.1 !! r = Some q ->
  q_cross_page_merged q = false ->
  exists e,
    q_end_y q = Some e /\ e <= height_of images (q_page q) /\
    q_image_height q = Some (height_of images (q_page q)).
Proof.
  intros result Hf Hi Hq Hm.
  destruct (PipelineFacts.output_question pm prefer images i r q Hi Hq)
    as (p0 & q0 & Hai & _ & Hk & Hp & _ & Himg & _ & _).
  unfold kept in Hk. injection Hk as _ _ Hpage _ _ _ _ _ _ _ _ Himg'.
  subst result. unfold analyze_all_pages in Hq. cbn [fst] in Hq.
  set (t := collect_questions pm prefer images) in *.
  destruct (resolve_ends_fits images (all_questions t)
              (refine_heights (collect_ocr images) (all_questions t) (heap t)) r q)
    as (e & He & Hle); try assumption.
  - intros p. now apply height_of_bounds.
  - apply refine_heights_within. now apply collect_questions_within.
  - apply Forall_forall. intros entry Hentry.
    apply list_elem_of_lookup in Hentry as [j Hj].
    destruct (PipelineFacts.collect_questions_inv pm prefer images) as [_ Hfiled].
    destruct (Hfiled j entry Hj) as (q1 & Hq1 & Hp1 & _).
    pose proof (PipelineFacts.refine_heights_kept (collect_ocr images) (all_questions t)
                  (heap t)) as Hkept.
    apply (f_equal (fun l => l !! entry.2)) in Hkept.
    rewrite !list_lookup_fmap in Hkept. fold t in Hq1. rewrite Hq1 in Hkept.
    destruct (refine_heights _ _ _ !! entry.2) as [q2|]; [|discriminate].
    exists q2. split; [reflexivity|]. cbn in Hkept. unfold kept in Hkept.
    injection Hkept as _ _ Hk2 _ _ _ _ _ _ _ _ _. congruence.
  - apply in_map_iff. exists (p0, r). split; [reflexivity|].
    apply list_elem_of_In. eapply list_elem_of_lookup_2, Hai.
  - exists e. split; [assumption|]. split; [assumption|]. congruence.
Qed.


End CropFacts.

(** ** The cropper *)

(** X18: for a question without [cross_page_merged] whose [end_y] is
    not below its [image_height], [_crop_question] never raises and
    never pastes two pages: it returns either one crop of the image of
    the question's page, a box inside the image
    ([0 <= x1 < x2 = width], [0 <= y1 < y2 = end_y <= image_height],
    [y1] being the start moved up by half a line height, not above 0),
    or no image, exactly when that box would be empty. *)
Theorem crop_question_same_page (margin_h : Z) (job : ImageCropper.Job) (e : Z) :
  let q := ImageCropper.job_question job in
  let image := ImageCropper.page_image job in
  let image_height := default (ImageCropper.pic_height image) (q_image_height q) in
  let x1 := Z.max 0 (ImageCropper.start_x job - margin_h) in
  let y1 := Z.max 0 (ImageCropper.start_row q) in
  q_cross_page_merged q = false -> q_end_y q = Some e -> e <= image_height ->
  match ImageCropper._crop_question margin_h job with
  | ImageCropper.Cropped pieces =>
      pieces = [(image, (x1, y1, ImageCropper.pic_width image, e))] /\
      0 <= x1 < ImageCropper.pic_width image /\ 0 <= y1 < e
  | ImageCropper.NoImage => ImageCropper.pic_width image <= x1 \/ e <= y1
  | ImageCropper.Raises => False
  end.
Proof. exact (CropFacts.crop_same_page margin_h job e). Qed.

Lemma crop_question_same_page_witness :
  match ImageCropper._crop_question 5 MoreSamples.early_end_job with
  | ImageCropper.Cropped pieces =>
      pieces = [(ImageCropper.mkPicture 800 1000, (0, 90, 800, 300))] /\
      0 <= 0 < 800 /\ 0 <= 90 < 300
  | ImageCropper.NoImage => 800 <= 0 \/ 300 <= 90
  | ImageCropper.Raises => False
  end.
Proof.
  apply (crop_question_same_page 5 MoreSamples.early_end_job 300);
    [reflexivity|reflexivity|cbn; lia].
Defined.

(** X19: on a document whose recognized polygons do not reach below
    the bottom of their page (page heights below [2^45]), every question
    of the output of [analyze_all_pages] that is not merged across pages
    has its [end_y] on its own page, at or above the bottom,
    [end_y <= image_height]. The cropper therefore cuts it from the
    image of its page alone: [_crop_question] does not raise, and its
    branch [_crop_cross_page] is never taken, also for a question with
    [potential_cross_page] or [cross_page]. *)
Theorem unmerged_question_cropped_from_its_page (pm : PatternMatcher)
    (prefer_chinese_primary : bool) (images : list LayoutAnalyzer.Page) (margin_h : Z)
    (i r : nat) (q : Question) (job : ImageCropper.Job) :
  let result := LayoutAnalyzer.analyze_all_pages pm prefer_chinese_primary images in
  Invariants.fits images ->
  result.2 !! i = Some r -> result.1 !! r = Some q ->
  q_cross_page_merged q = false -> ImageCropper.job_question job = q ->
  (exists e,
     q_end_y q = Some e /\ e <= LayoutAnalyzer.height_of images (q_page q) /\
     q_image_height q = Some (LayoutAnalyzer.height_of images (q_page q))) /\
  match ImageCropper._crop_question margin_h job with
  | ImageCropper.Cropped pieces => exists box, pieces = [(ImageCropper.page_image job, box)]
  | ImageCropper.NoImage => True
  | ImageCropper.Raises => False
  end.
Proof.
  intros result Hf Hi Hq Hm Hjob.
  destruct (CropFacts.output_unmerged_fits pm prefer_chinese_primary images i r q Hf Hi Hq Hm)
    as (e & He & Hle & Himg).
  split; [eauto|].
  pose proof (CropFacts.crop_same_page margin_h job e) as Hc. cbv zeta in Hc.
  rewrite Hjob, Himg in Hc. specialize (Hc Hm He Hle).
  destruct (ImageCropper._crop_question margin_h job) as [pieces| |];
    [|exact I|exact Hc].
  destruct Hc as [-> _]. eauto.
Qed.

Lemma unmerged_question_cropped_from_its_page_witness :
  (exists e,
     q_end_y Samples.early_end_question = Some e /\
     e <= LayoutAnalyzer.height_of Samples.early_end_document
            (q_page Samples.early_end_question) /\
     q_image_height Samples.early_end_question
     = Some (LayoutAnalyzer.height_of Samples.early_end_document
               (q_page Samples.early_end_question))) /\
  match ImageCropper._crop_question 5 MoreSamples.early_end_job with
  | ImageCropper.Cropped pieces =>
      exists box, pieces = [(ImageCropper.page_image MoreSamples.early_end_job, box)]
  | ImageCropper.NoImage => True
  | ImageCropper.Raises => False
  end.
Proof.
  apply (unmerged_question_cropped_from_its_page Config.default_matcher true
           Samples.early_end_document 5 0 0 Samples.early_end_question
           MoreSamples.early_end_job);
    [|vm_compute; reflexivity|vm_compute; reflexivity|reflexivity|reflexivity].
  repeat constructor; try (cbn; lia).
  intros line p Hline Hp. simpl in Hline.
  repeat (destruct Hline as [<-|Hline];
          [simpl in Hp; repeat (destruct Hp as [<-|Hp]; [simpl; lia|]); destruct Hp|]).
  destruct Hline.
Defined.



Module ScanFacts.

Import ZoneExtractor ScanInvariants.

Lemma same_place_refl (z : Zone) : same_place z z.
Proof. reflexivity. Qed.

Lemma same_place_set_height (v : Z) (a b : Zone) :
  same_place a b -> same_place (set_height v a) b.
Proof. unfold same_place. now intros <-. Qed.

(** Every zone of the result is a zone of the input, grown. *)
Lemma merge_from_same_place (rest : list Zone) (current head : Zone) :
  same_place current head ->
  Forall (fun z => exists z0, z0 ∈ head :: rest /\ same_place z z0)
    (merge_from current rest).
Proof.
  revert current head. induction rest as [|n rest IH]; intros current head Hc; simpl.
  - constructor; [|constructor]. exists head. split; [left|exact Hc].
  - destruct (mergeable current n).
    + specialize (IH (absorb current n) head).
      eapply Forall_impl; [apply IH; now apply same_place_set_height|].
      intros z (z0 & Hin & Hs). exists z0. split; [|exact Hs].
      apply elem_of_cons in Hin as [->|Hin]; [left|right; now right].
    + constructor.
      * exists head. split; [left|exact Hc].
      * eapply Forall_impl; [apply (IH n n); reflexivity|].
        intros z (z0 & Hin & Hs). exists z0. split; [now right|exact Hs].
Qed.

Lemma merge_adjacent_zones_same_place (zones : list Zone) :
  Forall (fun z => exists z0, z0 ∈ zones /\ same_place z z0) (merge_adjacent_zones zones).
Proof.
  destruct zones as [|z rest]; [constructor|]. simpl.
  now apply merge_from_same_place.
Qed.

Lemma merge_from_nonempty (rest : list Zone) (current : Zone) : merge_from current rest <> [].
Proof.
  revert current. induction rest as [|n rest IH]; intros current; simpl; [discriminate|].
  destruct (mergeable current n); [apply IH|discriminate].
Qed.

(** The bottom of the last zone is not moved. *)
Lemma merge_from_last (rest : list Zone) (current : Zone) :
  exists z, last (merge_from current rest) = Some z /\
    z_y z + z_height z
    = z_y (default current (last rest)) + z_height (default current (last rest)).
Proof.
  revert current. induction rest as [|n rest IH]; intros current; simpl.
  - now exists current.
  - destruct (mergeable current n).
    + destruct (IH (absorb current n)) as (z & Hl & Hz). exists z. split; [exact Hl|].
      rewrite Hz, last_cons. destruct (last rest); [reflexivity|cbn; lia].
    + destruct (IH n) as (z & Hl & Hz). exists z. split.
      * rewrite last_cons, Hl. reflexivity.
      * rewrite Hz. rewrite last_cons. now destruct (last rest).
Qed.

Section WithMatcher.

Variable pm : PatternMatcher.
Variable matches_answer_pattern : string -> bool.
Variable strip : string -> string.

Local Abbreviation scan_line := (ZoneExtractor.scan_line pm matches_answer_pattern strip).
Local Abbreviation scan := (ZoneExtractor.scan pm matches_answer_pattern strip).
Local Abbreviation opening := (ZoneExtractor.opening pm matches_answer_pattern).
Local Abbreviation opened_at := (ZoneExtractor.opened_at pm matches_answer_pattern).

Ltac branches :=
  repeat match goal with
         | |- context [if ?c then _ else _] => destruct c eqn:?
         | |- context [match sc_question ?s with _ => _ end] => destruct (sc_question s) eqn:?
         | |- context [match sc_answer ?s with _ => _ end] => destruct (sc_answer s) eqn:?
         end.

(** *** Nothing opens, or a zone stays open *)

Lemma scan_line_started (page_width : Z) (entry : option Line) (st : Scan) :
  started st -> started (scan_line page_width entry st).
Proof.
  intros H. destruct entry as [l|]; [|exact H].
  unfold ZoneExtractor.scan_line, open_zone, close_and_open. unfold started in *.
  branches; cbn; try (left; eauto; fail); try (right; eauto; fail); try exact H.
  all: destruct H as [[? H]|[? H]]; try discriminate; eauto.
  all: try (right; rewrite H; eauto); try (left; rewrite H; eauto).
Qed.

Lemma scan_started (page_width : Z) (ocr_result : OcrResult) (st : Scan) :
  started st -> started (scan page_width ocr_result st).
Proof.
  revert st. induction ocr_result as [|e rest IH]; intros st H; [exact H|].
  apply IH. now apply scan_line_started.
Qed.

Lemma scan_line_opening (page_width : Z) (l : Line) (st : Scan) :
  opening l = true -> started (scan_line page_width (Some l) st).
Proof.
  unfold ZoneExtractor.opening, ZoneExtractor.scan_line, open_zone, close_and_open, started. intros H.
  branches; cbn; try (left; eauto; fail); try (right; eauto; fail).
  all: cbn in H; try discriminate.
  all: try (rewrite ?orb_false_l in H; congruence).
Qed.

Lemma scan_line_idle (page_width : Z) (entry : option Line) :
  (forall l, entry = Some l -> opening l = false) ->
  scan_line page_width entry initial_scan = initial_scan.
Proof.
  destruct entry as [l|]; [|reflexivity]. intros H. specialize (H l eq_refl).
  unfold ZoneExtractor.opening in H. apply orb_false_iff in H as [Hq Ha].
  unfold ZoneExtractor.scan_line. cbn. now rewrite Hq, Ha.
Qed.

Lemma scan_idle (page_width : Z) (ocr_result : OcrResult) :
  Forall (fun entry => forall l, entry = Some l -> opening l = false) ocr_result ->
  scan page_width ocr_result initial_scan = initial_scan.
Proof.
  induction 1 as [|e rest He _ IH]; [reflexivity|].
  unfold ZoneExtractor.scan. cbn [fold_left]. rewrite scan_line_idle by exact He. exact IH.
Qed.

Lemma scan_opening (page_width : Z) (ocr_result : OcrResult) (st : Scan) :
  Exists (fun entry => exists l, entry = Some l /\ opening l = true) ocr_result ->
  started (scan page_width ocr_result st).
Proof.
  intros H. revert st. induction H as [e rest (l & -> & Hl)|e rest _ IH]; intros st.
  - apply (scan_started page_width rest). now apply scan_line_opening.
  - apply (IH (scan_line page_width e st)).
Qed.

Lemma opening_or_not (ocr_result : OcrResult) :
  Forall (fun entry => forall l, entry = Some l -> opening l = false) ocr_result
  \/ Exists (fun entry => exists l, entry = Some l /\ opening l = true) ocr_result.
Proof.
  induction ocr_result as [|e rest IH]; [left; constructor|].
  destruct e as [l|].
  - destruct (opening l) eqn:E.
    + right. left. eauto.
    + destruct IH as [IH|IH]; [left|right; now right].
      constructor; [|exact IH]. now intros ? [= <-].
  - destruct IH as [IH|IH]; [left|right; now right].
    constructor; [discriminate|exact IH].
Qed.

Lemma close_page_started (page_height : Z) (st : Scan) :
  started st ->
  exists z, last (close_page page_height st) = Some z /\ z_y z + z_height z = page_height.
Proof.
  unfold started, close_page. intros H.
  destruct (sc_answer st) as [a|] eqn:Ea.
  - exists (to_bottom page_height a). split; [|cbn; lia].
    cbn. now rewrite app_assoc, last_snoc.
  - destruct H as [[q Hq]|[? [=]]]. rewrite Hq. cbn. rewrite last_snoc.
    exists (to_bottom page_height q). split; [reflexivity|cbn; lia].
Qed.

(** *** Where the zones come from *)

Lemma opened_at_same_place (page_width : Z) (l : Line) (a b : Zone) :
  same_place a b -> opened_at page_width l b -> opened_at page_width l a.
Proof.
  unfold same_place, set_height, ZoneExtractor.opened_at. intros H.
  injection H as -> -> -> -> ->. exact id.
Qed.

Local Abbreviation origin lines page_width :=
  (fun z => exists l, lines l /\ opened_at page_width l z).

Lemma from_reach (lines : Line -> Prop) (page_width : Z) (l : Line) (z : Zone) :
  origin lines page_width z -> origin lines page_width (reach l z).
Proof.
  intros (l0 & Hl & Hz). exists l0. split; [exact Hl|].
  eapply opened_at_same_place; [|exact Hz]. reflexivity.
Qed.

Lemma from_new_question (lines : Line -> Prop) (page_width : Z) (l : Line)
    (flag : option bool) :
  lines l ->
  (matches_question_pattern pm (line_text l) || is_chinese_number_question pm (line_text l)
   || is_sub_question pm (line_text l)) = true ->
  origin lines page_width (new_zone "question" page_width l flag).
Proof.
  intros Hl Hq. exists l. split; [exact Hl|].
  unfold ZoneExtractor.opened_at, new_zone; cbn. repeat split. now left.
Qed.

Lemma from_new_answer (lines : Line -> Prop) (page_width : Z) (l : Line) :
  lines l ->
  matches_question_pattern pm (line_text l) = false ->
  matches_answer_pattern (line_text l) = true ->
  origin lines page_width (new_zone "answer" page_width l None).
Proof.
  intros Hl Hq Ha. exists l. split; [exact Hl|].
  unfold ZoneExtractor.opened_at, new_zone; cbn. repeat split. now right.
Qed.

Lemma scan_line_from (lines : Line -> Prop) (page_width : Z) (entry : option Line)
    (st : Scan) :
  (forall l, entry = Some l -> lines l) ->
  all_open (origin lines page_width) st ->
  all_open (origin lines page_width) (scan_line page_width entry st).
Proof.
  intros He (Hz & Hq & Ha). destruct entry as [l|]; [|now repeat split].
  specialize (He l eq_refl).
  assert (Hq' : Forall (origin lines page_width) (option_list (sc_question st))).
  { destruct (sc_question st); [apply Forall_singleton; eauto|constructor]. }
  assert (Ha' : Forall (origin lines page_width) (option_list (sc_answer st))).
  { destruct (sc_answer st); [apply Forall_singleton; eauto|constructor]. }
  unfold ZoneExtractor.scan_line, open_zone, close_and_open, all_open.
  branches; cbn [sc_zones sc_question sc_answer].
  all: rewrite ?Forall_app, ?Forall_singleton.
  all: repeat match goal with
              | |- _ /\ _ => split
              | |- forall z, None = Some z -> _ => discriminate
              | |- forall z, Some _ = Some z -> _ => intros ? [= <-]
              end.
  all: try assumption.
  all: try (apply from_reach; eauto; fail).
  all: try (apply from_new_answer; assumption).
  all: try (apply from_new_question; [assumption|]).
  all: try (destruct (matches_question_pattern pm (line_text l)),
                     (is_chinese_number_question pm (line_text l)),
                     (is_sub_question pm (line_text l)); cbn in *; congruence).
  all: intros z' E; first [congruence | apply Hq; congruence].
Qed.

Lemma scan_from (lines : Line -> Prop) (page_width : Z) (ocr_result : OcrResult)
    (st : Scan) :
  Forall (fun entry => forall l, entry = Some l -> lines l) ocr_result ->
  all_open (origin lines page_width) st ->
  all_open (origin lines page_width) (scan page_width ocr_result st).
Proof.
  intros H. revert st. induction H as [|e rest He _ IH]; intros st Hst; [exact Hst|].
  apply (IH (scan_line page_width e st)). now apply scan_line_from.
Qed.

Lemma close_page_from (lines : Line -> Prop) (page_width page_height : Z) (st : Scan) :
  all_open (origin lines page_width) st ->
  Forall (origin lines page_width) (close_page page_height st).
Proof.
  intros (Hz & Hq & Ha). unfold close_page. rewrite !Forall_app. split; [exact Hz|].
  split.
  - destruct (sc_question st) as [q|]; [|constructor]. apply Forall_singleton.
    destruct (Hq q eq_refl) as (l & Hl & Ho). exists l. split; [exact Hl|].
    eapply opened_at_same_place; [|exact Ho]. reflexivity.
  - destruct (sc_answer st) as [a|]; [|constructor]. apply Forall_singleton.
    destruct (Ha a eq_refl) as (l & Hl & Ho). exists l. split; [exact Hl|].
    eapply opened_at_same_place; [|exact Ho]. reflexivity.
Qed.

Lemma extract_zones_from (ocr_result : OcrResult) (page_width page_height : Z) :
  Forall (origin (fun l => Some l ∈ ocr_result) page_width)
    (extract_zones pm matches_answer_pattern strip ocr_result (page_width, page_height)).
Proof.
  unfold extract_zones.
  set (zones := close_page page_height _).
  assert (Hz : Forall (origin (fun l => Some l ∈ ocr_result) page_width) zones).
  { apply close_page_from, scan_from.
    - apply Forall_forall. now intros e He l ->.
    - repeat split; [constructor|discriminate|discriminate]. }
  eapply Forall_impl; [apply merge_adjacent_zones_same_place|].
  intros z (z0 & Hin & Hs). rewrite Forall_forall in Hz.
  destruct (Hz z0 Hin) as (l & Hl & Ho). exists l. split; [exact Hl|].
  now apply (opened_at_same_place page_width l z z0).
Qed.

(** *** Answers first *)

Lemma answers_first_answers (zones : list Zone) :
  Forall is_answer zones -> answers_first zones.
Proof. induction 1; [exact I|]. left. now split. Qed.

Lemma answers_first_questions (zones : list Zone) :
  Forall is_question zones -> answers_first zones.
Proof. destruct zones; [easy|]. now right. Qed.

Lemma answers_first_snoc (zones : list Zone) (z : Zone) :
  answers_first zones -> is_question z -> answers_first (zones ++ [z]).
Proof.
  intros H Hz. induction zones as [|a zones IH]; simpl.
  - right. now constructor.
  - destruct H as [[Ha H]|H].
    + left. split; [exact Ha|now apply IH].
    + right. change (Forall is_question ((a :: zones) ++ [z])).
      apply Forall_app. split; [exact H|now constructor].
Qed.

Lemma answers_first_split (zones : list Zone) :
  answers_first zones ->
  exists answers questions,
    zones = answers ++ questions /\ Forall is_answer answers /\ Forall is_question questions.
Proof.
  induction zones as [|a zones IH]; intros H.
  - exists [], []. now repeat split.
  - destruct H as [[Ha H]|H].
    + destruct (IH H) as (an & qu & -> & Han & Hqu).
      exists (a :: an), qu. repeat split; [now constructor|exact Hqu].
    + exists [], (a :: zones). now repeat split.
Qed.

Lemma is_question_same_place (a b : Zone) : same_place a b -> is_question b -> is_question a.
Proof.
  unfold same_place, set_height, is_question. intros H. now injection H as -> _ _ _ _.
Qed.

Lemma merge_from_questions (rest : list Zone) (current : Zone) :
  Forall is_question (current :: rest) -> Forall is_question (merge_from current rest).
Proof.
  intros H. eapply Forall_impl; [apply (merge_from_same_place rest current current); reflexivity|].
  intros z (z0 & Hin & Hs). rewrite Forall_forall in H.
  eapply is_question_same_place; eauto.
Qed.

Lemma merge_from_answers_first (rest : list Zone) (current : Zone) :
  answers_first (current :: rest) -> answers_first (merge_from current rest).
Proof.
  revert current. induction rest as [|n rest IH]; intros current H; [exact H|].
  destruct H as [[Ha H]|H]; [|now apply answers_first_questions, merge_from_questions].
  cbn [merge_from]. destruct (mergeable current n) eqn:E.
  - apply IH. destruct H as [[_ H]|H].
    + left. now split.
    + apply ZoneFacts.mergeable_type in E. apply Forall_cons in H as [Hn _].
      unfold is_answer, is_question in *. congruence.
  - left. split; [exact Ha|]. now apply IH.
Qed.

Hypothesis blank_is_no_answer :
  forall text, strip text = EmptyString -> matches_answer_pattern text = false.

Lemma scan_line_one_open (page_width : Z) (entry : option Line) (st : Scan) :
  one_open st -> one_open (scan_line page_width entry st).
Proof.
  intros H. destruct entry as [l|]; [|exact H].
  unfold one_open in H.
  destruct st as [zones [cq|] [ca|] chinese]; cbn [sc_zones sc_question sc_answer] in H;
    try contradiction; destruct H as [H1 H2].
  all: unfold ZoneExtractor.scan_line, open_zone, close_and_open.
  all: cbn [sc_zones sc_question sc_answer sc_chinese option_list].
  all: branches; unfold one_open;
       cbn [sc_zones sc_question sc_answer sc_chinese option_list app].
  all: rewrite ?app_nil_r.
  all: try (split; [reflexivity|]).
  all: try (apply answers_first_snoc; assumption).
  all: try (split; assumption).
  all: try (now apply answers_first_answers).
  all: try (apply negb_false_iff, String.eqb_eq, blank_is_no_answer in Heqb0; congruence).
  all: try (apply answers_first_answers).
  all: rewrite ?Forall_app, ?Forall_singleton.
  all: repeat split; try assumption; try (apply H2; reflexivity).
  all: cbn [option_list]; rewrite ?Forall_singleton; try (apply H2; reflexivity).
  all: try (now intros ? [= <-]).
  all: first [now apply Forall_nil | apply Forall_singleton, H2; reflexivity].
Qed.

Lemma scan_one_open (page_width : Z) (ocr_result : OcrResult) (st : Scan) :
  one_open st -> one_open (scan page_width ocr_result st).
Proof.
  revert st. induction ocr_result as [|e rest IH]; intros st H; [exact H|].
  apply (IH (scan_line page_width e st)). now apply scan_line_one_open.
Qed.

Lemma close_page_answers_first (page_height : Z) (st : Scan) :
  one_open st -> answers_first (close_page page_height st).
Proof.
  unfold one_open, close_page.
  destruct (sc_question st) as [q|], (sc_answer st) as [a|]; cbn; try contradiction.
  - intros [Hq Hz]. now apply answers_first_snoc.
  - intros [Hz Ha]. apply answers_first_answers, Forall_app. split; [exact Hz|].
    apply Forall_singleton. exact (Ha a eq_refl).
  - intros [Hz _]. rewrite app_nil_r. now apply answers_first_answers.
Qed.

Lemma extract_zones_answers_first (ocr_result : OcrResult) (page_size : Z * Z) :
  answers_first (extract_zones pm matches_answer_pattern strip ocr_result page_size).
Proof.
  destruct page_size as [page_width page_height]. unfold extract_zones.
  pose proof (close_page_answers_first page_height
                (scan page_width ocr_result initial_scan)) as H.
  destruct (close_page _ _) as [|z rest]; [exact I|].
  apply merge_from_answers_first, H, scan_one_open.
  split; [constructor|discriminate].
Qed.

(** *** Under a major heading *)

Lemma scan_under_heading (page_width : Z) (heading : Line) (ocr_result : OcrResult)
    (v : Z) :
  Forall (fun entry => forall l, entry = Some l ->
            is_chinese_number_question pm (line_text l) = false /\
            (matches_question_pattern pm (line_text l) = true ->
             is_sub_question pm (line_text l) = true)) ocr_result ->
  exists v',
    scan page_width ocr_result
      (mkScan [] (Some (set_height v (new_zone "question" page_width heading (Some true))))
         None true)
    = mkScan [] (Some (set_height v' (new_zone "question" page_width heading (Some true))))
        None true.
Proof.
  intros H. revert v. induction H as [|e rest He _ IH]; intros v; [now exists v|].
  unfold ZoneExtractor.scan. cbn [fold_left].
  destruct e as [l|]; [|apply IH]. destruct (He l eq_refl) as [Hc Hs].
  unfold ZoneExtractor.scan_line at 2. cbn [sc_zones sc_question sc_answer sc_chinese].
  rewrite Hc. destruct (matches_question_pattern pm (line_text l)) eqn:Eq.
  - rewrite (Hs eq_refl). apply IH.
  - destruct (negb _) eqn:Eb.
    + rewrite andb_false_r. apply IH.
    + apply negb_false_iff, String.eqb_eq, blank_is_no_answer in Eb. rewrite Eb. apply IH.
Qed.

End WithMatcher.

End ScanFacts.

(** X21: every zone that [extract_zones] returns starts at the top of
    a line of the page and spans the width of the page ([x = 0],
    [width = page_width]), also when zones were merged; its [text] is
    the text of that line. A question zone starts at a line that matches
    a question pattern or is a major or minor heading; an answer zone
    at a line that matches an answer pattern and no question pattern. *)
Theorem zones_start_at_lines (pm : PatternMatcher) (matches_answer_pattern : string -> bool)
    (strip : string -> string) (ocr_result : OcrResult) (page_width page_height : Z) :
  Forall (fun z => exists l, Some l ∈ ocr_result /\
                     ZoneExtractor.opened_at pm matches_answer_pattern page_width l z)
    (ZoneExtractor.extract_zones pm matches_answer_pattern strip ocr_result
       (page_width, page_height)).
Proof. apply ScanFacts.extract_zones_from. Qed.

(** X22: when no answer pattern matches a text that is blank (for the
    patterns of a configuration this is so unless one matches the empty
    text), [extract_zones] returns answer zones only before the first
    question zone. Once a question is open, a line that reads like an
    answer is text of the question: the branch for answers is behind
    the test [current_question and line_text.strip()], and
    [current_question] is never reset. *)
Theorem answer_zones_come_first (pm : PatternMatcher)
    (matches_answer_pattern : string -> bool) (strip : string -> string)
    (ocr_result : OcrResult) (page_size : Z * Z) :
  (forall text, strip text = EmptyString -> matches_answer_pattern text = false) ->
  exists answers questions,
    ZoneExtractor.extract_zones pm matches_answer_pattern strip ocr_result page_size
    = answers ++ questions /\
    Forall (fun z => ZoneExtractor.z_type z = "answer"%string) answers /\
    Forall (fun z => ZoneExtractor.z_type z = "question"%string) questions.
Proof.
  intros H. apply ScanFacts.answers_first_split.
  now apply ScanFacts.extract_zones_answers_first.
Qed.

Lemma answer_zones_come_first_witness :
  exists answers questions,
    ZoneExtractor.extract_zones Config.default_matcher ConfigAnswers.matches_answer_pattern
      Config.strip ZoneSamples.answers_page (800, 1000)
    = answers ++ questions /\
    Forall (fun z => ZoneExtractor.z_type z = "answer"%string) answers /\
    Forall (fun z => ZoneExtractor.z_type z = "question"%string) questions.
Proof.
  apply (answer_zones_come_first Config.default_matcher
           ConfigAnswers.matches_answer_pattern Config.strip ZoneSamples.answers_page
           (800, 1000)).
  intros text H. unfold ConfigAnswers.matches_answer_pattern. rewrite H. reflexivity.
Defined.

(** X23: [extract_zones] returns no zone exactly when no line of the
    page matches a question pattern or an answer pattern. *)
Theorem no_zone_iff_no_opening_line (pm : PatternMatcher)
    (matches_answer_pattern : string -> bool) (strip : string -> string)
    (ocr_result : OcrResult) (page_size : Z * Z) :
  ZoneExtractor.extract_zones pm matches_answer_pattern strip ocr_result page_size = []
  <-> Forall (fun entry => forall l, entry = Some l ->
                ZoneExtractor.opening pm matches_answer_pattern l = false) ocr_result.
Proof.
  destruct page_size as [page_width page_height]. unfold ZoneExtractor.extract_zones. split.
  - intros H.
    destruct (ScanFacts.opening_or_not pm matches_answer_pattern ocr_result) as [Hn|He];
      [exact Hn|exfalso].
    apply (ScanFacts.scan_opening pm matches_answer_pattern strip page_width ocr_result
             ZoneExtractor.initial_scan) in He.
    apply (ScanFacts.close_page_started page_height) in He as (z & Hl & _).
    destruct (ZoneExtractor.close_page _ _) as [|c rest]; [discriminate|].
    exact (ScanFacts.merge_from_nonempty rest c H).
  - intros H. now rewrite ScanFacts.scan_idle.
Qed.

(** X24: the last zone that [extract_zones] returns reaches to the
    bottom of the page, [y + height = page_height], whatever the lines
    and whatever was merged. *)
Theorem last_zone_reaches_bottom (pm : PatternMatcher)
    (matches_answer_pattern : string -> bool) (strip : string -> string)
    (ocr_result : OcrResult) (page_width page_height : Z) :
  match last (ZoneExtractor.extract_zones pm matches_answer_pattern strip ocr_result
                (page_width, page_height)) with
  | Some z => ZoneExtractor.z_y z + ZoneExtractor.z_height z = page_height
  | None => True
  end.
Proof.
  unfold ZoneExtractor.extract_zones.
  destruct (ScanFacts.opening_or_not pm matches_answer_pattern ocr_result) as [Hn|He].
  - now rewrite ScanFacts.scan_idle.
  - apply (ScanFacts.scan_opening pm matches_answer_pattern strip page_width ocr_result
             ZoneExtractor.initial_scan) in He.
    apply (ScanFacts.close_page_started page_height) in He as (z0 & Hl & Hz0).
    destruct (ZoneExtractor.close_page _ _) as [|c rest]; [discriminate|].
    cbn [ZoneExtractor.merge_adjacent_zones].
    destruct (ScanFacts.merge_from_last rest c) as (z & -> & Hz). rewrite Hz.
    rewrite last_cons in Hl. destruct (last rest); injection Hl as ->; exact Hz0.
Qed.

(** X25: on a page that starts with a major heading and has no other,
    whose lines that match a question pattern are minor headings,
    [extract_zones] returns one zone: from the top of the heading to
    the bottom of the page. *)
Theorem heading_zone_covers_page (pm : PatternMatcher)
    (matches_answer_pattern : string -> bool) (strip : string -> string)
    (heading : Line) (ocr_result : OcrResult) (page_width page_height : Z) :
  (forall text, strip text = EmptyString -> matches_answer_pattern text = false) ->
  matches_question_pattern pm (line_text heading) = true ->
  is_chinese_number_question pm (line_text heading) = true ->
  Forall (fun entry => forall l, entry = Some l ->
            is_chinese_number_question pm (line_text l) = false /\
            (matches_question_pattern pm (line_text l) = true ->
             is_sub_question pm (line_text l) = true)) ocr_result ->
  ZoneExtractor.extract_zones pm matches_answer_pattern strip (Some heading :: ocr_result)
    (page_width, page_height)
  = [ZoneExtractor.mkZone "question" 0 (line_y_min heading) page_width
       (page_height - line_y_min heading) (line_text heading, Some true)].
Proof.
  intros Hb Hq Hc Hrest. unfold ZoneExtractor.extract_zones, ZoneExtractor.scan. cbn [fold_left].
  assert (Hstep : ZoneExtractor.scan_line pm matches_answer_pattern strip page_width
                    (Some heading) ZoneExtractor.initial_scan
                  = ZoneExtractor.mkScan []
                      (Some (ZoneExtractor.set_height 0
                               (ZoneExtractor.new_zone "question" page_width heading (Some true))))
                      None true).
  { unfold ZoneExtractor.scan_line. now rewrite Hq, Hc. }
  rewrite Hstep.
  destruct (ScanFacts.scan_under_heading pm matches_answer_pattern strip Hb page_width
              heading ocr_result 0 Hrest) as [v' Hv].
  unfold ZoneExtractor.scan in Hv. rewrite Hv. reflexivity.
Qed.

Lemma heading_zone_covers_page_witness :
  ZoneExtractor.extract_zones Config.default_matcher ConfigAnswers.matches_answer_pattern
    Config.strip ZoneSamples.heading_page (800, 1000)
  = [ZoneExtractor.mkZone "question" 0 50 800 950 ("一、选择题"%string, Some true)].
Proof.
  apply (heading_zone_covers_page Config.default_matcher
           ConfigAnswers.matches_answer_pattern Config.strip
           (Samples.ln 0 50 300 30 "一、选择题")
           [ Some (Samples.ln 0 100 200 20 "1.first"); Some (Samples.ln 0 150 200 20 "text");
             Some (Samples.ln 0 200 200 20 "2.second") ] 800 1000).
  - intros text H. unfold ConfigAnswers.matches_answer_pattern. rewrite H. reflexivity.
  - reflexivity.
  - reflexivity.
  - repeat (constructor; [intros l [= <-]; vm_compute; auto|]). constructor.
Defined.

(** X26: the box that [_apply_margin] makes of a zone is never
    rejected by [_is_valid_box] for being outside the image: the
    margins are cut at the borders. The box is valid exactly when it is
    not empty and has the minimal width and height. *)
Theorem margin_box_inside_image (margin_v margin_h min_zone_height min_zone_width : Z)
    (zone : ZoneExtractor.Zone) (image_size : Z * Z) :
  let box := ImageCropper._apply_margin margin_v margin_h zone image_size in
  let verdict := ImageCropper._is_valid_box min_zone_height min_zone_width box image_size in
  verdict <> ImageCropper.OutsideImage /\
  (verdict = ImageCropper.Valid <->
   box.1.1.1 < box.1.2 /\ box.1.1.2 < box.2 /\
   min_zone_width <= box.1.2 - box.1.1.1 /\ min_zone_height <= box.2 - box.1.1.2).
Proof.
  destruct image_size as [w h]. unfold ImageCropper._apply_margin, ImageCropper._is_valid_box.
  cbn [fst snd].
  set (x1 := Z.max 0 _). set (y1 := Z.max 0 _). set (x2 := Z.min w _). set (y2 := Z.min h _).
  assert (0 <= x1) by apply Z.le_max_l. assert (0 <= y1) by apply Z.le_max_l.
  assert (x2 <= w) by apply Z.le_min_l. assert (y2 <= h) by apply Z.le_min_l.
  clearbody x1 y1 x2 y2.
  destruct (x1 >=? x2) eqn:E1, (y1 >=? y2) eqn:E2; cbn [orb];
    try (split; [discriminate|split; [discriminate|lia]]).
  destruct (x1 <? 0) eqn:E3; [lia|]. destruct (y1 <? 0) eqn:E4; [lia|].
  destruct (x2 >? w) eqn:E5; [lia|]. destruct (y2 >? h) eqn:E6; [lia|]. cbn [orb].
  destruct (x2 - x1 <? min_zone_width) eqn:E7;
    [split; [discriminate|split; [discriminate|lia]]|].
  destruct (y2 - y1 <? min_zone_height) eqn:E8;
    [split; [discriminate|split; [discriminate|lia]]|].
  split; [discriminate|]. split; [lia|reflexivity].
Qed.

Module AnswerFacts.

Import Config ConfigAnswers.

Lemma strip_prefix_app (p s r : string) : strip_prefix p s = Some r -> s = (p ++ r)%string.
Proof.
  revert s. induction p as [|a p IH]; intros s; simpl.
  - now intros [= ->].
  - destruct s as [|b s]; [discriminate|].
    destruct (Ascii.eqb a b) eqn:E; [|discriminate].
    apply Ascii.eqb_eq in E as ->. intros H. now rewrite (IH s H).
Qed.

Lemma one_of_app (ps : list string) (s r : string) :
  one_of ps s = Some r -> Exists (fun p => exists r', s = (p ++ r')%string) ps.
Proof.
  induction ps as [|p ps IH]; simpl; [discriminate|].
  destruct (strip_prefix p s) as [r'|] eqn:E.
  - intros _. left. exists r'. now apply strip_prefix_app.
  - intros H. right. now apply IH.
Qed.

Ltac alternatives :=
  repeat match goal with
         | H : Exists _ (_ :: _) |- _ => apply Exists_cons in H as [H|H]
         | H : Exists _ [] |- _ => apply Exists_nil in H; destruct H
         | H : exists _, _ |- _ => destruct H
         end.

(** How a text starts that matches an answer pattern. *)
Lemma answer_pattern_start (s : string) :
  answer_pattern s = true ->
  Exists (fun p => exists r, s = (p ++ r)%string) (answer_titles ++ ["A"; "a"]%string).
Proof.
  unfold answer_pattern. intros H. apply orb_true_iff in H as [H|H];
    apply bool_decide_eq_true in H as [r H].
  - apply Exists_app. left. exact (one_of_app _ _ _ H).
  - apply Exists_app. right. unfold answer_word in H. cbn [letters] in H.
    destruct (one_of ["A"; "a"]%string s) as [r'|] eqn:E; [|discriminate].
    exact (one_of_app _ _ _ E).
Qed.

(** How a text starts that matches a question pattern. *)
Lemma question_pattern_start (s : string) :
  chinese_number_pattern s || sub_question_pattern s || type_title_pattern s = true ->
  Exists (fun p => exists r, s = (p ++ r)%string) (chinese_numerals ++ type_titles)
  \/ match s with String c _ => is_digit c = true | EmptyString => False end.
Proof.
  intros H. apply orb_true_iff in H as [H|H]; [apply orb_true_iff in H as [H|H]|].
  - left. apply Exists_app. left. unfold chinese_number_pattern in H.
    destruct (many1 _ _ _) as [r|] eqn:E; [|discriminate].
    apply MatcherFacts.many1_first in E as [r' E]. exact (one_of_app _ _ _ E).
  - right. now apply MatcherFacts.sub_question_first.
  - left. apply Exists_app. right. apply bool_decide_eq_true in H as [r H].
    exact (one_of_app _ _ _ H).
Qed.

Lemma answer_is_no_question (s : string) :
  answer_pattern s = true ->
  chinese_number_pattern s || sub_question_pattern s || type_title_pattern s = false.
Proof.
  intros Ha. apply answer_pattern_start in Ha.
  destruct (_ || _ || _) eqn:Hq; [exfalso|reflexivity].
  apply question_pattern_start in Hq.
  unfold answer_titles, chinese_numerals, type_titles in *. cbn [app] in *.
  destruct Hq as [Hq|Hq].
  - alternatives; subst; discriminate.
  - alternatives; subst; cbn in Hq; discriminate.
Qed.

End AnswerFacts.

(** X27: with the default patterns of [Config], no text matches both
    an answer pattern and a question pattern (the texts as UTF-8): that
    [extract_zones] tests the question patterns first takes no answer
    line away. *)
Theorem default_answer_is_no_question (text : string) :
  ConfigAnswers.matches_answer_pattern text
  && matches_question_pattern Config.default_matcher text = false.
Proof.
  unfold ConfigAnswers.matches_answer_pattern.
  cbn [Config.default_matcher matches_question_pattern].
  destruct (ConfigAnswers.answer_pattern (Config.strip text)) eqn:E; [|reflexivity].
  cbn [andb]. now apply AnswerFacts.answer_is_no_question.
Qed.
